(** * Share-link-gated view tracking and analytics aggregation

    A shallow embedding of the tracking pipeline of the product-demo
    platform: the shared viewer ([SharedDemoViewer], the page behind a share
    token), the public viewer ([DemoViewer]) and the [AnalyticsService]
    class of [lib/analytics.ts], over the tables of [database-schema.sql].

    The asynchronous TypeScript code is embedded as programs over a
    signature of operations.  Each [await supabase...] is one atomic request
    to the store, which accepts it, resolves it with an error, or rejects
    the promise; a single tab is run to completion with [run], and two tabs
    are interleaved operation by operation with [interleave].  The clock of
    a tab stands still while one of its programs runs. *)

From Stdlib Require Import ZArith List String Bool Lia QArith Permutation Sorted.
Import ListNotations.
Close Scope Q_scope.
Local Open Scope string_scope.
Local Open Scope list_scope.
Local Open Scope Z_scope.

Set Implicit Arguments.

(** ** JavaScript values *)

(** [x || 0] on a number: every number but [0] (and [NaN], which the
    integer columns never hold) is truthy. *)
Definition or_zero (x : Z) : Z := if x =? 0 then 0 else x.

(** [s || d] on a string: only the empty string is falsy. *)
Definition or_string (s d : string) : string :=
  if String.eqb s "" then d else s.

(** A JavaScript number that is the result of a division: [NaN], or a
    number, written as the exact quotient of which JavaScript holds the
    nearest double.  What is stated of such a number is only what that
    rounding keeps: that it is a number, that it is 0, and bounds by
    integers. *)
Inductive JsNum : Type :=
| Num (q : Q)
| NaN.

(** Timestamps are instants, in milliseconds since the epoch; this is what
    a [Date] holds and what a [timestamptz] column stores. *)
Definition Instant := Z.

Definition msPerDay : Z := 86400000.

(** ** Rows of the store (lib/supabase.ts, database-schema.sql) *)

Module ShareLink.
Record t : Type := mk {
  id : string;
  demo_id : string;
  token : string;
  expires_at : option Instant;
  is_active : bool;
  created_at : Instant;
  view_count : Z;
  max_views : option Z
}.

Definition with_view_count (n : Z) (l : t) : t :=
  mk (id l) (demo_id l) (token l) (expires_at l) (is_active l)
     (created_at l) n (max_views l).
End ShareLink.

Module Demo.
Record t : Type := mk {
  id : string;
  title : string;
  is_public : bool;
  owner_id : string
}.
End Demo.

Module DemoStep.
Record t : Type := mk {
  id : string;
  demo_id : string;
  title : option string;
  order_index : Z
}.
End DemoStep.

(** The object literal that is inserted into [demo_views]; the store adds
    the [id]. *)
Module ViewRecord.
Record t : Type := mk {
  demo_id : string;
  share_link_id : option string;
  viewer_ip : string;
  viewer_location : option string;
  viewed_at : Instant;
  time_spent : Z;
  completed_steps : Z;
  total_steps : Z
}.
End ViewRecord.

Module DemoView.
Record t : Type := mk {
  id : string;
  demo_id : string;
  share_link_id : option string;
  viewer_ip : string;
  viewer_location : option string;
  viewed_at : Instant;
  time_spent : Z;
  completed_steps : Z;
  total_steps : Z
}.

Definition of_record (new_id : string) (r : ViewRecord.t) : t :=
  mk new_id (ViewRecord.demo_id r) (ViewRecord.share_link_id r)
     (ViewRecord.viewer_ip r) (ViewRecord.viewer_location r)
     (ViewRecord.viewed_at r) (ViewRecord.time_spent r)
     (ViewRecord.completed_steps r) (ViewRecord.total_steps r).

(** [.update({ time_spent, completed_steps })] on one row. *)
Definition with_progress (timeSpent completedSteps : Z) (v : t) : t :=
  mk (id v) (demo_id v) (share_link_id v) (viewer_ip v) (viewer_location v)
     (viewed_at v) timeSpent completedSteps (total_steps v).
End DemoView.

(** ** The store *)

Record Store : Type := mkStore {
  share_links : list ShareLink.t;
  demos : list Demo.t;
  demo_steps : list DemoStep.t;
  demo_views : list DemoView.t
}.

(** The requests the tracked code sends, one per [await supabase...]. *)
Inductive Request : Type :=
| SelectShareLink (token : string)
    (* from("share_links").select("*").eq("token", token)
         .eq("is_active", true).single() *)
| SelectDemo (id : string)
    (* from("demos").select(..).eq("id", id).single() *)
| SelectSteps (demo_id : string)
    (* from("demo_steps").select("*").eq("demo_id", demo_id)
         .order("order_index", { ascending: true }) *)
| UpdateViewCount (id : string) (n : Z)
    (* from("share_links").update({ view_count: n }).eq("id", id) *)
| InsertView (r : ViewRecord.t)
    (* from("demo_views").insert([r]) (.select().single()) *)
| UpdateProgress (id : string) (timeSpent completedSteps : Z)
    (* from("demo_views").update({ time_spent, completed_steps })
         .eq("id", id) *)
| SelectDemosOfOwner (owner : string)
    (* from("demos").select("id, title").eq("owner_id", owner) *)
| SelectViews (demoIds : list string) (since : Instant).
    (* from("demo_views").select("*").in("demo_id", demoIds)
         .gte("viewed_at", since) *)

(** What a request carries in [data] when it succeeds. *)
Definition answer (r : Request) : Type :=
  match r with
  | SelectShareLink _ => ShareLink.t
  | SelectDemo _ => Demo.t
  | SelectSteps _ => list DemoStep.t
  | UpdateViewCount _ _ => unit
  | InsertView _ => DemoView.t
  | UpdateProgress _ _ _ => unit
  | SelectDemosOfOwner _ => list Demo.t
  | SelectViews _ _ => list DemoView.t
  end.

(** The [{ data, error }] object every supabase call resolves to. *)
Record Reply (A : Type) : Type := mkReply {
  data : option A;
  error : option string
}.

Definition reply_data {A} (a : A) : Reply A := mkReply (Some a) None.
Definition reply_empty {A} : Reply A := mkReply None None.
Definition reply_error {A} (e : string) : Reply A := mkReply None (Some e).

(** [.single()]: exactly one row, or an error. *)
Definition single {A} (rows : list A) : Reply A :=
  match rows with
  | [r] => reply_data r
  | _ => reply_error "PGRST116"
  end.

(** A stable sort by a JavaScript comparator, as [Array.prototype.sort] is
    specified: [x] is placed before the first element it does not have to
    follow.  It also stands for [ORDER BY]: the store leaves the order
    among rows of equal key open, this order is one it may answer with, and
    nothing is stated of the store that depends on it. *)
Section Sort.
Variable A : Type.
Variable cmp : A -> A -> Z.

Fixpoint insert (x : A) (l : list A) : list A :=
  match l with
  | [] => [x]
  | y :: l' => if cmp x y <=? 0 then x :: y :: l' else y :: insert x l'
  end.

Fixpoint sort (l : list A) : list A :=
  match l with
  | [] => []
  | x :: l' => insert x (sort l')
  end.
End Sort.

Definition in_ids (ids : list string) (x : string) : bool :=
  existsb (String.eqb x) ids.

(** What the store does with an accepted request; [new_id] is the id
    [uuid_generate_v4()] hands out for an inserted row. *)
Definition perform (r : Request) (new_id : string) (s : Store)
  : Reply (answer r) * Store :=
  match r return Reply (answer r) * Store with
  | SelectShareLink tok =>
      (single (filter (fun l => String.eqb (ShareLink.token l) tok
                                && Bool.eqb (ShareLink.is_active l) true)
                      (share_links s)), s)
  | SelectDemo i =>
      (single (filter (fun d => String.eqb (Demo.id d) i) (demos s)), s)
  | SelectSteps d =>
      (reply_data
         (sort (fun a b => DemoStep.order_index a - DemoStep.order_index b)
               (filter (fun st => String.eqb (DemoStep.demo_id st) d)
                       (demo_steps s))), s)
  | UpdateViewCount i n =>
      (reply_empty,
       mkStore (map (fun l => if String.eqb (ShareLink.id l) i
                              then ShareLink.with_view_count n l else l)
                    (share_links s))
               (demos s) (demo_steps s) (demo_views s))
  | InsertView rec =>
      let row := DemoView.of_record new_id rec in
      (reply_data row,
       mkStore (share_links s) (demos s) (demo_steps s)
               (demo_views s ++ [row]))
  | UpdateProgress i t c =>
      (reply_empty,
       mkStore (share_links s) (demos s) (demo_steps s)
               (map (fun v => if String.eqb (DemoView.id v) i
                              then DemoView.with_progress t c v else v)
                    (demo_views s)))
  | SelectDemosOfOwner u =>
      (reply_data (filter (fun d => String.eqb (Demo.owner_id d) u) (demos s)),
       s)
  | SelectViews ids since =>
      (reply_data (filter (fun v => in_ids ids (DemoView.demo_id v)
                                    && (since <=? DemoView.viewed_at v))
                          (demo_views s)), s)
  end.

(** How a request ends.  A refused request (network error reported by the
    client library, constraint violation, row-level-security denial)
    resolves to [{ data: null, error }]; a request may also reject its
    promise.  A failed request leaves the store as it was. *)
Inductive Outcome : Type :=
| Accept
| Refuse (err : string)
| Reject (err : string).

(** A promise, once settled. *)
Inductive Settled (A : Type) : Type :=
| Fulfilled (a : A)
| Rejected (reason : string).
Arguments Rejected {A} reason.

(** The store side: the tables, the outcomes of the coming requests (an
    exhausted list accepts), the ids the store will generate, and the
    journal of the requests received so far, oldest first. *)
Record Server : Type := mkServer {
  db : Store;
  oracle : list Outcome;
  uuid : nat -> string;
  issued : nat;
  journal : list (Request * Outcome)
}.

Definition next_outcome (sv : Server) : Outcome :=
  match oracle sv with
  | [] => Accept
  | o :: _ => o
  end.

(** The server once it has answered request [r] with outcome [o], its
    tables then being [s']. *)
Definition served (r : Request) (o : Outcome) (s' : Store) (sv : Server)
  : Server :=
  mkServer s' (tl (oracle sv)) (uuid sv)
           (match r, o with
            | InsertView _, Accept => S (issued sv)
            | _, _ => issued sv
            end)
           (journal sv ++ [(r, o)]).

Definition request (r : Request) (sv : Server)
  : Settled (Reply (answer r)) * Server :=
  match next_outcome sv with
  | Accept =>
      let '(rep, s') := perform r (uuid sv (issued sv)) (db sv) in
      (Fulfilled rep, served r Accept s' sv)
  | Refuse e => (Fulfilled (reply_error e), served r (Refuse e) (db sv) sv)
  | Reject e => (Rejected e, served r (Reject e) (db sv) sv)
  end.

(** ** The browser side *)

(** The time zone of the browser, as ECMAScript's [LocalTZA(t, isUTC)]: the
    offset of local time from UTC, in ms, at the UTC instant [t]
    ([offset_at]), and for the local time value [t] ([offset_of_local]).
    The two differ around a daylight-saving change. *)
Record Zone : Type := mkZone {
  offset_at : Instant -> Z;
  offset_of_local : Z -> Z
}.

(** A zone whose offset never changes. *)
Definition fixed (o : Z) : Zone := mkZone (fun _ => o) (fun _ => o).

(** ECMAScript's [LocalTime(t)] and [UTC(t)]. *)
Definition LocalTime (z : Zone) (t : Instant) : Z := t + offset_at z t.
Definition UTC (z : Zone) (tlocal : Z) : Instant :=
  tlocal - offset_of_local z tlocal.

(** A [Date] object: the instant it holds, together with the time zone of
    the browser, which its local-calendar methods use. *)
Record JsDate : Type := mkDate {
  getTime : Instant;
  zone : Zone
}.

(** The date part [YYYY-MM-DD] of an ISO-8601 timestamp in UTC, as
    [toISOString()] writes [viewed_at] and as the store returns it,
    represented by the number of the UTC day since the epoch (the rendering
    is one-to-one on days). *)
Definition isoDate (t : Instant) : Z := t / msPerDay.

(** [date.toISOString().split("T")[0]] *)
Definition toISODate (d : JsDate) : Z := isoDate (getTime d).

(** The local calendar date of [d], as a day number; it stands for the label
    [date.toLocaleDateString("en-US", { month: "short", day: "numeric" })]. *)
Definition toLocaleDate (d : JsDate) : Z :=
  LocalTime (zone d) (getTime d) / msPerDay.

(** [d.setDate(d.getDate() - n)], as ECMAScript defines [setDate]: the local
    time of [d] is moved [n] calendar days back, its time within the day
    kept ([MakeDate(MakeDay(year, month, date - n), TimeWithinDay(t))]), and
    the result is taken back to UTC with the offset of that local time. *)
Definition setDate_back (d : JsDate) (n : Z) : JsDate :=
  let local := LocalTime (zone d) (getTime d) in
  mkDate (UTC (zone d)
              ((local / msPerDay - n) * msPerDay + local mod msPerDay))
         (zone d).

(** The React state of a viewer component ([useState] cells). *)
Module UI.
Record t : Type := mk {
  demo : option Demo.t;
  steps : list DemoStep.t;
  currentStep : Z;
  isPlaying : bool;
  loading : bool;
  error : option string;
  shareLink : option ShareLink.t;
  viewId : option string
}.

(** The initial values given to [useState]: what the first render sees. *)
Definition initial : t := mk None [] 0 false true None None None.

Definition setDemo (d : Demo.t) (u : t) : t :=
  mk (Some d) (steps u) (currentStep u) (isPlaying u) (loading u) (error u)
     (shareLink u) (viewId u).
Definition setSteps (s : list DemoStep.t) (u : t) : t :=
  mk (demo u) s (currentStep u) (isPlaying u) (loading u) (error u)
     (shareLink u) (viewId u).
Definition setLoading (b : bool) (u : t) : t :=
  mk (demo u) (steps u) (currentStep u) (isPlaying u) b (error u)
     (shareLink u) (viewId u).
Definition setError (e : string) (u : t) : t :=
  mk (demo u) (steps u) (currentStep u) (isPlaying u) (loading u) (Some e)
     (shareLink u) (viewId u).
Definition setShareLink (l : ShareLink.t) (u : t) : t :=
  mk (demo u) (steps u) (currentStep u) (isPlaying u) (loading u) (error u)
     (Some l) (viewId u).
Definition setViewId (i : string) (u : t) : t :=
  mk (demo u) (steps u) (currentStep u) (isPlaying u) (loading u) (error u)
     (shareLink u) (Some i).
End UI.

(** One browser tab: the pending React state, the two refs of the shared
    viewer, the clock and the console. *)
Record Client : Type := mkClient {
  ui : UI.t;
  startTimeRef : Instant;
  lastUpdateRef : Instant;
  clock : JsDate;
  console : list (string * string)
}.

Record World : Type := mkWorld {
  client : Client;
  server : Server
}.

(** ** Programs *)

(** The operations of a program: a store request is a promise that settles,
    the others act on the tab alone. *)
Inductive Call : Type -> Type :=
| Supabase (r : Request) : Call (Settled (Reply (answer r)))
| NewDate : Call JsDate                          (* new Date(), Date.now() *)
| ConsoleError (label err : string) : Call unit  (* console.error / .log *)
| SetState (f : UI.t -> UI.t) : Call unit        (* a useState setter *)
| GetStartTime : Call Instant                    (* startTimeRef.current *)
| SetLastUpdate (t : Instant) : Call unit.       (* lastUpdateRef.current = t *)

Inductive Prog (A : Type) : Type :=
| Ret (a : A)
| Throw (e : string)
| Do (X : Type) (c : Call X) (k : X -> Prog A).
Arguments Throw {A} e.
Arguments Do {A X} c k.

Fixpoint bind {A B} (p : Prog A) (f : A -> Prog B) : Prog B :=
  match p with
  | Ret a => f a
  | Throw e => Throw e
  | Do c k => Do c (fun x => bind (k x) f)
  end.

(** [try { p } catch (e) { h e }] *)
Fixpoint try_catch {A} (p : Prog A) (h : string -> Prog A) : Prog A :=
  match p with
  | Ret a => Ret a
  | Throw e => h e
  | Do c k => Do c (fun x => try_catch (k x) h)
  end.

(** [try { p } finally { f }] *)
Fixpoint finally {A} (p : Prog A) (f : Prog unit) : Prog A :=
  match p with
  | Ret a => bind f (fun _ => Ret a)
  | Throw e => bind f (fun _ => Throw e)
  | Do c k => Do c (fun x => finally (k x) f)
  end.

Declare Scope prog_scope.
Delimit Scope prog_scope with prog.
Bind Scope prog_scope with Prog.
Notation "x <- p ;; q" := (bind p (fun x => q))
  (at level 61, p at next level, right associativity) : prog_scope.
Notation "p ;; q" := (bind p (fun _ => q))
  (at level 61, right associativity) : prog_scope.
Local Open Scope prog_scope.

Definition call {X} (c : Call X) : Prog X := Do c (fun x => Ret x).

(** [await supabase...]: the reply, or the rejection thrown. *)
Definition await (r : Request) : Prog (Reply (answer r)) :=
  Do (Supabase r) (fun s =>
    match s with
    | Fulfilled rep => Ret rep
    | Rejected e => Throw e
    end).

Definition new_Date : Prog JsDate := call NewDate.
Definition console_error (label err : string) : Prog unit :=
  call (ConsoleError label err).
Definition set_state (f : UI.t -> UI.t) : Prog unit := call (SetState f).

Definition with_ui (f : UI.t -> UI.t) (cl : Client) : Client :=
  mkClient (f (ui cl)) (startTimeRef cl) (lastUpdateRef cl) (clock cl)
           (console cl).

Definition with_console (label err : string) (cl : Client) : Client :=
  mkClient (ui cl) (startTimeRef cl) (lastUpdateRef cl) (clock cl)
           (console cl ++ [(label, err)]).

Definition with_lastUpdate (t : Instant) (cl : Client) : Client :=
  mkClient (ui cl) (startTimeRef cl) t (clock cl) (console cl).

(** One operation, on the tab and the store. *)
Definition handle {X} (c : Call X) (w : World) : X * World :=
  let cl := client w in
  match c in Call X return X * World with
  | Supabase r =>
      let '(s, sv') := request r (server w) in (s, mkWorld cl sv')
  | NewDate => (clock cl, w)
  | ConsoleError label err =>
      (tt, mkWorld (with_console label err cl) (server w))
  | SetState f => (tt, mkWorld (with_ui f cl) (server w))
  | GetStartTime => (startTimeRef cl, w)
  | SetLastUpdate t => (tt, mkWorld (with_lastUpdate t cl) (server w))
  end.

(** How a program ends: with a value, or with an exception that reaches
    its caller. *)
Inductive Res (A : Type) : Type :=
| Ok (a : A)
| Raised (e : string).
Arguments Raised {A} e.

(** A tab running a program to its end, alone on the store. *)
Fixpoint run {A} (p : Prog A) (w : World) : Res A * World :=
  match p with
  | Ret a => (Ok a, w)
  | Throw e => (Raised e, w)
  | Do c k => let '(x, w') := handle c w in run (k x) w'
  end.

(** ** lib/analytics.ts *)

Module DayViews.
Record t : Type := mk { date : Z; views : Z }.
End DayViews.

Module TopDemo.
Record t : Type := mk { title : string; views : Z; id : string }.
End TopDemo.

(** [AnalyticsData], without the [deviceTypes] and [locations] breakdowns:
    they are mock figures derived from [views.length] in floating point. *)
Record AnalyticsData : Type := mkAnalytics {
  totalViews : Z;
  uniqueViewers : Z;
  avgTimeSpent : JsNum;
  completionRate : JsNum;
  viewsByDay : list DayViews.t;
  topDemos : list TopDemo.t
}.

(** The optional third argument of [trackView]. *)
Record ViewerData : Type := mkViewerData {
  totalSteps : Z;
  ip : string;
  location : option string
}.

Definition len {A} (l : list A) : Z := Z.of_nat (List.length l).

(** [x || null] on an optional string. *)
Definition or_null (x : option string) : option string :=
  match x with
  | Some s => if String.eqb s "" then None else Some s
  | None => None
  end.

Module AnalyticsService.

Definition getEmptyAnalytics : AnalyticsData :=
  mkAnalytics 0 0 (Num 0%Q) (Num 0%Q) [] [].

(** [timeRange === "7d" ? 7 : timeRange === "30d" ? 30 : 90] *)
Definition days_of (timeRange : string) : Z :=
  if String.eqb timeRange "7d" then 7
  else if String.eqb timeRange "30d" then 30 else 90.

(** The loop of [getViewsByDay], with [k] iterations left ([i = k - 1]);
    every iteration takes a fresh [new Date()]. *)
Fixpoint getViewsByDay_from (views : list DemoView.t) (k : nat)
  : Prog (list DayViews.t) :=
  match k with
  | O => Ret []
  | S i =>
      now <- new_Date ;;
      let date := setDate_back now (Z.of_nat i) in
      let dateStr := toISODate date in
      let dayViews :=
        len (filter (fun v => isoDate (DemoView.viewed_at v) =? dateStr)
                    views) in
      rest <- getViewsByDay_from views i ;;
      Ret (DayViews.mk (toLocaleDate date) dayViews :: rest)
  end.

Definition getViewsByDay (views : list DemoView.t) (days : Z)
  : Prog (list DayViews.t) :=
  getViewsByDay_from views (Z.to_nat days).

Definition getTopDemos (views : list DemoView.t) (demos : list Demo.t)
  : list TopDemo.t :=
  let demoViewCounts :=
    map (fun demo =>
           TopDemo.mk (Demo.title demo)
             (len (filter (fun v => String.eqb (DemoView.demo_id v)
                                               (Demo.id demo)) views))
             (Demo.id demo))
        demos in
  firstn 5 (sort (fun a b => TopDemo.views b - TopDemo.views a)
                 demoViewCounts).

(** [views?.length || 0] *)
Definition totalViews_of (views : option (list DemoView.t)) : Z :=
  match views with
  | Some vs => or_zero (len vs)
  | None => 0
  end.

(** [new Set(views?.map((v) => v.viewer_ip)).size] *)
Definition uniqueViewers_of (views : option (list DemoView.t)) : Z :=
  match views with
  | Some vs => len (nodup string_dec (map DemoView.viewer_ip vs))
  | None => 0
  end.

(** [views?.reduce((acc, v) => acc + (v.time_spent || 0), 0)
     / (totalViews || 1)]; without [views] the dividend is [undefined]. *)
Definition avgTimeSpent_of (views : option (list DemoView.t))
  (totalViews : Z) : JsNum :=
  match views with
  | Some vs =>
      let sum :=
        fold_left (fun acc v => acc + or_zero (DemoView.time_spent v))
                  vs 0 in
      Num (Qdiv (inject_Z sum)
                (inject_Z (if totalViews =? 0 then 1 else totalViews)))
  | None => NaN
  end.

(** [views?.filter((v) => v.completed_steps === v.total_steps).length
     || 0] *)
Definition completedViews_of (views : option (list DemoView.t)) : Z :=
  match views with
  | Some vs =>
      or_zero (len (filter (fun v => DemoView.completed_steps v
                                     =? DemoView.total_steps v) vs))
  | None => 0
  end.

(** [totalViews > 0 ? (completedViews / totalViews) * 100 : 0] *)
Definition completionRate_of (completedViews totalViews : Z) : JsNum :=
  if 0 <? totalViews
  then Num (Qmult (Qdiv (inject_Z completedViews) (inject_Z totalViews))
                   (inject_Z 100))
  else Num 0%Q.

(** [views || []] *)
Definition or_empty {A} (views : option (list A)) : list A :=
  match views with
  | Some vs => vs
  | None => []
  end.

Definition getUserAnalytics (userId : string) (timeRange : string)
  : Prog AnalyticsData :=
  try_catch
    (let days := days_of timeRange in
     now <- new_Date ;;
     let startDate := setDate_back now days in
     r <- await (SelectDemosOfOwner userId) ;;
     match data r with
     | None | Some [] => Ret getEmptyAnalytics
     | Some demos =>
         let demoIds := map Demo.id demos in
         rv <- await (SelectViews demoIds (getTime startDate)) ;;
         let views := data rv in
         let totalViews := totalViews_of views in
         let uniqueViewers := uniqueViewers_of views in
         let avgTimeSpent := avgTimeSpent_of views totalViews in
         let completedViews := completedViews_of views in
         let completionRate := completionRate_of completedViews totalViews in
         viewsByDay <- getViewsByDay (or_empty views) days ;;
         let topDemos := getTopDemos (or_empty views) demos in
         Ret (mkAnalytics totalViews uniqueViewers avgTimeSpent
                          completionRate viewsByDay topDemos)
     end)
    (fun e =>
       console_error "Analytics error:" e ;;
       Ret getEmptyAnalytics).

Definition getDemoAnalytics (demoId : string) (timeRange : string)
  : Prog AnalyticsData :=
  try_catch
    (let days := days_of timeRange in
     now <- new_Date ;;
     let startDate := setDate_back now days in
     (* .eq("demo_id", demoId) *)
     rv <- await (SelectViews [demoId] (getTime startDate)) ;;
     let views := data rv in
     rd <- await (SelectDemo demoId) ;;
     let demo := data rd in
     let totalViews := totalViews_of views in
     let uniqueViewers := uniqueViewers_of views in
     let avgTimeSpent := avgTimeSpent_of views totalViews in
     let completedViews := completedViews_of views in
     let completionRate := completionRate_of completedViews totalViews in
     viewsByDay <- getViewsByDay (or_empty views) days ;;
     let topDemos :=
       match demo with
       | Some d => [TopDemo.mk (Demo.title d) totalViews demoId]
       | None => []
       end in
     Ret (mkAnalytics totalViews uniqueViewers avgTimeSpent
                      completionRate viewsByDay topDemos))
    (fun e =>
       console_error "Demo analytics error:" e ;;
       Ret getEmptyAnalytics).

Definition trackView (demoId : string) (shareLinkId : option string)
  (viewerData : option ViewerData) : Prog (option DemoView.t) :=
  try_catch
    (now <- new_Date ;;
     let viewRecord :=
       ViewRecord.mk
         demoId
         (or_null shareLinkId)
         (match viewerData with
          | Some d => or_string (ip d) "unknown"
          | None => "unknown"
          end)
         (match viewerData with
          | Some d => or_null (location d)
          | None => None
          end)
         (getTime now)
         0
         0
         (match viewerData with
          | Some d => or_zero (totalSteps d)
          | None => 0
          end) in
     r <- await (InsertView viewRecord) ;;
     match error r with
     | Some e => Throw e
     | None => Ret (data r : option DemoView.t)
     end)
    (fun e =>
       console_error "Track view error:" e ;;
       Ret None).

Definition updateViewProgress (viewId : string)
  (timeSpent completedSteps : Z) : Prog unit :=
  try_catch
    (r <- await (UpdateProgress viewId timeSpent completedSteps) ;;
     match error r with
     | Some e => Throw e
     | None => Ret tt
     end)
    (fun e => console_error "Update view progress error:" e).

End AnalyticsService.

(** ** The shared viewer (the page of a share token)

    A function of a React component closes over the state of the render
    that created it: [render] below is that snapshot.  A [useState] setter
    changes the pending state for the next render, never the snapshot. *)

Module SharedDemoViewer.

Definition LinkInvalid : string := "Invalid or expired share link".
Definition LinkExpired : string := "This share link has expired".
Definition LinkExhausted : string :=
  "This share link has reached its view limit".

(** [linkData.expires_at && new Date(linkData.expires_at) < new Date()] *)
Definition has_expired (linkData : ShareLink.t) (now : JsDate) : bool :=
  match ShareLink.expires_at linkData with
  | Some e => e <? getTime now
  | None => false
  end.

(** [linkData.max_views && linkData.view_count >= linkData.max_views] *)
Definition limit_reached (linkData : ShareLink.t) : bool :=
  match ShareLink.max_views linkData with
  | Some m => negb (m =? 0) && (m <=? ShareLink.view_count linkData)
  | None => false
  end.

Definition trackView (render : UI.t) (linkData : ShareLink.t) : Prog unit :=
  try_catch
    ((* Increment view count on share link *)
     r <- await (UpdateViewCount
                   (ShareLink.id linkData)
                   (or_zero (ShareLink.view_count linkData) + 1)) ;;
     match error r with
     | Some updateError =>
         console_error "Failed to update share link view count:" updateError
     | None => Ret tt
     end ;;
     (* Track detailed view *)
     viewData <- AnalyticsService.trackView
                   (ShareLink.demo_id linkData)
                   (Some (ShareLink.id linkData))
                   (Some (mkViewerData (len (UI.steps render))
                                       "unknown" None)) ;;
     match viewData with
     | Some v => set_state (UI.setViewId (DemoView.id v))
     | None => Ret tt
     end)
    (fun e => console_error "Failed to track view:" e).

Definition validateAndFetchDemo (token : string) (render : UI.t)
  : Prog unit :=
  finally
    (try_catch
       ((* Validate share link *)
        rl <- await (SelectShareLink token) ;;
        match error rl, data rl with
        | None, Some linkData =>
            now <- new_Date ;;
            if has_expired linkData now then
              set_state (UI.setError LinkExpired) ;;
              set_state (UI.setLoading false)
            else if limit_reached linkData then
              set_state (UI.setError LinkExhausted) ;;
              set_state (UI.setLoading false)
            else
              set_state (UI.setShareLink linkData) ;;
              (* Fetch demo *)
              rd <- await (SelectDemo (ShareLink.demo_id linkData)) ;;
              match error rd, data rd with
              | None, Some demoData =>
                  set_state (UI.setDemo demoData) ;;
                  (* Fetch steps *)
                  rs <- await (SelectSteps (ShareLink.demo_id linkData)) ;;
                  match error rs with
                  | None =>
                      set_state (UI.setSteps
                                   (AnalyticsService.or_empty (data rs)))
                  | Some _ => Ret tt
                  end ;;
                  (* Track view and increment share link counter *)
                  trackView render linkData
              | _, _ =>
                  set_state (UI.setError "Demo not found") ;;
                  set_state (UI.setLoading false)
              end
        | _, _ =>
            set_state (UI.setError LinkInvalid) ;;
            set_state (UI.setLoading false)
        end)
       (fun e =>
          console_error "Demo loading error:" e ;;
          set_state (UI.setError "Failed to load demo")))
    (set_state (UI.setLoading false)).

(** The effect of the first render: [useEffect(() =>
    { validateAndFetchDemo() }, [params.token])]. *)
Definition mount (token : string) : Prog unit :=
  validateAndFetchDemo token UI.initial.

Definition updateViewProgress (render : UI.t) : Prog unit :=
  match UI.viewId render with
  | None => Ret tt
  | Some viewId =>
      now <- new_Date ;;
      start <- call GetStartTime ;;
      let timeSpent := (getTime now - start) / 1000 in
      AnalyticsService.updateViewProgress viewId timeSpent
                                          (UI.currentStep render + 1) ;;
      now' <- new_Date ;;
      call (SetLastUpdate (getTime now'))
  end.

Definition trackCompletion (render : UI.t) : Prog unit :=
  match UI.viewId render with
  | None => Ret tt
  | Some viewId =>
      now <- new_Date ;;
      start <- call GetStartTime ;;
      let timeSpent := (getTime now - start) / 1000 in
      AnalyticsService.updateViewProgress viewId timeSpent
                                          (len (UI.steps render))
  end.

(** The cleanup on unmount: [if (viewId) { updateViewProgress() }]. *)
Definition unmount (render : UI.t) : Prog unit :=
  match UI.viewId render with
  | Some _ => updateViewProgress render
  | None => Ret tt
  end.

End SharedDemoViewer.

(** ** The public viewer (the page of a demo id) *)

Module DemoViewer.

Definition trackView (id : string) (render : UI.t) : Prog unit :=
  try_catch
    (now <- new_Date ;;
     _ <- await (InsertView
                   (ViewRecord.mk id None "anonymous" None (getTime now)
                                  0 0 (len (UI.steps render)))) ;;
     Ret tt)
    (fun e => console_error "View tracking failed:" e).

(** The effect of the first render starts [trackView] at once. *)
Definition mount (id : string) : Prog unit := trackView id UI.initial.

End DemoViewer.

(** ** Two tabs on one store *)

Record Tab : Type := mkTab {
  prog : Prog unit;
  tab_client : Client
}.

(** A tab performs its next operation, if it has one left. *)
Definition step (t : Tab) (sv : Server) : Tab * Server :=
  match prog t with
  | Do c k =>
      let '(x, w) := handle c (mkWorld (tab_client t) sv) in
      (mkTab (k x) (client w), server w)
  | _ => (t, sv)
  end.

Inductive Turn : Type := TabA | TabB.

Fixpoint interleave (turns : list Turn) (a b : Tab) (sv : Server)
  : Tab * Tab * Server :=
  match turns with
  | [] => (a, b, sv)
  | TabA :: rest => let '(a', sv') := step a sv in interleave rest a' b sv'
  | TabB :: rest => let '(b', sv') := step b sv in interleave rest a b' sv'
  end.

Definition finished (t : Tab) : bool :=
  match prog t with
  | Do _ _ => false
  | _ => true
  end.

(** ** Vocabulary of the statements *)

(** The outcome of the [n]-th coming request. *)
Definition outcome_at (n : nat) (sv : Server) : Outcome :=
  nth n (oracle sv) Accept.

Definition store_of (w : World) : Store := db (server w).

(** The part of the journal written since [w]. *)
Definition journal_since (w w' : World) : list (Request * Outcome) :=
  skipn (List.length (journal (server w))) (journal (server w')).

(** The world a program leaves, and its result. *)
Definition after {A} (p : Prog A) (w : World) : World := snd (run p w).
Definition result {A} (p : Prog A) (w : World) : Res A := fst (run p w).

Definition set_progress (viewId : string) (timeSpent completedSteps : Z)
  (v : DemoView.t) : DemoView.t :=
  if String.eqb (DemoView.id v) viewId
  then DemoView.with_progress timeSpent completedSteps v else v.

Definition set_view_count (linkId : string) (n : Z) (l : ShareLink.t)
  : ShareLink.t :=
  if String.eqb (ShareLink.id l) linkId
  then ShareLink.with_view_count n l else l.

(** The rows [SelectShareLink] sees. *)
Definition active_links (token : string) (s : Store) : list ShareLink.t :=
  filter (fun l => String.eqb (ShareLink.token l) token
                   && Bool.eqb (ShareLink.is_active l) true)
         (share_links s).

(** ** A sample store

    One demo of three steps, an active share link on it with four views out
    of ten, and one recorded session. *)
Module Sample.
Definition day (n : Z) : Instant := n * msPerDay.

Definition link : ShareLink.t :=
  ShareLink.mk "L1" "D1" "tok" None true (day 90) 4 (Some 10).

Definition demo : Demo.t := Demo.mk "D1" "Tour" true "U1".

Definition step_row (i : string) (k : Z) : DemoStep.t :=
  DemoStep.mk i "D1" None k.

Definition view : DemoView.t :=
  DemoView.mk "v0" "D1" (Some "L1") "unknown" None (day 99) 7 1 3.

Definition store : Store :=
  mkStore [link] [demo]
          [step_row "s2" 2; step_row "s1" 1; step_row "s3" 3] [view].

Definition uuids (n : nat) : string :=
  match n with
  | O => "v1"
  | 1%nat => "v2"
  | _ => "v3"
  end.

Definition tab : Client :=
  mkClient UI.initial (day 100) (day 100)
           (mkDate (day 100 + 5000) (fixed 0)) [].

(** The sample store, with the outcomes of the coming requests. *)
Definition world (o : list Outcome) : World :=
  mkWorld tab (mkServer store o uuids 0 []).
End Sample.

(** The open flow of the shared viewer reaches the view tracking from [w]:
    the store answers the lookup of [token] with the one active row
    [linkData], which is within its expiry and its view limit, it finds the
    demo of the link, and the steps request does not reject. *)
Record opens (token : string) (linkData : ShareLink.t) (w : World) : Prop :=
  mkOpens {
    opens_lookup : outcome_at 0 (server w) = Accept;
    opens_link : active_links token (store_of w) = [linkData];
    opens_not_expired :
      SharedDemoViewer.has_expired linkData (clock (client w)) = false;
    opens_below_limit : SharedDemoViewer.limit_reached linkData = false;
    opens_demo_fetch : outcome_at 1 (server w) = Accept;
    opens_demo :
      exists demoData,
        filter (fun d => String.eqb (Demo.id d) (ShareLink.demo_id linkData))
               (demos (store_of w)) = [demoData];
    opens_steps : forall e, outcome_at 2 (server w) <> Reject e
  }.

(** The object the shared viewer's [trackView] has inserted, at time [now]. *)
Definition view_record_of (render : UI.t) (linkData : ShareLink.t)
  (now : JsDate) : ViewRecord.t :=
  ViewRecord.mk (ShareLink.demo_id linkData)
                (or_null (Some (ShareLink.id linkData)))
                "unknown" None (getTime now) 0 0
                (or_zero (len (UI.steps render))).

(** The request by which the shared viewer counts a view of [linkData]. *)
Definition increment_of (linkData : ShareLink.t) : Request :=
  UpdateViewCount (ShareLink.id linkData) (ShareLink.view_count linkData + 1).

Definition is_increment (e : Request * Outcome) : bool :=
  match fst e with
  | UpdateViewCount _ _ => true
  | _ => false
  end.



(** The sample store with its link expired on day 50, the view count still
    below the limit. *)
Module Expired.
Definition link : ShareLink.t :=
  ShareLink.mk "L1" "D1" "tok" (Some (Sample.day 50)) true (Sample.day 40)
               4 (Some 10).

Definition world : World :=
  mkWorld Sample.tab
          (mkServer (mkStore [link] [Sample.demo] [] []) [] Sample.uuids 0
                    []).
End Expired.

(** Two tabs that open the sample link at the same time. *)
Module TwoTabs.
Definition tabA : Tab := mkTab (SharedDemoViewer.mount "tok") Sample.tab.
Definition tabB : Tab := mkTab (SharedDemoViewer.mount "tok") Sample.tab.

Definition server0 : Server := server (Sample.world []).

(** Both tabs read the link, then each goes through the rest of its
    open flow. *)
Definition turns : list Turn :=
  [TabA; TabB] ++ repeat TabA 11 ++ repeat TabB 11.

(** One tab after the other. *)
Definition in_turn : list Turn := repeat TabA 12 ++ repeat TabB 12.

Definition final (ts : list Turn) : Tab * Tab * Server :=
  interleave ts tabA tabB server0.

Definition view_counts (ts : list Turn) : list Z :=
  map ShareLink.view_count (share_links (db (snd (final ts)))).

Definition accepted_increments (ts : list Turn) : nat :=
  List.length
    (filter (fun e => is_increment e
                      && match snd e with Accept => true | _ => false end)
            (journal (snd (final ts)))).
End TwoTabs.

(** C10 as the specification words it: after two tabs have opened the link,
    each with its increment accepted, the count shows both. *)
Definition no_lost_update (ts : list Turn) : Prop :=
  finished (fst (fst (TwoTabs.final ts))) = true ->
  finished (snd (fst (TwoTabs.final ts))) = true ->
  TwoTabs.accepted_increments ts = 2%nat ->
  TwoTabs.view_counts ts = [ShareLink.view_count Sample.link + 2].

(** A session has been opened in a tab: its open flow is over and the tab
    holds the id of its view record. *)
Definition session_opened (t : Tab) : bool :=
  finished t
  && match UI.viewId (ui (tab_client t)) with
     | Some _ => true
     | None => false
     end.

(** The rows of the link [link]. *)
Definition same_link (link l : ShareLink.t) : bool :=
  String.eqb (ShareLink.id l) (ShareLink.id link).

(** C1 as the specification words it: once the tabs [a] and [b] have gone
    through the turns [ts] on the store [sv], the count of [link] has risen
    by one for every session opened. *)
Definition counts_each_session (link : ShareLink.t) (a b : Tab) (sv : Server)
  (ts : list Turn) : Prop :=
  let '(a', b', sv') := interleave ts a b sv in
  map ShareLink.view_count (filter (same_link link) (share_links (db sv')))
  = [ShareLink.view_count link
     + len (filter session_opened [a'; b'])].

(** ** Vocabulary of the aggregation *)

(** The records whose timestamp falls on UTC day [d] / on local day [d] for
    a browser at [tz] ms from UTC. *)
Definition utc_day_count (views : list DemoView.t) (d : Z) : Z :=
  len (filter (fun v => isoDate (DemoView.viewed_at v) =? d) views).

Definition local_day_count (tz : Z) (views : list DemoView.t) (d : Z) : Z :=
  len (filter (fun v => (DemoView.viewed_at v + tz) / msPerDay =? d) views).

(** The [Date] of the iteration [i] of [getViewsByDay]:
    [date.setDate(date.getDate() - i)] on [today]. *)
Definition bar_date (today : JsDate) (i : nat) : JsDate :=
  setDate_back today (Z.of_nat i).

(** The series [getViewsByDay] builds on [today], newest day last: the entry
    of [i] days ago is labelled with the local date of its [Date] and counts
    the records of the UTC date of that same [Date]. *)
Fixpoint days_back (today : JsDate) (views : list DemoView.t) (k : nat)
  : list DayViews.t :=
  match k with
  | O => []
  | S i =>
      DayViews.mk (toLocaleDate (bar_date today i))
                  (utc_day_count views (toISODate (bar_date today i)))
      :: days_back today views i
  end.

Definition value_or {A} (d : A) (r : Res A) : A :=
  match r with
  | Ok a => a
  | Raised _ => d
  end.

(** C3 as the specification words it: every entry counts the records of its
    local calendar day. *)
Definition counts_local_days (tz : Z) (views : list DemoView.t)
  (series : list DayViews.t) : Prop :=
  forall e, In e series ->
            DayViews.views e = local_day_count tz views (DayViews.date e).

(** A browser at UTC+5:30, at 07:00 local time on day 10, and a session
    recorded at 03:00 local time that same local day (21:30 UTC on day 9). *)
Module Kolkata.
Definition tz : Z := 19800000.
Definition today : JsDate := mkDate (Sample.day 10 + 5400000) (fixed tz).
Definition view : DemoView.t :=
  DemoView.mk "v0" "D1" None "unknown" None (Sample.day 9 + 77400000) 0 0 3.
Definition world : World :=
  mkWorld (mkClient UI.initial 0 0 today [])
          (mkServer (mkStore [] [Sample.demo] [] [view]) [] Sample.uuids 0
                    []).
End Kolkata.

(** The entry of a demo in the ranking: its title, the number of fetched
    records of its id, its id. *)
Definition demo_count (views : list DemoView.t) (demo : Demo.t) : TopDemo.t :=
  TopDemo.mk (Demo.title demo)
             (len (filter (fun v => String.eqb (DemoView.demo_id v)
                                               (Demo.id demo)) views))
             (Demo.id demo).

(** C5 as the specification words it: descending by count, ties broken by
    title in ascending lexicographic order, the first five. *)
Definition by_views_then_title (a b : TopDemo.t) : Z :=
  if TopDemo.views b - TopDemo.views a =? 0
  then match String.compare (TopDemo.title a) (TopDemo.title b) with
       | Lt => -1
       | Eq => 0
       | Gt => 1
       end
  else TopDemo.views b - TopDemo.views a.

Definition topDemos_by_title (views : list DemoView.t) (demos : list Demo.t)
  : list TopDemo.t :=
  firstn 5 (sort by_views_then_title (map (demo_count views) demos)).

(** Two demos of ten views each, "Beta" fetched before "Alpha". *)
Module Tie.
Definition beta : Demo.t := Demo.mk "B" "Beta" true "U1".
Definition alpha : Demo.t := Demo.mk "A" "Alpha" true "U1".
Definition view_of (demo : string) : DemoView.t :=
  DemoView.mk "v" demo None "unknown" None 0 0 0 0.
Definition views : list DemoView.t :=
  repeat (view_of "B") 10 ++ repeat (view_of "A") 10.
End Tie.

(** The lower bound of the window: [startDate.toISOString()]. *)
Definition window_start (w : World) (timeRange : string) : Instant :=
  getTime (setDate_back (clock (client w))
                        (AnalyticsService.days_of timeRange)).

Definition owned_demos (userId : string) (s : Store) : list Demo.t :=
  filter (fun d => String.eqb (Demo.owner_id d) userId) (demos s).

(** The records [SelectViews] returns. *)
Definition matching_views (demoIds : list string) (since : Instant)
  (s : Store) : list DemoView.t :=
  filter (fun v => in_ids demoIds (DemoView.demo_id v)
                   && (since <=? DemoView.viewed_at v))
         (demo_views s).

(** The summary computed from the [data] of the views reply. *)
Definition summary_of (today : JsDate) (days : Z)
  (views : option (list DemoView.t)) (top : list TopDemo.t) : AnalyticsData :=
  mkAnalytics
    (AnalyticsService.totalViews_of views)
    (AnalyticsService.uniqueViewers_of views)
    (AnalyticsService.avgTimeSpent_of views
       (AnalyticsService.totalViews_of views))
    (AnalyticsService.completionRate_of
       (AnalyticsService.completedViews_of views)
       (AnalyticsService.totalViews_of views))
    (days_back today (AnalyticsService.or_empty views) (Z.to_nat days))
    top.

(** A demo listed without views. *)
Definition no_views (demo : Demo.t) : TopDemo.t :=
  TopDemo.mk (Demo.title demo) 0 (Demo.id demo).

(** The four figures of a summary are zero and its day series, of [n]
    entries, holds only zeros. *)
Definition zero_figures (n : nat) (s : AnalyticsData) : Prop :=
  totalViews s = 0 /\ uniqueViewers s = 0
  /\ avgTimeSpent s = Num 0%Q /\ completionRate s = Num 0%Q
  /\ map DayViews.views (viewsByDay s) = repeat 0 n.

(** C4 as the specification words it. *)
Definition spec_empty_summary (s : AnalyticsData) : Prop :=
  zero_figures 7 s /\ topDemos s = [].

(** C9 as the specification words it: the zeroed summary. *)
Definition fully_zeroed (s : AnalyticsData) : Prop :=
  totalViews s = 0 /\ uniqueViewers s = 0
  /\ avgTimeSpent s = Num 0%Q /\ completionRate s = Num 0%Q
  /\ (forall e, In e (viewsByDay s) -> DayViews.views e = 0)
  /\ topDemos s = [].

(** A write or a fetch has failed with error [e]. *)
Definition failed (e : string) (o : Outcome) : Prop :=
  o = Refuse e \/ o = Reject e.

(** The sample store before any session: user "U1" owns the demo, nobody
    has viewed it; user "U2" owns nothing. *)
Module Quiet.
Definition world (o : list Outcome) : World :=
  mkWorld Sample.tab
          (mkServer (mkStore [Sample.link] [Sample.demo] [] []) o
                    Sample.uuids 0 []).
End Quiet.

(** ** More of the viewers, the dashboard and the link generator *)

From Stdlib Require Import Ascii.

(** The playback controls of the shared viewer.  The setters of
    [currentStep] and [isPlaying] complete those of [UI]; [restart] and the
    timer callback read or write what no program operation reaches (the
    [startTimeRef] ref, the pending state), and are written as functions of
    the world. *)
Module SharedControls.

Definition setCurrentStep (i : Z) (u : UI.t) : UI.t :=
  UI.mk (UI.demo u) (UI.steps u) i (UI.isPlaying u) (UI.loading u)
        (UI.error u) (UI.shareLink u) (UI.viewId u).

Definition setIsPlaying (b : bool) (u : UI.t) : UI.t :=
  UI.mk (UI.demo u) (UI.steps u) (UI.currentStep u) b (UI.loading u)
        (UI.error u) (UI.shareLink u) (UI.viewId u).

Definition nextStep (render : UI.t) : Prog unit :=
  if UI.currentStep render <? len (UI.steps render) - 1 then
    set_state (setCurrentStep (UI.currentStep render + 1)) ;;
    SharedDemoViewer.updateViewProgress render
  else Ret tt.

Definition prevStep (render : UI.t) : Prog unit :=
  if 0 <? UI.currentStep render then
    set_state (setCurrentStep (UI.currentStep render - 1)) ;;
    SharedDemoViewer.updateViewProgress render
  else Ret tt.

(** A button of the step navigation:
    [() => { setCurrentStep(index); updateViewProgress() }]. *)
Definition goToStep (render : UI.t) (index : Z) : Prog unit :=
  set_state (setCurrentStep index) ;;
  SharedDemoViewer.updateViewProgress render.

(** [startTimeRef.current = t] *)
Definition with_startTime (t : Instant) (cl : Client) : Client :=
  mkClient (ui cl) t (lastUpdateRef cl) (clock cl) (console cl).

Definition restart (render : UI.t) (w : World) : Res unit * World :=
  let w1 := after (set_state (setCurrentStep 0) ;;
                   set_state (setIsPlaying false)) w in
  let w2 := mkWorld (with_startTime (getTime (clock (client w1))) (client w1))
                    (server w1) in
  run (SharedDemoViewer.updateViewProgress render) w2.

(** The callback of the auto-advance timer: [setCurrentStep((prev) => ...)]
    reads the pending step, while [steps] and [trackCompletion] are those of
    the render that started the timer. *)
Definition tick (render : UI.t) (w : World) : Res unit * World :=
  let prev := UI.currentStep (ui (client w)) in
  if len (UI.steps render) - 1 <=? prev then
    run (set_state (setIsPlaying false) ;;
         SharedDemoViewer.trackCompletion render) w
  else run (set_state (setCurrentStep (prev + 1))) w.

(** The play button: [() => setIsPlaying(!isPlaying)], which is disabled
    when [currentStep >= steps.length - 1 && !isPlaying]. *)
Definition togglePlay (render : UI.t) : Prog unit :=
  if (len (UI.steps render) - 1 <=? UI.currentStep render)
     && negb (UI.isPlaying render)
  then Ret tt
  else set_state (setIsPlaying (negb (UI.isPlaying render))).

(** The clock has moved on to [t]. *)
Definition at_time (t : Instant) (w : World) : World :=
  let cl := client w in
  mkWorld (mkClient (ui cl) (startTimeRef cl) (lastUpdateRef cl)
                    (mkDate t (zone (clock cl))) (console cl))
          (server w).

(** The timer of a render at work, firing at the instants [times]: the
    cleanup of the effect clears it once [isPlaying] has changed. *)
Fixpoint ticking (render : UI.t) (times : list Instant) (w : World) : World :=
  match times with
  | [] => w
  | t :: later =>
      if UI.isPlaying (ui (client w))
      then ticking render later (snd (tick render (at_time t w)))
      else w
  end.

(** The auto-advance effect of a render: a timer only
    [if (isPlaying && steps.length > 0)]. *)
Definition autoplay (render : UI.t) (times : list Instant) (w : World)
  : World :=
  if UI.isPlaying render && (0 <? len (UI.steps render))
  then ticking render times w
  else w.

(** What a visitor can do to the player, and what the timer does. *)
Inductive Control : Type :=
| Next
| Prev
| GoTo (index : Z)
| Restart
| Play
| Tick (t : Instant).

(** One event, handled by the closures of the current render.  Restart is
    disabled when [currentStep === 0 && !isPlaying]; the guards of next and
    previous are those of their buttons. *)
Definition press (c : Control) (w : World) : World :=
  let render := ui (client w) in
  match c with
  | Next => after (nextStep render) w
  | Prev => after (prevStep render) w
  | GoTo index => after (goToStep render index) w
  | Restart =>
      if (UI.currentStep render =? 0) && negb (UI.isPlaying render)
      then w
      else snd (restart render w)
  | Play => after (togglePlay render) w
  | Tick t => autoplay render [t] w
  end.

(** The buttons of the step navigation are those of [steps.map]. *)
Definition on_screen (render : UI.t) (c : Control) : Prop :=
  match c with
  | GoTo index => 0 <= index < len (UI.steps render)
  | _ => True
  end.

End SharedControls.

(** The controls of the public viewer: the same, without tracking. *)
Module PublicControls.

Definition nextStep (render : UI.t) : Prog unit :=
  if UI.currentStep render <? len (UI.steps render) - 1 then
    set_state (SharedControls.setCurrentStep (UI.currentStep render + 1))
  else Ret tt.

Definition prevStep (render : UI.t) : Prog unit :=
  if 0 <? UI.currentStep render then
    set_state (SharedControls.setCurrentStep (UI.currentStep render - 1))
  else Ret tt.

Definition restart : Prog unit :=
  set_state (SharedControls.setCurrentStep 0) ;;
  set_state (SharedControls.setIsPlaying false).

Definition tick (render : UI.t) : Prog unit :=
  set_state (fun u =>
    if len (UI.steps render) - 1 <=? UI.currentStep u
    then SharedControls.setIsPlaying false u
    else SharedControls.setCurrentStep (UI.currentStep u + 1) u).

(** [fetchSteps], which has no [try]: a rejected request reaches the
    caller. *)
Definition fetchSteps (id : string) : Prog unit :=
  r <- await (SelectSteps id) ;;
  match error r with
  | None => set_state (UI.setSteps (AnalyticsService.or_empty (data r)))
  | Some _ => Ret tt
  end ;;
  set_state (UI.setLoading false).

(** A button of the step navigation: [() => setCurrentStep(index)]. *)
Definition goToStep (index : Z) : Prog unit :=
  set_state (SharedControls.setCurrentStep index).

(** The play button, disabled as in the shared viewer. *)
Definition togglePlay (render : UI.t) : Prog unit :=
  if (len (UI.steps render) - 1 <=? UI.currentStep render)
     && negb (UI.isPlaying render)
  then Ret tt
  else set_state (SharedControls.setIsPlaying (negb (UI.isPlaying render))).

(** One event, handled by the closures of the current render; the timer
    exists only [if (isPlaying && steps.length > 0)]. *)
Definition press (c : SharedControls.Control) (w : World) : World :=
  let render := ui (client w) in
  match c with
  | SharedControls.Next => after (nextStep render) w
  | SharedControls.Prev => after (prevStep render) w
  | SharedControls.GoTo index => after (goToStep index) w
  | SharedControls.Restart =>
      if (UI.currentStep render =? 0) && negb (UI.isPlaying render)
      then w
      else after restart w
  | SharedControls.Play => after (togglePlay render) w
  | SharedControls.Tick _ =>
      if UI.isPlaying render && (0 <? len (UI.steps render))
      then after (tick render) w
      else w
  end.

End PublicControls.

(** The analytics dashboard, caller of the two summaries. *)
Module AnalyticsDashboard.

Record t : Type := mk {
  analytics : option AnalyticsData;
  loading : bool;
  error : option string
}.

(** [if (id)] on an optional string. *)
Definition given (id : option string) : option string := or_null id.

Definition fetchAnalytics (demoId userId : option string)
  (timeRange : string) (d : t) (w : World) : t * World :=
  (* setLoading(true); setError(null) *)
  let d1 := mk (analytics d) true None in
  let '(r, w') :=
    match given demoId, given userId with
    | Some demoId, _ =>
        run (AnalyticsService.getDemoAnalytics demoId timeRange) w
    | None, Some userId =>
        run (AnalyticsService.getUserAnalytics userId timeRange) w
    | None, None => (Raised "Either demoId or userId must be provided", w)
    end in
  match r with
  | Ok s => (mk (Some s) false None, w')
  | Raised e =>
      (mk (analytics d1) false (Some (or_string e "Failed to load analytics")),
       after (console_error "Failed to fetch analytics:" e) w')
  end.

End AnalyticsDashboard.

(** The token of a generated share link: 32 random bytes,
    [b.toString(16).padStart(2, "0")] each, joined. *)
Module ShareLinkGenerator.

Definition hexDigit (d : Z) : Ascii.ascii :=
  match String.get (Z.to_nat d) "0123456789abcdef" with
  | Some c => c
  | None => "0"%char
  end.

(** [n.toString(16)] for a non-negative integer, most significant digit
    first, [fuel] bounding the number of digits. *)
Fixpoint digits16 (fuel : nat) (n : Z) (low : string) : string :=
  let low' := String (hexDigit (n mod 16)) low in
  match fuel with
  | O => low'
  | S f => if n / 16 =? 0 then low' else digits16 f (n / 16) low'
  end.

Definition toString16 (n : Z) : string := digits16 (Z.to_nat n) n "".

(** [s.padStart(n, c)] for a one-character pad. *)
Definition padStart (n : nat) (c : Ascii.ascii) (s : string) : string :=
  String.concat "" (repeat (String c "") (n - String.length s)) ++ s.

Definition token (bytes : list Z) : string :=
  String.concat "" (map (fun b => padStart 2 "0" (toString16 b)) bytes).

End ShareLinkGenerator.

(** ** Vocabulary of the further properties *)

(** A link passes the expiry and the view-limit tests at [now]: its expiry,
    if any, is not before [now], and its view limit, if any, is 0 (which
    JavaScript takes for no limit) or above its view count. *)
Definition usable (linkData : ShareLink.t) (now : JsDate) : Prop :=
  (forall e, ShareLink.expires_at linkData = Some e -> getTime now <= e)
  /\ (forall m, ShareLink.max_views linkData = Some m ->
                m = 0 \/ ShareLink.view_count linkData < m).

(** The requests that write. *)
Definition is_write (e : Request * Outcome) : bool :=
  match fst e with
  | UpdateViewCount _ _ | InsertView _ | UpdateProgress _ _ _ => true
  | _ => false
  end.

(** The rows [SelectSteps] returns: the steps of the demo, by ascending
    [order_index]. *)
Definition fetched_steps (demoId : string) (s : Store) : list DemoStep.t :=
  sort (fun a b => DemoStep.order_index a - DemoStep.order_index b)
       (filter (fun st => String.eqb (DemoStep.demo_id st) demoId)
               (demo_steps s)).

(** The rows [SelectDemo] sees. *)
Definition demos_of_id (demoId : string) (s : Store) : list Demo.t :=
  filter (fun d => String.eqb (Demo.id d) demoId) (demos s).

(** The world in which the open flow starts tracking: the three fetches
    answered (the steps request with outcome [o2]), the link, the demo and,
    when they came, the steps handed to React. *)
Definition before_tracking (token : string) (linkData : ShareLink.t)
  (demoData : Demo.t) (w : World) : World :=
  let o2 := outcome_at 2 (server w) in
  let s := db (server w) in
  let cl := with_ui (UI.setDemo demoData)
                    (with_ui (UI.setShareLink linkData) (client w)) in
  mkWorld
    (match o2 with
     | Accept =>
         with_ui (UI.setSteps (fetched_steps (ShareLink.demo_id linkData) s))
                 cl
     | _ => cl
     end)
    (served (SelectSteps (ShareLink.demo_id linkData)) o2 s
       (served (SelectDemo (ShareLink.demo_id linkData)) Accept s
          (served (SelectShareLink token) Accept s (server w)))).

(** A store that accepts every coming request. *)
Definition healthy (sv : Server) : Prop :=
  forall n, outcome_at n sv = Accept.

(** A new visitor opens the link: a tab just loaded, at [now], on the
    store. *)
Definition new_tab (now : JsDate) : Client :=
  mkClient UI.initial (getTime now) (getTime now) now [].

Definition visit (token : string) (now : JsDate) (sv : Server) : World :=
  after (SharedDemoViewer.mount token) (mkWorld (new_tab now) sv).

(** [k] visitors, one after the other. *)
Fixpoint visits (token : string) (now : JsDate) (k : nat) (sv : Server)
  : Server :=
  match k with
  | O => sv
  | S k' => visits token now k' (server (visit token now sv))
  end.

(** What a view record keeps for life: everything but the two progress
    fields. *)
Definition fixed_part (v : DemoView.t)
  : string * string * option string * string * option string * Instant * Z :=
  (DemoView.id v, DemoView.demo_id v, DemoView.share_link_id v,
   DemoView.viewer_ip v, DemoView.viewer_location v, DemoView.viewed_at v,
   DemoView.total_steps v).

(** The seconds the viewer reports: [Math.floor((Date.now() -
    startTimeRef.current) / 1000)]. *)
Definition seconds_spent (cl : Client) : Z :=
  (getTime (clock cl) - startTimeRef cl) / 1000.

(** No stored view record carries [viewId]. *)
Definition unused_id (viewId : string) (s : Store) : Prop :=
  forall v, In v (demo_views s) -> DemoView.id v <> viewId.

(** The sum of a list of numbers. *)
Definition total (l : list Z) : Z := fold_right Z.add 0 l.

(** The records of the demos [demoIds] seen at or after [since]. *)
Definition in_window (demoIds : list string) (since : Instant)
  (v : DemoView.t) : bool :=
  in_ids demoIds (DemoView.demo_id v) && (since <=? DemoView.viewed_at v).

(** How the four headline figures of a summary relate to the records
    [views] they are computed from.  The two quotients are JavaScript
    numbers; what is said of them here is what rounding to a double keeps:
    their being numbers, and bounds that are themselves integers. *)
Definition figures_of (views : list DemoView.t) (s : AnalyticsData) : Prop :=
  totalViews s = len views
  /\ 0 <= uniqueViewers s <= totalViews s
  /\ (views <> [] -> 1 <= uniqueViewers s)
  /\ (exists r, completionRate s = Num r /\ (0 <= r)%Q /\ (r <= 100)%Q)
  /\ (exists a,
        avgTimeSpent s = Num a
        /\ forall lo hi,
             views <> [] ->
             (forall v, In v views -> lo <= DemoView.time_spent v <= hi) ->
             (inject_Z lo <= a)%Q /\ (a <= inject_Z hi)%Q).

(** The UTC dates that the bars of a series of [k] entries built on [today]
    count, oldest bar first. *)
Fixpoint bar_dates (today : JsDate) (k : nat) : list Z :=
  match k with
  | O => []
  | S i => toISODate (bar_date today i) :: bar_dates today i
  end.

(** The records a day series of [k] entries built on [today] has a bar for:
    those whose [viewed_at] falls on the UTC date of one of its bars. *)
Definition charted (today : JsDate) (k : nat) (v : DemoView.t) : bool :=
  existsb (Z.eqb (isoDate (DemoView.viewed_at v))) (bar_dates today k).

(** The offset of the zone at the local time [n] days before [d] is the one
    at [d]: no daylight-saving change separates the two. *)
Definition same_offset (d : JsDate) (n : Z) : Prop :=
  offset_of_local (zone d) (LocalTime (zone d) (getTime d) - n * msPerDay)
  = offset_at (zone d) (getTime d).

(** New York on 2024-03-10, day 19792 since the epoch, when daylight-saving
    time begins: UTC-5 until 07:00 UTC (02:00 local), UTC-4 from then on; a
    local time of the skipped hour is read with the offset before the
    change.  The browser is at 19:30 local time that day, 23:30 UTC, and
    the store holds one view of the sample demo, recorded at 12:00 UTC. *)
Module NewYork.
Definition hour : Z := 3600000.
Definition tz : Zone :=
  mkZone (fun t => if t <? 19792 * msPerDay + 7 * hour
                   then -5 * hour else -4 * hour)
         (fun tlocal => if tlocal <? 19792 * msPerDay + 3 * hour
                        then -5 * hour else -4 * hour).
Definition today : JsDate :=
  mkDate (19792 * msPerDay + 23 * hour + 1800000) tz.
Definition view : DemoView.t :=
  DemoView.mk "v0" "D1" None "unknown" None
              (19792 * msPerDay + 12 * hour) 0 0 3.
Definition world : World :=
  mkWorld (mkClient UI.initial 0 0 today [])
          (mkServer (mkStore [] [Sample.demo] [] [view]) [] Sample.uuids 0
                    []).
End NewYork.

(** * Properties *)

Unset Implicit Arguments.

(** ** Running programs *)

Lemma run_bind {A B} (p : Prog A) (f : A -> Prog B) (w : World) :
  run (bind p f) w =
  match run p w with
  | (Ok a, w') => run (f a) w'
  | (Raised e, w') => (Raised e, w')
  end.
Proof.
  revert w; induction p as [a|e|X c k IH]; intros w; simpl; try reflexivity.
  destruct (handle c w) as [x w']. apply IH.
Qed.

Lemma run_try_catch {A} (p : Prog A) (h : string -> Prog A) (w : World) :
  run (try_catch p h) w =
  match run p w with
  | (Ok a, w') => (Ok a, w')
  | (Raised e, w') => run (h e) w'
  end.
Proof.
  revert w; induction p as [a|e|X c k IH]; intros w; simpl; try reflexivity.
  destruct (handle c w) as [x w']. apply IH.
Qed.

Lemma run_finally {A} (p : Prog A) (f : Prog unit) (w : World) :
  run (finally p f) w =
  match run p w with
  | (Ok a, w') =>
      match run f w' with
      | (Ok _, w'') => (Ok a, w'')
      | (Raised e, w'') => (Raised e, w'')
      end
  | (Raised e, w') =>
      match run f w' with
      | (Ok _, w'') => (Raised e, w'')
      | (Raised e', w'') => (Raised e', w'')
      end
  end.
Proof.
  revert w; induction p as [a|e|X c k IH]; intros w; simpl.
  - rewrite run_bind. destruct (run f w) as [[u|e] w']; reflexivity.
  - rewrite run_bind. destruct (run f w) as [[u|e'] w']; reflexivity.
  - destruct (handle c w) as [x w']. apply IH.
Qed.

(** A handler that cannot raise makes [try]/[catch] total. *)
Lemma try_catch_never_raises {A} (p : Prog A) (h : string -> Prog A) :
  (forall e w, exists a, result (h e) w = Ok a) ->
  forall w, exists a, result (try_catch p h) w = Ok a.
Proof.
  intros Hh w. unfold result. rewrite run_try_catch.
  destruct (run p w) as [[a|e] w'].
  - exists a; reflexivity.
  - apply Hh.
Qed.

(** The three ways a request goes. *)
Lemma run_await_accept (r : Request) (w : World) :
  next_outcome (server w) = Accept ->
  run (await r) w =
  (Ok (fst (perform r (uuid (server w) (issued (server w))) (db (server w)))),
   mkWorld (client w)
     (served r Accept
        (snd (perform r (uuid (server w) (issued (server w)))
                      (db (server w))))
        (server w))).
Proof.
  intros H. simpl. unfold request. rewrite H.
  destruct (perform r _ _); reflexivity.
Qed.

Lemma run_await_refuse (r : Request) (w : World) (e : string) :
  next_outcome (server w) = Refuse e ->
  run (await r) w =
  (Ok (reply_error e),
   mkWorld (client w) (served r (Refuse e) (db (server w)) (server w))).
Proof. intros H. simpl. unfold request. rewrite H. reflexivity. Qed.

Lemma run_await_reject (r : Request) (w : World) (e : string) :
  next_outcome (server w) = Reject e ->
  run (await r) w =
  (Raised e,
   mkWorld (client w) (served r (Reject e) (db (server w)) (server w))).
Proof. intros H. simpl. unfold request. rewrite H. reflexivity. Qed.

Lemma run_set_state (f : UI.t -> UI.t) (w : World) :
  run (set_state f) w = (Ok tt, mkWorld (with_ui f (client w)) (server w)).
Proof. reflexivity. Qed.

Lemma run_console_error (label err : string) (w : World) :
  run (console_error label err) w
  = (Ok tt, mkWorld (with_console label err (client w)) (server w)).
Proof. reflexivity. Qed.

Lemma run_new_Date (w : World) : run new_Date w = (Ok (clock (client w)), w).
Proof. reflexivity. Qed.

Lemma outcome_at_served n r o s' sv :
  outcome_at n (served r o s' sv) = outcome_at (S n) sv.
Proof.
  unfold outcome_at, served; simpl. destruct (oracle sv); simpl.
  - destruct n; reflexivity.
  - reflexivity.
Qed.

Lemma next_outcome_at (sv : Server) : next_outcome sv = outcome_at 0 sv.
Proof. unfold next_outcome, outcome_at. destruct (oracle sv); reflexivity. Qed.

(** ** Progress updates *)

Lemma set_progress_twice viewId t1 c1 t2 c2 v :
  set_progress viewId t2 c2 (set_progress viewId t1 c1 v)
  = set_progress viewId t2 c2 v.
Proof.
  unfold set_progress.
  destruct (String.eqb (DemoView.id v) viewId) eqn:E; simpl; rewrite E;
    reflexivity.
Qed.

(** What a progress update leaves behind: the rows of that id overwritten
    when the store accepts the write, a console line otherwise. *)
Lemma updateViewProgress_after viewId t c w :
  let sv := server w in
  let r := UpdateProgress viewId t c in
  run (AnalyticsService.updateViewProgress viewId t c) w =
  (Ok tt,
   match next_outcome sv with
   | Accept =>
       mkWorld (client w)
         (served r Accept
            (mkStore (share_links (db sv)) (demos (db sv))
                     (demo_steps (db sv))
                     (map (set_progress viewId t c) (demo_views (db sv))))
            sv)
   | Refuse e =>
       mkWorld (with_console "Update view progress error:" e (client w))
               (served r (Refuse e) (db sv) sv)
   | Reject e =>
       mkWorld (with_console "Update view progress error:" e (client w))
               (served r (Reject e) (db sv) sv)
   end).
Proof.
  cbv zeta. unfold AnalyticsService.updateViewProgress.
  rewrite run_try_catch, run_bind.
  destruct (next_outcome (server w)) eqn:E.
  - rewrite (run_await_accept _ _ E). reflexivity.
  - rewrite (run_await_refuse _ _ _ E). reflexivity.
  - rewrite (run_await_reject _ _ _ E). reflexivity.
Qed.

(** C7. [updateViewProgress] is last-write-wins: after
    [updateViewProgress(id, t1, c1)] and then [updateViewProgress(id, t2, c2)],
    the second write reaching the store, the table is the one the second
    update alone produces: the rows of that id hold [time_spent = t2] and
    [completed_steps = c2] (42, 3 and then 50, 4 leave 50 and 4), nothing is
    accumulated, and this whether or not the first write was applied. *)
Theorem C7_updateViewProgress_last_write_wins :
  forall viewId t1 c1 t2 c2 w,
    let w1 := after (AnalyticsService.updateViewProgress viewId t1 c1) w in
    let w2 := after (AnalyticsService.updateViewProgress viewId t2 c2) w1 in
    next_outcome (server w1) = Accept ->
    demo_views (store_of w2)
    = map (set_progress viewId t2 c2) (demo_views (store_of w))
    /\ (forall v, In v (demo_views (store_of w2)) ->
                  DemoView.id v = viewId ->
                  DemoView.time_spent v = t2
                  /\ DemoView.completed_steps v = c2).
Proof.
  intros viewId t1 c1 t2 c2 w w1 w2 Hacc.
  assert (E : demo_views (store_of w2)
              = map (set_progress viewId t2 c2) (demo_views (store_of w))).
  { unfold w2, after. rewrite updateViewProgress_after.
    cbv zeta. rewrite Hacc. unfold store_of; simpl.
    unfold w1, after. rewrite updateViewProgress_after.
    cbv zeta. destruct (next_outcome (server w)); simpl; try reflexivity.
    rewrite map_map. apply map_ext. intros v. apply set_progress_twice. }
  split; [exact E|].
  intros v Hin Hid. rewrite E in Hin. apply in_map_iff in Hin.
  destruct Hin as [v0 [Hv Hin]]. subst v. unfold set_progress in *.
  destruct (String.eqb (DemoView.id v0) viewId) eqn:Eid.
  - split; reflexivity.
  - apply String.eqb_neq in Eid. contradiction.
Qed.

Lemma C7_witness :
  next_outcome
    (server (after (AnalyticsService.updateViewProgress "v0" 42 3)
                   (Sample.world []))) = Accept
  /\ demo_views
       (store_of
          (after (AnalyticsService.updateViewProgress "v0" 50 4)
             (after (AnalyticsService.updateViewProgress "v0" 42 3)
                    (Sample.world []))))
     = [DemoView.mk "v0" "D1" (Some "L1") "unknown" None (Sample.day 99)
                    50 4 3].
Proof.
  split; [reflexivity|].
  apply (C7_updateViewProgress_last_write_wins "v0" 42 3 50 4
           (Sample.world [])).
  reflexivity.
Defined.

Lemma or_zero_id x : or_zero x = x.
Proof. unfold or_zero. destruct (Z.eqb_spec x 0); congruence. Qed.

Lemma db_served r o s' sv : db (served r o s' sv) = s'.
Proof. reflexivity. Qed.

Ltac outcome :=
  cbn [server]; rewrite next_outcome_at; repeat rewrite outcome_at_served;
  eassumption.

(** Symbolic execution of a program, one operation after the other; the
    outcome of each request is looked up among the hypotheses. *)
Ltac exec :=
  repeat first
    [ rewrite run_bind | rewrite run_try_catch | rewrite run_finally
    | rewrite run_set_state | rewrite run_console_error | rewrite run_new_Date
    | rewrite run_await_accept by outcome
    | erewrite run_await_refuse by outcome
    | erewrite run_await_reject by outcome
    | rewrite db_served
    | progress cbn [fst snd client server perform reply_data reply_error
                    reply_empty single data error run] ].

(** ** Opening a session in the shared viewer *)

(** The nine ways [trackView] goes: the increment and the insert each
    accepted, refused or rejected. *)
Ltac track_cases w :=
  cbv zeta;
  unfold result, after, store_of, increment_of, view_record_of,
    SharedDemoViewer.trackView, AnalyticsService.trackView;
  rewrite or_zero_id;
  destruct (outcome_at 0 (server w)) eqn:?E0;
  destruct (outcome_at 1 (server w)) eqn:?E1;
  exec; try reflexivity.

Lemma shared_trackView_ok render linkData w :
  result (SharedDemoViewer.trackView render linkData) w = Ok tt.
Proof. track_cases w. Qed.

(** The increment writes the count read at validation, plus one. *)
Lemma shared_trackView_share_links render linkData w :
  share_links (store_of (after (SharedDemoViewer.trackView render linkData) w))
  = match outcome_at 0 (server w) with
    | Accept =>
        map (set_view_count (ShareLink.id linkData)
                            (ShareLink.view_count linkData + 1))
            (share_links (store_of w))
    | _ => share_links (store_of w)
    end.
Proof. track_cases w. Qed.

(** The increment is requested first; the insert follows unless the
    increment rejected. *)
Lemma shared_trackView_journal render linkData w :
  journal (server (after (SharedDemoViewer.trackView render linkData) w))
  = journal (server w)
    ++ (increment_of linkData, outcome_at 0 (server w))
       :: match outcome_at 0 (server w) with
          | Reject _ => []
          | _ => [(InsertView
                     (view_record_of render linkData (clock (client w))),
                   outcome_at 1 (server w))]
          end.
Proof.
  track_cases w; unfold served; cbn [journal]; rewrite <- app_assoc;
    reflexivity.
Qed.

(** A record is created when the insert is reached and accepted. *)
Lemma shared_trackView_demo_views render linkData w :
  demo_views (store_of (after (SharedDemoViewer.trackView render linkData) w))
  = match outcome_at 0 (server w), outcome_at 1 (server w) with
    | Reject _, _ => demo_views (store_of w)
    | _, Accept =>
        demo_views (store_of w)
        ++ [DemoView.of_record
              (uuid (server w) (issued (server w)))
              (view_record_of render linkData (clock (client w)))]
    | _, _ => demo_views (store_of w)
    end.
Proof. track_cases w. Qed.


Lemma shared_trackView_ui render linkData w :
  let u := ui (client w) in
  let u' := ui (client (after (SharedDemoViewer.trackView render linkData) w)) in
  UI.error u' = UI.error u /\ UI.loading u' = UI.loading u
  /\ UI.demo u' = UI.demo u /\ UI.steps u' = UI.steps u.
Proof. track_cases w; repeat split. Qed.

(** The world in which the open flow starts tracking: the three fetches
    answered, and the link, the demo and the steps handed to React. *)
Lemma validateAndFetchDemo_opens token render linkData w :
  opens token linkData w ->
  exists wm,
    run (SharedDemoViewer.validateAndFetchDemo token render) w
    = (Ok tt,
       let w' := after (SharedDemoViewer.trackView render linkData) wm in
       mkWorld (with_ui (UI.setLoading false) (client w')) (server w'))
    /\ db (server wm) = db (server w)
    /\ (forall n, outcome_at n (server wm) = outcome_at (3 + n) (server w))
    /\ journal (server wm)
       = journal (server w)
         ++ [(SelectShareLink token, Accept);
             (SelectDemo (ShareLink.demo_id linkData), Accept);
             (SelectSteps (ShareLink.demo_id linkData),
              outcome_at 2 (server w))]
    /\ console (client wm) = console (client w)
    /\ clock (client wm) = clock (client w)
    /\ UI.error (ui (client wm)) = UI.error (ui (client w))
    /\ uuid (server wm) = uuid (server w)
    /\ issued (server wm) = issued (server w).
Proof.
  intros [H0 Hl He Hm H1 [demoData Hd] H2].
  unfold store_of, active_links in *.
  unfold SharedDemoViewer.validateAndFetchDemo.
  exec. rewrite Hl. exec. rewrite He, Hm. exec. rewrite Hd. exec.
  destruct (outcome_at 2 (server w)) eqn:E2; [| |exfalso; eapply H2; eauto].
  all: exec.
  all: match goal with
       | |- context [run (SharedDemoViewer.trackView ?r ?l) ?W] =>
           exists W;
           pose proof (shared_trackView_ok r l W) as Hok;
           unfold after, result in *;
           destruct (run (SharedDemoViewer.trackView r l) W) as [[[]|e] w'];
           cbn [fst snd] in *; [|discriminate]
       end.
  all: repeat split; try reflexivity.
  all: try (intros n; cbn [server]; rewrite !outcome_at_served; reflexivity).
  all: unfold served; cbn [server journal]; rewrite <- !app_assoc;
    reflexivity.
Qed.

Lemma filter_map_invariant {A} (p : A -> bool) (f : A -> A) (l : list A) :
  (forall x, p (f x) = p x) -> filter p (map f l) = map f (filter p l).
Proof.
  intros Hp. induction l as [|x l IH]; simpl; [reflexivity|].
  rewrite Hp. destruct (p x); simpl; rewrite IH; reflexivity.
Qed.

Lemma journal_since_app w w' J :
  journal (server w') = journal (server w) ++ J -> journal_since w w' = J.
Proof.
  unfold journal_since. intros ->.
  induction (journal (server w)) as [|x l IH]; simpl; [reflexivity|exact IH].
Qed.

(** Re-reading a link after its count was set. *)
Lemma active_links_set_view_count token linkId n s s' :
  share_links s' = map (set_view_count linkId n) (share_links s) ->
  active_links token s' = map (set_view_count linkId n) (active_links token s).
Proof.
  intros E. unfold active_links. rewrite E.
  apply filter_map_invariant. intros l. unfold set_view_count.
  destruct (String.eqb (ShareLink.id l) linkId); reflexivity.
Qed.

(** A progress update never touches [share_links]. *)
Lemma updateViewProgress_share_links viewId t c w :
  share_links (store_of (after (AnalyticsService.updateViewProgress viewId t c) w))
  = share_links (store_of w).
Proof.
  unfold after, store_of. rewrite updateViewProgress_after. cbv zeta.
  destruct (next_outcome (server w)); reflexivity.
Qed.

Lemma run_GetStartTime w :
  run (call GetStartTime) w = (Ok (startTimeRef (client w)), w).
Proof. reflexivity. Qed.

Lemma run_SetLastUpdate t w :
  run (call (SetLastUpdate t)) w
  = (Ok tt, mkWorld (with_lastUpdate t (client w)) (server w)).
Proof. reflexivity. Qed.

Lemma viewer_updateViewProgress_share_links render w :
  share_links (store_of (after (SharedDemoViewer.updateViewProgress render) w))
  = share_links (store_of w).
Proof.
  unfold SharedDemoViewer.updateViewProgress.
  destruct (UI.viewId render) as [viewId|]; [|reflexivity].
  unfold after. rewrite run_bind, run_new_Date, run_bind, run_GetStartTime.
  rewrite run_bind.
  match goal with
  | |- context [run (AnalyticsService.updateViewProgress ?i ?t ?c) ?W] =>
      pose proof (updateViewProgress_share_links i t c W) as H;
      pose proof (updateViewProgress_after i t c W) as R;
      cbv zeta in R; unfold after in H; rewrite R in H |- *
  end.
  cbn [fst snd] in *.
  rewrite run_bind, run_new_Date, run_SetLastUpdate. cbn [snd].
  exact H.
Qed.

Lemma viewer_trackCompletion_share_links render w :
  share_links (store_of (after (SharedDemoViewer.trackCompletion render) w))
  = share_links (store_of w).
Proof.
  unfold SharedDemoViewer.trackCompletion.
  destruct (UI.viewId render) as [viewId|]; [|reflexivity].
  unfold after. rewrite run_bind, run_new_Date, run_bind, run_GetStartTime.
  apply updateViewProgress_share_links.
Qed.

Lemma set_view_count_other linkId n l :
  String.eqb (ShareLink.id l) linkId = false -> set_view_count linkId n l = l.
Proof. intros E. unfold set_view_count. rewrite E. reflexivity. Qed.

Lemma set_view_count_id linkId n l :
  ShareLink.id (set_view_count linkId n l) = ShareLink.id l.
Proof.
  unfold set_view_count. destruct (String.eqb (ShareLink.id l) linkId);
    reflexivity.
Qed.

Lemma other_links_kept linkId n links :
  filter (fun l => negb (String.eqb (ShareLink.id l) linkId))
         (map (set_view_count linkId n) links)
  = filter (fun l => negb (String.eqb (ShareLink.id l) linkId)) links.
Proof.
  induction links as [|l links IH]; [reflexivity|].
  cbn [map filter]. rewrite set_view_count_id.
  destruct (String.eqb (ShareLink.id l) linkId) eqn:E; cbn [negb].
  - exact IH.
  - rewrite IH, (set_view_count_other _ _ _ E). reflexivity.
Qed.

Lemma Sample_opens : opens "tok" Sample.link (Sample.world []).
Proof.
  constructor; try reflexivity.
  - exists Sample.demo. reflexivity.
  - intros e. discriminate.
Defined.

(** C1, as stated, fails.  Two tabs open the sample link, both read it
    before either writes, every request is accepted and both sessions are
    opened, yet the count ends one above the 4 it started from, not two.
    And in one tab alone, when the store answers the increment with an
    error, the session is opened all the same and the count stays at 4. *)
Lemma C1_counterexample :
  ~ counts_each_session Sample.link TwoTabs.tabA TwoTabs.tabB
      TwoTabs.server0 TwoTabs.turns
  /\ ~ counts_each_session Sample.link TwoTabs.tabA TwoTabs.tabB
        (server (Sample.world [Accept; Accept; Accept; Refuse "denied"]))
        (repeat TabA 14).
Proof.
  split; intros H; vm_compute in H; discriminate H.
Qed.

(** C1, amended.  A session opened through the shared viewer against a
    valid share link, the store accepting the increment and no other session
    writing the link between this session's read of it and its increment,
    raises that link's [view_count] by exactly 1: re-reading the link by its
    token shows the count read plus one, every stored row of the link holds
    it, the other links are as they were, and the open flow sends exactly
    one increment.  No later [updateViewProgress], [trackCompletion] or
    closing update of the session changes any share link. *)
Theorem C1_open_increments_view_count_once :
  (forall token render linkData w,
      opens token linkData w ->
      outcome_at 3 (server w) = Accept ->
      let w' := after (SharedDemoViewer.validateAndFetchDemo token render) w in
      map ShareLink.view_count (active_links token (store_of w))
      = [ShareLink.view_count linkData]
      /\ map ShareLink.view_count (active_links token (store_of w'))
         = [ShareLink.view_count linkData + 1]
      /\ (forall l,
            In l (share_links (store_of w')) ->
            ShareLink.id l = ShareLink.id linkData ->
            ShareLink.view_count l = ShareLink.view_count linkData + 1)
      /\ filter (fun l => negb (String.eqb (ShareLink.id l)
                                          (ShareLink.id linkData)))
                (share_links (store_of w'))
         = filter (fun l => negb (String.eqb (ShareLink.id l)
                                            (ShareLink.id linkData)))
                  (share_links (store_of w))
      /\ map ShareLink.id (share_links (store_of w'))
         = map ShareLink.id (share_links (store_of w))
      /\ filter is_increment (journal_since w w')
         = [(UpdateViewCount (ShareLink.id linkData)
                             (ShareLink.view_count linkData + 1), Accept)])
  /\ (forall render w,
         share_links
           (store_of (after (SharedDemoViewer.updateViewProgress render) w))
         = share_links (store_of w))
  /\ (forall render w,
         share_links
           (store_of (after (SharedDemoViewer.trackCompletion render) w))
         = share_links (store_of w))
  /\ (forall render w,
         share_links (store_of (after (SharedDemoViewer.unmount render) w))
         = share_links (store_of w)).
Proof.
  split; [|split; [|split]].
  - intros token render linkData w Ho H3 w'.
    destruct (validateAndFetchDemo_opens token render linkData w Ho)
      as (wm & Hrun & Hdb & Hout & Hj & _).
    assert (Hlinks : share_links (store_of w')
                     = map (set_view_count (ShareLink.id linkData)
                                           (ShareLink.view_count linkData + 1))
                           (share_links (store_of w))).
    { unfold w', after. rewrite Hrun. cbv zeta. unfold store_of. cbn [snd server].
      pose proof (shared_trackView_share_links render linkData wm) as S.
      unfold store_of in S. rewrite S, Hout. simpl. rewrite H3, Hdb.
      reflexivity. }
    split; [rewrite (opens_link Ho); reflexivity|].
    split; [|split; [|split; [|split]]].
    + rewrite (active_links_set_view_count token _ _ _ _ Hlinks).
      rewrite (opens_link Ho). simpl. unfold set_view_count.
      rewrite String.eqb_refl. reflexivity.
    + intros l Hin Hid. rewrite Hlinks in Hin. apply in_map_iff in Hin.
      destruct Hin as (l0 & <- & _). rewrite set_view_count_id in Hid.
      unfold set_view_count. rewrite Hid, String.eqb_refl. reflexivity.
    + rewrite Hlinks. apply other_links_kept.
    + rewrite Hlinks, map_map. apply map_ext. intros l.
      apply set_view_count_id.
    + rewrite (journal_since_app w w'
                 ([(SelectShareLink token, Accept);
                   (SelectDemo (ShareLink.demo_id linkData), Accept);
                   (SelectSteps (ShareLink.demo_id linkData),
                    outcome_at 2 (server w))]
                  ++ (increment_of linkData, Accept)
                     :: [(InsertView
                            (view_record_of render linkData
                                            (clock (client wm))),
                          outcome_at 4 (server w))])).
      * reflexivity.
      * unfold w', after. rewrite Hrun. cbv zeta. cbn [snd server].
        rewrite shared_trackView_journal, !Hout, Hj. simpl.
        rewrite H3, <- app_assoc. reflexivity.
  - apply viewer_updateViewProgress_share_links.
  - apply viewer_trackCompletion_share_links.
  - intros render w. unfold SharedDemoViewer.unmount.
    destruct (UI.viewId render); [|reflexivity].
    apply viewer_updateViewProgress_share_links.
Qed.

Lemma C1_witness :
  opens "tok" Sample.link (Sample.world [])
  /\ outcome_at 3 (server (Sample.world [])) = Accept
  /\ map ShareLink.view_count
       (active_links "tok" (store_of (Sample.world []))) = [4]
  /\ map ShareLink.view_count
       (active_links "tok"
          (store_of (after (SharedDemoViewer.validateAndFetchDemo
                              "tok" UI.initial)
                           (Sample.world []))))
     = [5].
Proof.
  split; [exact Sample_opens|]. split; [reflexivity|].
  split; [reflexivity|].
  exact (proj1 (proj2 (proj1 C1_open_increments_view_count_once
                         "tok" UI.initial Sample.link (Sample.world [])
                         Sample_opens eq_refl))).
Defined.

(** ** The increment and the view record *)




(** ** Validation *)

(** C6. For a share link whose [expires_at] is set and in the past,
    validation of its token (the lookup finding the link) fails with
    [LinkExpired], whatever [view_count] and [max_views] are: the expiry
    check comes before the view-limit check.  Nothing is written, and the
    lookup is the only request sent. *)
Theorem C6_expired_link_fails_with_LinkExpired :
  forall token render linkData w e,
    outcome_at 0 (server w) = Accept ->
    active_links token (store_of w) = [linkData] ->
    ShareLink.expires_at linkData = Some e ->
    e < getTime (clock (client w)) ->
    let w' := after (SharedDemoViewer.validateAndFetchDemo token render) w in
    result (SharedDemoViewer.validateAndFetchDemo token render) w = Ok tt
    /\ UI.error (ui (client w')) = Some SharedDemoViewer.LinkExpired
    /\ UI.loading (ui (client w')) = false
    /\ store_of w' = store_of w
    /\ journal_since w w' = [(SelectShareLink token, Accept)].
Proof.
  intros token render linkData w e H0 Hl He Hlt.
  assert (Hx : SharedDemoViewer.has_expired linkData (clock (client w)) = true).
  { unfold SharedDemoViewer.has_expired. rewrite He. apply Z.ltb_lt. exact Hlt. }
  cbv zeta.
  unfold result, after, store_of, active_links,
    SharedDemoViewer.validateAndFetchDemo in *.
  exec. rewrite Hl. exec. rewrite Hx. exec.
  repeat split.
  apply journal_since_app. reflexivity.
Qed.

Lemma C6_witness :
  outcome_at 0 (server Expired.world) = Accept
  /\ active_links "tok" (store_of Expired.world) = [Expired.link]
  /\ ShareLink.view_count Expired.link < 10
  /\ ShareLink.max_views Expired.link = Some 10
  /\ UI.error
       (ui (client
              (after (SharedDemoViewer.validateAndFetchDemo "tok" UI.initial)
                     Expired.world)))
     = Some SharedDemoViewer.LinkExpired.
Proof.
  split; [reflexivity|]. split; [reflexivity|]. split; [reflexivity|].
  split; [reflexivity|].
  apply (C6_expired_link_fails_with_LinkExpired
           "tok" UI.initial Expired.link Expired.world (Sample.day 50)).
  - reflexivity.
  - reflexivity.
  - reflexivity.
  - reflexivity.
Defined.

(** ** The snapshot of the step count *)

(** C8, on the code.  The record of a session holds in [total_steps] the
    number of steps of the render whose effect opened the session, not the
    number of steps fetched for the demo: [trackView] reads the [steps] it
    closed over.  At mount that render is the first one, whose [steps] is
    the empty initial state, so the record holds 0 whatever the demo has. *)
Theorem C8_total_steps_is_the_stale_render_count :
  forall token render linkData w,
    opens token linkData w ->
    (forall e, outcome_at 3 (server w) <> Reject e) ->
    outcome_at 4 (server w) = Accept ->
    exists row,
      demo_views
        (store_of (after (SharedDemoViewer.validateAndFetchDemo token render)
                         w))
      = demo_views (store_of w) ++ [row]
      /\ DemoView.demo_id row = ShareLink.demo_id linkData
      /\ DemoView.total_steps row = len (UI.steps render)
      /\ (render = UI.initial -> DemoView.total_steps row = 0).
Proof.
  intros token render linkData w Ho H3 H4.
  destruct (validateAndFetchDemo_opens token render linkData w Ho)
    as (wm & Hrun & Hdb & Hout & _ & _ & _ & _ & Hu & Hi).
  pose proof (shared_trackView_demo_views render linkData wm) as V.
  unfold after, store_of in *. rewrite Hrun. cbv zeta. cbn [snd server].
  rewrite V, !Hout, Hdb. cbn [Nat.add]. rewrite H4.
  eexists. split.
  - destruct (outcome_at 3 (server w)) eqn:E3; try reflexivity.
    exfalso. eapply H3. reflexivity.
  - cbn. rewrite or_zero_id. repeat split. intros ->. reflexivity.
Qed.

Lemma C8_witness :
  opens "tok" Sample.link (Sample.world [])
  /\ len (filter (fun st => String.eqb (DemoStep.demo_id st) "D1")
                 (demo_steps (store_of (Sample.world [])))) = 3
  /\ exists row,
       demo_views
         (store_of (after (SharedDemoViewer.mount "tok") (Sample.world [])))
       = [Sample.view; row]
       /\ DemoView.demo_id row = "D1"
       /\ DemoView.total_steps row = 0.
Proof.
  split; [exact Sample_opens|]. split; [reflexivity|].
  destruct (C8_total_steps_is_the_stale_render_count
              "tok" UI.initial Sample.link (Sample.world []) Sample_opens)
    as (row & Hv & Hd & _ & H0).
  - intros e. discriminate.
  - reflexivity.
  - exists row. split; [exact Hv|]. split; [exact Hd|]. apply H0. reflexivity.
Defined.

(** The public viewer does the same: its [trackView] runs with the first
    render, before the steps are fetched. *)
Lemma DemoViewer_mount_total_steps :
  demo_views (store_of (after (DemoViewer.mount "D1") (Sample.world [])))
  = [Sample.view;
     DemoView.mk "v1" "D1" None "anonymous" None (Sample.day 100 + 5000)
                 0 0 0].
Proof. reflexivity. Qed.

(** ** Two sessions on one link *)

Lemma set_view_count_twice linkId n m l :
  set_view_count linkId m (set_view_count linkId n l)
  = set_view_count linkId m l.
Proof.
  unfold set_view_count.
  destruct (String.eqb (ShareLink.id l) linkId) eqn:E; simpl; rewrite E;
    reflexivity.
Qed.

(** C10, as stated, fails: two tabs open the sample link, both read it
    before either writes, both increments are accepted, and the count ends
    at 5, one above the 4 it started from. *)
Lemma C10_counterexample : ~ no_lost_update TwoTabs.turns.
Proof.
  intros H.
  assert (E : TwoTabs.view_counts TwoTabs.turns = [4 + 2]).
  { apply H; vm_compute; reflexivity. }
  vm_compute in E. discriminate E.
Qed.

(** C10, amended.  The increment of a session is a write of the count read
    at validation plus one, whatever the store holds by then.  Two sessions
    that hold the same read therefore leave the count at that read plus
    one, in whichever order their increments arrive; two tabs that open the
    sample link one after the other leave it two higher. *)
Theorem C10_increment_writes_the_count_read_plus_one :
  (forall render linkData w,
      outcome_at 0 (server w) = Accept ->
      share_links
        (store_of (after (SharedDemoViewer.trackView render linkData) w))
      = map (set_view_count (ShareLink.id linkData)
                            (ShareLink.view_count linkData + 1))
            (share_links (store_of w)))
  /\ (forall renderA renderB linkData w,
         let w1 := after (SharedDemoViewer.trackView renderA linkData) w in
         let w2 := after (SharedDemoViewer.trackView renderB linkData) w1 in
         outcome_at 0 (server w) = Accept ->
         outcome_at 0 (server w1) = Accept ->
         share_links (store_of w2)
         = map (set_view_count (ShareLink.id linkData)
                               (ShareLink.view_count linkData + 1))
               (share_links (store_of w)))
  /\ TwoTabs.view_counts TwoTabs.in_turn
     = [ShareLink.view_count Sample.link + 2].
Proof.
  split; [|split].
  - intros render linkData w H0.
    rewrite shared_trackView_share_links, H0. reflexivity.
  - intros renderA renderB linkData w w1 w2 H0 H1. unfold w2.
    rewrite shared_trackView_share_links, H1. unfold w1.
    rewrite shared_trackView_share_links, H0.
    rewrite map_map. apply map_ext. intros l. apply set_view_count_twice.
  - vm_compute. reflexivity.
Qed.

Lemma C10_witness :
  outcome_at 0 (server (Sample.world [])) = Accept
  /\ outcome_at 0
       (server (after (SharedDemoViewer.trackView UI.initial Sample.link)
                      (Sample.world []))) = Accept
  /\ map ShareLink.view_count
       (share_links
          (store_of
             (after (SharedDemoViewer.trackView UI.initial Sample.link)
                (after (SharedDemoViewer.trackView UI.initial Sample.link)
                       (Sample.world [])))))
     = [5].
Proof.
  split; [reflexivity|]. split; [reflexivity|].
  rewrite (proj1 (proj2 C10_increment_writes_the_count_read_plus_one)
             UI.initial UI.initial Sample.link (Sample.world [])
             eq_refl eq_refl).
  reflexivity.
Defined.

(** ** The day series *)

Lemma msPerDay_pos : 0 < msPerDay.
Proof. reflexivity. Qed.

Lemma run_getViewsByDay_from views k w :
  run (AnalyticsService.getViewsByDay_from views k) w
  = (Ok (days_back (clock (client w)) views k), w).
Proof.
  induction k as [|i IH]; [reflexivity|].
  cbn [AnalyticsService.getViewsByDay_from].
  rewrite run_bind, run_new_Date, run_bind, IH. reflexivity.
Qed.

Lemma days_back_length today views k :
  List.length (days_back today views k) = k.
Proof. induction k; simpl; congruence. Qed.

Lemma days_back_nth today views k j :
  (j < k)%nat ->
  nth_error (days_back today views k) j
  = Some (DayViews.mk
            (toLocaleDate (bar_date today (k - 1 - j)))
            (utc_day_count views (toISODate (bar_date today (k - 1 - j))))).
Proof.
  revert j; induction k as [|i IH]; intros j Hj; [lia|].
  destruct j as [|j]; cbn [days_back nth_error].
  - replace (S i - 1 - 0)%nat with i by lia. reflexivity.
  - rewrite IH by lia. replace (S i - 1 - S j)%nat with (i - 1 - j)%nat by lia.
    reflexivity.
Qed.

(** C3.  The code does not do what the claim says.  For every list of view
    records and every window length, [getViewsByDay] returns exactly [days]
    entries, oldest first, and makes the entry of [i] days ago from one
    [Date], today moved [i] calendar days back by [setDate]: the label is
    the local date of that [Date], but the count is the number of records
    whose [viewed_at] falls on its UTC date, the date prefix of its ISO
    timestamp.  Where the two dates differ the bar counts another day than
    the one it names.  For a browser at UTC+5:30, at 07:00, with one view
    recorded at 03:00 that local day, the series does not count the records
    of each local day: the view is missing from today's bar and counted
    under yesterday's. *)
Theorem C3_viewsByDay_counts_utc_days :
  (forall views days w,
      let today := clock (client w) in
      let n := Z.to_nat days in
      exists series,
        run (AnalyticsService.getViewsByDay views days) w = (Ok series, w)
        /\ List.length series = n
        /\ forall j, (j < n)%nat ->
             nth_error series j
             = Some (DayViews.mk
                       (toLocaleDate (bar_date today (n - 1 - j)))
                       (utc_day_count views
                          (toISODate (bar_date today (n - 1 - j))))))
  /\ ~ counts_local_days Kolkata.tz [Kolkata.view]
        (value_or []
           (result (AnalyticsService.getViewsByDay [Kolkata.view] 7)
                   Kolkata.world)).
Proof.
  split.
  - intros views days w today n.
    exists (days_back today views n). split; [|split].
    + apply run_getViewsByDay_from.
    + apply days_back_length.
    + apply days_back_nth.
  - intros H.
    specialize (H (DayViews.mk 10 0)).
    assert (E : DayViews.views (DayViews.mk 10 0)
                = local_day_count Kolkata.tz [Kolkata.view]
                                  (DayViews.date (DayViews.mk 10 0))).
    { apply H. vm_compute. do 6 right. left. reflexivity. }
    vm_compute in E. discriminate E.
Qed.

Lemma C3_witness :
  (6 < Z.to_nat 7)%nat
  /\ (5 < Z.to_nat 7)%nat
  /\ exists series,
       run (AnalyticsService.getViewsByDay [Kolkata.view] 7) Kolkata.world
       = (Ok series, Kolkata.world)
       /\ nth_error series 6 = Some (DayViews.mk 10 0)
       /\ nth_error series 5 = Some (DayViews.mk 9 1)
       /\ local_day_count Kolkata.tz [Kolkata.view] 10 = 1
       /\ local_day_count Kolkata.tz [Kolkata.view] 9 = 0.
Proof.
  assert (H6 : (6 < Z.to_nat 7)%nat) by (vm_compute; lia).
  assert (H5 : (5 < Z.to_nat 7)%nat) by (vm_compute; lia).
  split; [exact H6|]. split; [exact H5|].
  destruct (proj1 C3_viewsByDay_counts_utc_days [Kolkata.view] 7
                  Kolkata.world)
    as (series & Hrun & _ & Hnth).
  exists series. split; [exact Hrun|]. split; [|split; [|split]].
  - rewrite (Hnth 6%nat H6). reflexivity.
  - rewrite (Hnth 5%nat H5). reflexivity.
  - reflexivity.
  - reflexivity.
Defined.

(** ** The ranking of demos *)

Section SortFacts.
Variable A : Type.
Variable cmp : A -> A -> Z.

Lemma insert_perm x l : Permutation (insert cmp x l) (x :: l).
Proof.
  induction l as [|y l IH]; simpl; [apply Permutation_refl|].
  destruct (cmp x y <=? 0); [apply Permutation_refl|].
  eapply Permutation_trans; [apply perm_skip, IH|apply perm_swap].
Qed.

Lemma sort_perm l : Permutation (sort cmp l) l.
Proof.
  induction l as [|x l IH]; simpl; [apply perm_nil|].
  eapply Permutation_trans; [apply insert_perm|apply perm_skip, IH].
Qed.

(** Insertion keeps the order among the elements of a class whose members
    never have to follow one another. *)
Lemma insert_stable (p : A -> bool) x l :
  (forall a b, p a = true -> p b = true -> cmp a b <= 0) ->
  filter p (insert cmp x l) = filter p (x :: l).
Proof.
  intros Hp. induction l as [|y l IH]; [reflexivity|].
  cbn [insert]. destruct (Z.leb_spec (cmp x y) 0) as [Hle|Hgt];
    [reflexivity|].
  cbn [filter] in *. rewrite IH.
  destruct (p x) eqn:Px, (p y) eqn:Py; try reflexivity.
  specialize (Hp x y Px Py). lia.
Qed.

Lemma sort_stable (p : A -> bool) l :
  (forall a b, p a = true -> p b = true -> cmp a b <= 0) ->
  filter p (sort cmp l) = filter p l.
Proof.
  intros Hp. induction l as [|x l IH]; [reflexivity|].
  cbn [sort]. rewrite insert_stable by exact Hp.
  cbn [filter]. rewrite IH. reflexivity.
Qed.

Hypothesis cmp_total : forall a b, cmp a b <= 0 \/ cmp b a <= 0.
Hypothesis cmp_trans :
  forall a b c, cmp a b <= 0 -> cmp b c <= 0 -> cmp a c <= 0.

Lemma insert_sorted x l :
  StronglySorted (fun a b => cmp a b <= 0) l ->
  StronglySorted (fun a b => cmp a b <= 0) (insert cmp x l).
Proof.
  induction 1 as [|y l Hs IH Hy]; cbn [insert].
  - constructor; constructor.
  - destruct (Z.leb_spec (cmp x y) 0) as [Hle|Hgt].
    + constructor; [constructor; assumption|].
      constructor; [exact Hle|].
      eapply Forall_impl; [|exact Hy]. intros z Hz.
      eapply cmp_trans; eassumption.
    + constructor; [exact IH|].
      eapply Permutation_Forall;
        [apply Permutation_sym, insert_perm|].
      constructor; [|exact Hy].
      destruct (cmp_total x y); [lia|assumption].
Qed.

Lemma sort_sorted l : StronglySorted (fun a b => cmp a b <= 0) (sort cmp l).
Proof.
  induction l as [|x l IH]; cbn [sort]; [constructor|].
  apply insert_sorted, IH.
Qed.

(** Elements that never have to follow one another stay as they are. *)
Lemma sort_flat l :
  (forall a b, In a l -> In b l -> cmp a b <= 0) -> sort cmp l = l.
Proof.
  induction l as [|x l IH]; intros H; [reflexivity|].
  cbn [sort]. rewrite IH by (intros; apply H; right; assumption).
  destruct l as [|y l]; [reflexivity|]. cbn [insert].
  destruct (Z.leb_spec (cmp x y) 0) as [_|Hgt]; [reflexivity|].
  specialize (H x y (or_introl eq_refl) (or_intror (or_introl eq_refl))).
  lia.
Qed.
End SortFacts.

Lemma StronglySorted_weaken {A} (R R' : A -> A -> Prop) l :
  (forall a b, R a b -> R' a b) -> StronglySorted R l -> StronglySorted R' l.
Proof.
  intros HR. induction 1 as [|x l Hs IH Hx]; constructor; [exact IH|].
  eapply Forall_impl; [|exact Hx]. intros b. apply HR.
Qed.

(** C5, as stated, fails: with "Beta" fetched before "Alpha" and ten views
    each, [getTopDemos] keeps Beta before Alpha, where the ranking with ties
    broken by title puts Alpha first. *)
Lemma C5_counterexample :
  AnalyticsService.getTopDemos Tie.views [Tie.beta; Tie.alpha]
  = [TopDemo.mk "Beta" 10 "B"; TopDemo.mk "Alpha" 10 "A"]
  /\ topDemos_by_title Tie.views [Tie.beta; Tie.alpha]
     = [TopDemo.mk "Alpha" 10 "A"; TopDemo.mk "Beta" 10 "B"]
  /\ AnalyticsService.getTopDemos Tie.views [Tie.beta; Tie.alpha]
     <> topDemos_by_title Tie.views [Tie.beta; Tie.alpha].
Proof.
  split; [vm_compute; reflexivity|]. split; [vm_compute; reflexivity|].
  vm_compute. discriminate.
Qed.

(** C5, amended.  [getTopDemos] holds one entry per demo of the user, with
    the number of fetched records of that demo (0 for a demo without
    views), ranked by a stable sort descending by count, and cut to the
    first 5: the ranking is a permutation of the entries, counts never
    increase along it, and demos of equal count keep the order in which the
    demos were fetched. *)
Theorem C5_topDemos_stable_by_count :
  forall views demos,
    let entries := map (demo_count views) demos in
    exists ranked,
      AnalyticsService.getTopDemos views demos = firstn 5 ranked
      /\ Permutation ranked entries
      /\ StronglySorted (fun a b => TopDemo.views a >= TopDemo.views b) ranked
      /\ forall n,
           filter (fun a => TopDemo.views a =? n) ranked
           = filter (fun a => TopDemo.views a =? n) entries.
Proof.
  intros views demos entries.
  exists (sort (fun a b => TopDemo.views b - TopDemo.views a) entries).
  split; [reflexivity|]. split; [apply sort_perm|]. split.
  - eapply StronglySorted_weaken; [|apply sort_sorted].
    + intros a b H. cbv beta in H. lia.
    + intros a b. cbv beta. lia.
    + intros a b c. cbv beta. lia.
  - intros n. apply sort_stable. intros a b Ha Hb.
    apply Z.eqb_eq in Ha, Hb. lia.
Qed.

(** ** Summaries *)

Lemma getUserAnalytics_result userId timeRange w :
  let owned := owned_demos userId (store_of w) in
  let days := AnalyticsService.days_of timeRange in
  result (AnalyticsService.getUserAnalytics userId timeRange) w
  = Ok match outcome_at 0 (server w), owned with
       | Accept, _ :: _ =>
           match outcome_at 1 (server w) with
           | Accept =>
               let views :=
                 matching_views (map Demo.id owned)
                                (window_start w timeRange) (store_of w) in
               summary_of (clock (client w)) days (Some views)
                          (AnalyticsService.getTopDemos views owned)
           | Refuse _ =>
               summary_of (clock (client w)) days None
                          (AnalyticsService.getTopDemos [] owned)
           | Reject _ => AnalyticsService.getEmptyAnalytics
           end
       | _, _ => AnalyticsService.getEmptyAnalytics
       end.
Proof.
  cbv zeta.
  unfold result, AnalyticsService.getUserAnalytics, owned_demos, store_of,
    matching_views, window_start, AnalyticsService.getViewsByDay.
  destruct (outcome_at 0 (server w)) eqn:E0; exec; try reflexivity.
  destruct (filter _ (demos (db (server w)))) as [|d ds] eqn:Eo;
    exec; [reflexivity|].
  destruct (outcome_at 1 (server w)) eqn:E1; exec; try reflexivity.
  - rewrite run_getViewsByDay_from. reflexivity.
  - rewrite run_getViewsByDay_from. reflexivity.
Qed.

Lemma getDemoAnalytics_result demoId timeRange w :
  let days := AnalyticsService.days_of timeRange in
  let views :=
    match outcome_at 0 (server w) with
    | Accept => Some (matching_views [demoId] (window_start w timeRange)
                                     (store_of w))
    | _ => None
    end in
  let top :=
    match outcome_at 1 (server w),
          filter (fun d => String.eqb (Demo.id d) demoId) (demos (store_of w))
    with
    | Accept, [d] =>
        [TopDemo.mk (Demo.title d) (AnalyticsService.totalViews_of views)
                    demoId]
    | _, _ => []
    end in
  result (AnalyticsService.getDemoAnalytics demoId timeRange) w
  = Ok match outcome_at 0 (server w), outcome_at 1 (server w) with
       | Reject _, _ => AnalyticsService.getEmptyAnalytics
       | _, Reject _ => AnalyticsService.getEmptyAnalytics
       | _, _ => summary_of (clock (client w)) days views top
       end.
Proof.
  cbv zeta.
  unfold result, AnalyticsService.getDemoAnalytics, store_of,
    matching_views, window_start, AnalyticsService.getViewsByDay.
  destruct (outcome_at 0 (server w)) eqn:E0;
    destruct (outcome_at 1 (server w)) eqn:E1; exec; try reflexivity.
  all: try (rewrite run_getViewsByDay_from; cbn [fst]).
  all: try reflexivity.
  all: destruct (filter _ (demos (db (server w)))) as [|d [|d' ds]];
    reflexivity.
Qed.

Lemma days_back_no_views today n :
  map DayViews.views (days_back today [] n) = repeat 0 n.
Proof. induction n as [|n IH]; simpl; [reflexivity|]. rewrite IH. reflexivity. Qed.

Lemma getTopDemos_no_views demos :
  AnalyticsService.getTopDemos [] demos = firstn 5 (map no_views demos).
Proof.
  unfold AnalyticsService.getTopDemos. f_equal.
  change (map _ demos) with (map no_views demos).
  apply sort_flat. intros a b Ha Hb.
  apply in_map_iff in Ha, Hb.
  destruct Ha as (da & <- & _), Hb as (db' & <- & _). simpl. lia.
Qed.

Lemma summary_of_no_records today days top :
  zero_figures (Z.to_nat days) (summary_of today days (Some []) top).
Proof.
  unfold zero_figures, summary_of; cbn [totalViews uniqueViewers avgTimeSpent
    completionRate viewsByDay AnalyticsService.or_empty].
  repeat split; try reflexivity. apply days_back_no_views.
Qed.

(** C4, as stated, fails: a user who owns a demo nobody has viewed gets that
    demo listed in [topDemos] with 0 views, and a user who owns no demo gets
    an empty [viewsByDay], not 7 zero entries. *)
Lemma C4_counterexample :
  matching_views ["D1"] (window_start (Quiet.world []) "7d")
                 (store_of (Quiet.world [])) = []
  /\ topDemos
       (value_or AnalyticsService.getEmptyAnalytics
          (result (AnalyticsService.getUserAnalytics "U1" "7d")
                  (Quiet.world [])))
     = [TopDemo.mk "Tour" 0 "D1"]
  /\ ~ spec_empty_summary
         (value_or AnalyticsService.getEmptyAnalytics
            (result (AnalyticsService.getUserAnalytics "U1" "7d")
                    (Quiet.world [])))
  /\ ~ spec_empty_summary
         (value_or AnalyticsService.getEmptyAnalytics
            (result (AnalyticsService.getUserAnalytics "U2" "7d")
                    (Quiet.world []))).
Proof.
  split; [reflexivity|]. split; [vm_compute; reflexivity|]. split.
  - intros [_ H]. vm_compute in H. discriminate H.
  - intros [(_ & _ & _ & _ & H) _]. vm_compute in H. discriminate H.
Qed.

(** C4, amended.  When the fetches succeed and no view record matches, the
    summary has [totalViews = 0], [uniqueViewers = 0], [avgTimeSpent = 0] and
    [completionRate = 0].  At user level, a user who owns no demo gets the
    empty summary ([viewsByDay] and [topDemos] both empty); otherwise
    [viewsByDay] holds one zero entry per day of the window (7 for "7d") and
    [topDemos] lists the first five of the user's demos, each with 0 views,
    in the order fetched.  At demo level [viewsByDay] is zero-filled and
    [topDemos] holds the demo with 0 views when its title fetch finds it,
    and is empty otherwise. *)
Theorem C4_summary_without_records :
  (forall userId timeRange w,
      outcome_at 0 (server w) = Accept ->
      owned_demos userId (store_of w) = [] ->
      result (AnalyticsService.getUserAnalytics userId timeRange) w
      = Ok AnalyticsService.getEmptyAnalytics)
  /\ (forall userId timeRange w,
         let owned := owned_demos userId (store_of w) in
         outcome_at 0 (server w) = Accept ->
         owned <> [] ->
         outcome_at 1 (server w) = Accept ->
         matching_views (map Demo.id owned) (window_start w timeRange)
                        (store_of w) = [] ->
         exists s,
           result (AnalyticsService.getUserAnalytics userId timeRange) w = Ok s
           /\ zero_figures (Z.to_nat (AnalyticsService.days_of timeRange)) s
           /\ topDemos s = firstn 5 (map no_views owned))
  /\ (forall demoId timeRange w,
         outcome_at 0 (server w) = Accept ->
         (forall e, outcome_at 1 (server w) <> Reject e) ->
         matching_views [demoId] (window_start w timeRange) (store_of w)
         = [] ->
         exists s,
           result (AnalyticsService.getDemoAnalytics demoId timeRange) w = Ok s
           /\ zero_figures (Z.to_nat (AnalyticsService.days_of timeRange)) s
           /\ topDemos s
              = match outcome_at 1 (server w),
                      filter (fun d => String.eqb (Demo.id d) demoId)
                             (demos (store_of w))
                with
                | Accept, [d] => [TopDemo.mk (Demo.title d) 0 demoId]
                | _, _ => []
                end).
Proof.
  split; [|split].
  - intros userId timeRange w H0 Ho.
    rewrite getUserAnalytics_result. cbv zeta. rewrite H0, Ho. reflexivity.
  - intros userId timeRange w owned H0 Ho H1 Hv.
    rewrite getUserAnalytics_result. cbv zeta. fold owned.
    rewrite H0, H1, Hv.
    destruct owned as [|d ds] eqn:E; [congruence|].
    eexists. split; [reflexivity|]. split.
    + apply summary_of_no_records.
    + apply getTopDemos_no_views.
  - intros demoId timeRange w H0 H1 Hv.
    rewrite getDemoAnalytics_result. cbv zeta. rewrite H0, Hv.
    destruct (outcome_at 1 (server w)) eqn:E1;
      [| |exfalso; eapply H1; reflexivity].
    + eexists. split; [reflexivity|]. split; [apply summary_of_no_records|].
      reflexivity.
    + eexists. split; [reflexivity|]. split; [apply summary_of_no_records|].
      reflexivity.
Qed.

Lemma C4_witness :
  outcome_at 0 (server (Quiet.world [])) = Accept
  /\ owned_demos "U1" (store_of (Quiet.world [])) <> []
  /\ outcome_at 1 (server (Quiet.world [])) = Accept
  /\ matching_views (map Demo.id (owned_demos "U1" (store_of (Quiet.world []))))
                    (window_start (Quiet.world []) "7d")
                    (store_of (Quiet.world [])) = []
  /\ exists s,
       result (AnalyticsService.getUserAnalytics "U1" "7d") (Quiet.world [])
       = Ok s
       /\ zero_figures 7 s
       /\ topDemos s = [TopDemo.mk "Tour" 0 "D1"].
Proof.
  assert (Ho : owned_demos "U1" (store_of (Quiet.world [])) <> [])
    by (vm_compute; discriminate).
  split; [reflexivity|]. split; [exact Ho|]. split; [reflexivity|].
  split; [reflexivity|].
  apply (proj1 (proj2 C4_summary_without_records)
           "U1" "7d" (Quiet.world []) eq_refl Ho eq_refl eq_refl).
Defined.

(** ** Failures *)

Lemma trackView_after_failure demoId shareLinkId viewerData w e :
  failed e (next_outcome (server w)) ->
  let w' := after (AnalyticsService.trackView demoId shareLinkId viewerData) w in
  result (AnalyticsService.trackView demoId shareLinkId viewerData) w = Ok None
  /\ store_of w' = store_of w
  /\ console (client w') = console (client w) ++ [("Track view error:", e)].
Proof.
  unfold failed. rewrite next_outcome_at. cbv zeta.
  unfold result, after, store_of, AnalyticsService.trackView.
  intros [H|H]; exec; repeat split.
Qed.

Lemma trackView_ok demoId shareLinkId viewerData w :
  exists a,
    result (AnalyticsService.trackView demoId shareLinkId viewerData) w = Ok a.
Proof.
  apply try_catch_never_raises. intros e w'. exists None. reflexivity.
Qed.

Lemma summary_of_no_reply today days top :
  let s := summary_of today days None top in
  totalViews s = 0 /\ uniqueViewers s = 0 /\ avgTimeSpent s = NaN
  /\ completionRate s = Num 0%Q
  /\ map DayViews.views (viewsByDay s) = repeat 0 (Z.to_nat days).
Proof.
  cbv zeta. unfold summary_of; cbn [totalViews uniqueViewers avgTimeSpent
    completionRate viewsByDay AnalyticsService.or_empty].
  repeat split; try reflexivity. apply days_back_no_views.
Qed.

(** On the sample store without views, a fetch of the view records that
    resolves with an error gives user "U1" a summary that is not the zeroed
    one: [avgTimeSpent] is [NaN] and [topDemos] lists the demo. *)
Lemma getUserAnalytics_views_fetch_refused :
  result (AnalyticsService.getUserAnalytics "U1" "7d")
         (Quiet.world [Accept; Refuse "fetch failed"])
  = Ok (mkAnalytics 0 0 NaN (Num 0%Q)
          (map (fun d => DayViews.mk d 0) [94; 95; 96; 97; 98; 99; 100])
          [TopDemo.mk "Tour" 0 "D1"])
  /\ ~ fully_zeroed
         (value_or AnalyticsService.getEmptyAnalytics
            (result (AnalyticsService.getUserAnalytics "U1" "7d")
                    (Quiet.world [Accept; Refuse "fetch failed"]))).
Proof.
  split; [vm_compute; reflexivity|].
  intros (_ & _ & _ & _ & _ & H). vm_compute in H. discriminate H.
Qed.

(** C9, on the code.  No tracking or aggregation operation raises to its
    caller.  A failed write in [trackView] or [updateViewProgress] is caught
    and written to the console, and leaves the store as it was.  A fetch of
    a summary that rejects, and a demos fetch of [getUserAnalytics] that
    resolves with an error, yield the zeroed summary of [getEmptyAnalytics].
    But a fetch of the view records that resolves with an error, which the
    summaries do not test (as [trackView] and [updateViewProgress] do with
    [if (error) throw error]), does not: [totalViews], [uniqueViewers] and
    [completionRate] are 0 and [viewsByDay] is zero-filled, yet
    [avgTimeSpent] is [NaN] and [topDemos] at user level lists the user's
    demos. *)
Theorem C9_failures_are_absorbed :
  (forall demoId shareLinkId viewerData w,
      exists a,
        result (AnalyticsService.trackView demoId shareLinkId viewerData) w
        = Ok a)
  /\ (forall viewId timeSpent completedSteps w,
         result (AnalyticsService.updateViewProgress viewId timeSpent
                                                     completedSteps) w
         = Ok tt)
  /\ (forall render linkData w,
         result (SharedDemoViewer.trackView render linkData) w = Ok tt)
  /\ (forall userId timeRange w,
         exists s,
           result (AnalyticsService.getUserAnalytics userId timeRange) w
           = Ok s)
  /\ (forall demoId timeRange w,
         exists s,
           result (AnalyticsService.getDemoAnalytics demoId timeRange) w
           = Ok s)
  /\ (forall demoId shareLinkId viewerData w e,
         failed e (next_outcome (server w)) ->
         let w' :=
           after (AnalyticsService.trackView demoId shareLinkId viewerData)
                 w in
         store_of w' = store_of w
         /\ console (client w')
            = console (client w) ++ [("Track view error:", e)])
  /\ (forall viewId timeSpent completedSteps w e,
         failed e (next_outcome (server w)) ->
         let w' :=
           after (AnalyticsService.updateViewProgress viewId timeSpent
                                                      completedSteps) w in
         store_of w' = store_of w
         /\ console (client w')
            = console (client w) ++ [("Update view progress error:", e)])
  /\ (forall userId timeRange w e,
         failed e (outcome_at 0 (server w))
         \/ (outcome_at 0 (server w) = Accept
             /\ outcome_at 1 (server w) = Reject e) ->
         result (AnalyticsService.getUserAnalytics userId timeRange) w
         = Ok AnalyticsService.getEmptyAnalytics)
  /\ (forall demoId timeRange w e,
         outcome_at 0 (server w) = Reject e
         \/ outcome_at 1 (server w) = Reject e ->
         result (AnalyticsService.getDemoAnalytics demoId timeRange) w
         = Ok AnalyticsService.getEmptyAnalytics)
  /\ (forall userId timeRange w e,
         let owned := owned_demos userId (store_of w) in
         outcome_at 0 (server w) = Accept ->
         owned <> [] ->
         outcome_at 1 (server w) = Refuse e ->
         exists s,
           result (AnalyticsService.getUserAnalytics userId timeRange) w = Ok s
           /\ totalViews s = 0 /\ uniqueViewers s = 0
           /\ avgTimeSpent s = NaN
           /\ completionRate s = Num 0%Q
           /\ map DayViews.views (viewsByDay s)
              = repeat 0 (Z.to_nat (AnalyticsService.days_of timeRange))
           /\ topDemos s = firstn 5 (map no_views owned)
           /\ ~ fully_zeroed s)
  /\ (forall demoId timeRange w e,
         outcome_at 0 (server w) = Refuse e ->
         (forall e', outcome_at 1 (server w) <> Reject e') ->
         exists s,
           result (AnalyticsService.getDemoAnalytics demoId timeRange) w = Ok s
           /\ totalViews s = 0 /\ uniqueViewers s = 0
           /\ avgTimeSpent s = NaN
           /\ completionRate s = Num 0%Q
           /\ map DayViews.views (viewsByDay s)
              = repeat 0 (Z.to_nat (AnalyticsService.days_of timeRange))
           /\ ~ fully_zeroed s).
Proof.
  repeat match goal with |- _ /\ _ => split end.
  - apply trackView_ok.
  - intros. unfold result. rewrite updateViewProgress_after. reflexivity.
  - apply shared_trackView_ok.
  - intros. rewrite getUserAnalytics_result. eexists. reflexivity.
  - intros. rewrite getDemoAnalytics_result. eexists. reflexivity.
  - intros demoId shareLinkId viewerData w e Hf.
    apply (trackView_after_failure demoId shareLinkId viewerData w e Hf).
  - intros viewId t c w e Hf w'. unfold w', after, store_of.
    rewrite updateViewProgress_after. cbv zeta.
    destruct Hf as [-> | ->]; split; reflexivity.
  - intros userId timeRange w e H. rewrite getUserAnalytics_result. cbv zeta.
    destruct H as [[-> | ->] | [-> ->]]; try reflexivity.
    destruct (owned_demos userId (store_of w)); reflexivity.
  - intros demoId timeRange w e H. rewrite getDemoAnalytics_result. cbv zeta.
    destruct H as [-> | ->]; [reflexivity|].
    destruct (outcome_at 0 (server w)); reflexivity.
  - intros userId timeRange w e owned H0 Ho H1.
    rewrite getUserAnalytics_result. cbv zeta. fold owned. rewrite H0, H1.
    destruct owned as [|d ds] eqn:E; [congruence|].
    eexists. split; [reflexivity|].
    pose proof (summary_of_no_reply (clock (client w))
                  (AnalyticsService.days_of timeRange)
                  (AnalyticsService.getTopDemos [] (d :: ds))) as S.
    cbv zeta in S. destruct S as (S1 & S2 & S5 & S3 & S4).
    split; [exact S1|]. split; [exact S2|]. split; [exact S5|].
    split; [exact S3|]. split; [exact S4|].
    split; [apply getTopDemos_no_views|].
    intros (_ & _ & Hn & _). rewrite S5 in Hn. discriminate Hn.
  - intros demoId timeRange w e H0 H1.
    rewrite getDemoAnalytics_result. cbv zeta. rewrite H0.
    destruct (outcome_at 1 (server w)) eqn:E1;
      [| |exfalso; eapply H1; reflexivity].
    all: eexists; (split; [reflexivity|]).
    all: match goal with
         | |- context [summary_of ?t ?d None ?top] =>
             pose proof (summary_of_no_reply t d top) as S
         end.
    all: cbv zeta in S; destruct S as (S1 & S2 & S5 & S3 & S4).
    all: split; [exact S1|]; split; [exact S2|]; split; [exact S5|].
    all: split; [exact S3|]; split; [exact S4|].
    all: intros (_ & _ & Hn & _); rewrite S5 in Hn; discriminate Hn.
Qed.

Lemma C9_witness :
  outcome_at 0 (server (Quiet.world [Accept; Refuse "fetch failed"])) = Accept
  /\ owned_demos "U1" (store_of (Quiet.world [Accept; Refuse "fetch failed"]))
     <> []
  /\ outcome_at 1 (server (Quiet.world [Accept; Refuse "fetch failed"]))
     = Refuse "fetch failed"
  /\ exists s,
       result (AnalyticsService.getUserAnalytics "U1" "7d")
              (Quiet.world [Accept; Refuse "fetch failed"]) = Ok s
       /\ avgTimeSpent s = NaN
       /\ topDemos s = [TopDemo.mk "Tour" 0 "D1"]
       /\ ~ fully_zeroed s.
Proof.
  assert (Ho : owned_demos "U1"
                 (store_of (Quiet.world [Accept; Refuse "fetch failed"]))
               <> [])
    by (vm_compute; discriminate).
  split; [reflexivity|]. split; [exact Ho|]. split; [reflexivity|].
  destruct (proj1 (proj2 (proj2 (proj2 (proj2 (proj2 (proj2 (proj2 (proj2
              (proj2 C9_failures_are_absorbed)))))))))
              "U1" "7d" (Quiet.world [Accept; Refuse "fetch failed"])
              "fetch failed" eq_refl Ho eq_refl)
    as (s & Hr & _ & _ & Ha & _ & _ & Ht & Hz).
  exists s. split; [exact Hr|]. split; [exact Ha|]. split; [exact Ht|].
  exact Hz.
Defined.

(** * Further properties of the code *)

(** ** The other ends of validation *)

Lemma no_active_link token s :
  (forall l, In l (share_links s) -> ShareLink.token l = token ->
             ShareLink.is_active l = false) ->
  active_links token s = [].
Proof.
  intros H. unfold active_links.
  induction (share_links s) as [|l ls IH]; [reflexivity|].
  cbn [filter].
  destruct (String.eqb_spec (ShareLink.token l) token) as [E|E].
  - rewrite (H l (or_introl eq_refl) E). cbn.
    apply IH. intros l' Hin. apply H. right. exact Hin.
  - cbn. apply IH. intros l' Hin. apply H. right. exact Hin.
Qed.

(** X1.  A token that no share link carries, or that only deactivated links
    carry, is answered with [LinkInvalid] (also when the store refuses the
    lookup): the flow ends normally with [loading] off, writes nothing, and
    the lookup is its only request. *)
Theorem X1_unknown_or_inactive_token_is_LinkInvalid :
  forall token render w,
    (forall e, outcome_at 0 (server w) <> Reject e) ->
    (forall l, In l (share_links (store_of w)) ->
               ShareLink.token l = token -> ShareLink.is_active l = false) ->
    let w' := after (SharedDemoViewer.validateAndFetchDemo token render) w in
    result (SharedDemoViewer.validateAndFetchDemo token render) w = Ok tt
    /\ UI.error (ui (client w')) = Some SharedDemoViewer.LinkInvalid
    /\ UI.loading (ui (client w')) = false
    /\ store_of w' = store_of w
    /\ journal_since w w' = [(SelectShareLink token, outcome_at 0 (server w))].
Proof.
  intros token render w Hr Hin.
  pose proof (no_active_link token (store_of w) Hin) as Hl.
  cbv zeta.
  unfold result, after, store_of, active_links,
    SharedDemoViewer.validateAndFetchDemo in *.
  destruct (outcome_at 0 (server w)) eqn:E0;
    [| |exfalso; eapply Hr; reflexivity].
  - exec. rewrite Hl. exec. repeat split.
    apply journal_since_app. reflexivity.
  - exec. repeat split. apply journal_since_app. reflexivity.
Qed.

Lemma X1_witness :
  (forall e, outcome_at 0 (server (Sample.world [])) <> Reject e)
  /\ UI.error
       (ui (client
              (after (SharedDemoViewer.validateAndFetchDemo "nope" UI.initial)
                     (Sample.world []))))
     = Some SharedDemoViewer.LinkInvalid.
Proof.
  assert (Hr : forall e, outcome_at 0 (server (Sample.world [])) <> Reject e)
    by (intros e; discriminate).
  split; [exact Hr|].
  apply (X1_unknown_or_inactive_token_is_LinkInvalid
           "nope" UI.initial (Sample.world []) Hr).
  intros l [<- | []] H. discriminate H.
Defined.

(** X2.  A link that is found and not expired, whose [max_views] is set and
    not 0 and is reached by its [view_count], is answered with
    [LinkExhausted]: nothing is written and no further request is sent. *)
Theorem X2_link_at_its_view_limit_is_LinkExhausted :
  forall token render linkData w m,
    outcome_at 0 (server w) = Accept ->
    active_links token (store_of w) = [linkData] ->
    (forall e, ShareLink.expires_at linkData = Some e ->
               getTime (clock (client w)) <= e) ->
    ShareLink.max_views linkData = Some m ->
    m <> 0 ->
    m <= ShareLink.view_count linkData ->
    let w' := after (SharedDemoViewer.validateAndFetchDemo token render) w in
    result (SharedDemoViewer.validateAndFetchDemo token render) w = Ok tt
    /\ UI.error (ui (client w')) = Some SharedDemoViewer.LinkExhausted
    /\ UI.loading (ui (client w')) = false
    /\ store_of w' = store_of w
    /\ journal_since w w' = [(SelectShareLink token, Accept)].
Proof.
  intros token render linkData w m H0 Hl He Hm Hm0 Hle.
  assert (Hx : SharedDemoViewer.has_expired linkData (clock (client w))
               = false).
  { unfold SharedDemoViewer.has_expired.
    destruct (ShareLink.expires_at linkData) as [e|]; [|reflexivity].
    apply Z.ltb_ge. apply He. reflexivity. }
  assert (Hy : SharedDemoViewer.limit_reached linkData = true).
  { unfold SharedDemoViewer.limit_reached. rewrite Hm.
    apply andb_true_iff. split.
    - apply negb_true_iff. apply Z.eqb_neq. exact Hm0.
    - apply Z.leb_le. exact Hle. }
  cbv zeta.
  unfold result, after, store_of, active_links,
    SharedDemoViewer.validateAndFetchDemo in *.
  exec. rewrite Hl. exec. rewrite Hx, Hy. exec.
  repeat split. apply journal_since_app. reflexivity.
Qed.

Lemma X2_witness :
  let full := ShareLink.with_view_count 10 Sample.link in
  let w := mkWorld Sample.tab
             (mkServer (mkStore [full] [Sample.demo] [] []) [] Sample.uuids 0
                       []) in
  outcome_at 0 (server w) = Accept
  /\ active_links "tok" (store_of w) = [full]
  /\ ShareLink.max_views full = Some 10
  /\ UI.error
       (ui (client
              (after (SharedDemoViewer.validateAndFetchDemo "tok" UI.initial)
                     w)))
     = Some SharedDemoViewer.LinkExhausted.
Proof.
  cbv zeta.
  split; [reflexivity|]. split; [reflexivity|]. split; [reflexivity|].
  apply (X2_link_at_its_view_limit_is_LinkExhausted
           "tok" UI.initial (ShareLink.with_view_count 10 Sample.link) _ 10).
  - reflexivity.
  - reflexivity.
  - intros e H. discriminate H.
  - reflexivity.
  - discriminate.
  - cbn. lia.
Defined.

(** ** The open flow, step by step *)

Lemma open_flow_run token render linkData demoData w :
  opens token linkData w ->
  demos_of_id (ShareLink.demo_id linkData) (store_of w) = [demoData] ->
  run (SharedDemoViewer.validateAndFetchDemo token render) w
  = (Ok tt,
     let w' := after (SharedDemoViewer.trackView render linkData)
                     (before_tracking token linkData demoData w) in
     mkWorld (with_ui (UI.setLoading false) (client w')) (server w')).
Proof.
  intros [H0 Hl He Hm H1 _ H2] Hd.
  unfold store_of, active_links, demos_of_id, before_tracking, fetched_steps
    in *.
  unfold SharedDemoViewer.validateAndFetchDemo.
  exec. rewrite Hl. exec. rewrite He, Hm. exec. rewrite Hd. exec.
  destruct (outcome_at 2 (server w)) eqn:E2; [| |exfalso; eapply H2; eauto].
  all: exec; cbn [AnalyticsService.or_empty].
  all: match goal with
       | |- context [run (SharedDemoViewer.trackView ?r ?l) ?W] =>
           pose proof (shared_trackView_ok r l W) as Hok;
           unfold after, result in *;
           destruct (run (SharedDemoViewer.trackView r l) W) as [[[]|e] w'];
           cbn [fst snd] in *; [|discriminate]
       end.
  all: reflexivity.
Qed.

(** What else [trackView] leaves as it was, and the view id it sets. *)
Lemma shared_trackView_rest render linkData w :
  let w' := after (SharedDemoViewer.trackView render linkData) w in
  demos (store_of w') = demos (store_of w)
  /\ demo_steps (store_of w') = demo_steps (store_of w)
  /\ clock (client w') = clock (client w)
  /\ startTimeRef (client w') = startTimeRef (client w)
  /\ UI.shareLink (ui (client w')) = UI.shareLink (ui (client w))
  /\ UI.currentStep (ui (client w')) = UI.currentStep (ui (client w))
  /\ UI.isPlaying (ui (client w')) = UI.isPlaying (ui (client w))
  /\ uuid (server w') = uuid (server w).
Proof. track_cases w; repeat split. Qed.

Lemma shared_trackView_viewId render linkData w :
  UI.viewId (ui (client (after (SharedDemoViewer.trackView render linkData) w)))
  = match outcome_at 0 (server w), outcome_at 1 (server w) with
    | Reject _, _ => UI.viewId (ui (client w))
    | _, Accept => Some (uuid (server w) (issued (server w)))
    | _, _ => UI.viewId (ui (client w))
    end.
Proof. track_cases w. Qed.

Lemma shared_trackView_oracle render linkData w n :
  outcome_at n (server (after (SharedDemoViewer.trackView render linkData) w))
  = outcome_at (match outcome_at 0 (server w) with
                | Reject _ => 1 + n
                | _ => 2 + n
                end) (server w).
Proof.
  track_cases w; cbn [server]; rewrite ?outcome_at_served; reflexivity.
Qed.

Lemma shared_trackView_issued render linkData w :
  issued (server (after (SharedDemoViewer.trackView render linkData) w))
  = match outcome_at 0 (server w), outcome_at 1 (server w) with
    | Reject _, _ => issued (server w)
    | _, Accept => S (issued (server w))
    | _, _ => issued (server w)
    end.
Proof. track_cases w. Qed.

Lemma usable_checks linkData now :
  usable linkData now <->
  SharedDemoViewer.has_expired linkData now = false
  /\ SharedDemoViewer.limit_reached linkData = false.
Proof.
  unfold usable, SharedDemoViewer.has_expired, SharedDemoViewer.limit_reached.
  split.
  - intros [He Hm]. split.
    + destruct (ShareLink.expires_at linkData) as [e|]; [|reflexivity].
      apply Z.ltb_ge. apply He. reflexivity.
    + destruct (ShareLink.max_views linkData) as [m|]; [|reflexivity].
      destruct (Hm m eq_refl) as [-> | Hlt]; [reflexivity|].
      apply andb_false_iff. right. apply Z.leb_gt. exact Hlt.
  - intros [He Hm]. split.
    + intros e E. rewrite E in He. apply Z.ltb_ge. exact He.
    + intros m E. rewrite E in Hm. apply andb_false_iff in Hm.
      destruct Hm as [Hm|Hm].
      * left. apply negb_false_iff in Hm. apply Z.eqb_eq. exact Hm.
      * right. apply Z.leb_gt. exact Hm.
Qed.

(** The flows that stop before tracking, run to their end. *)
Ltac stop_early Hl He Hm :=
  cbv zeta;
  unfold result, after, store_of, active_links, demos_of_id,
    SharedDemoViewer.validateAndFetchDemo in *;
  exec; rewrite ?Hl; exec; rewrite ?He, ?Hm; exec.

Lemma journal_before_tracking token linkData demoData w :
  journal (server (before_tracking token linkData demoData w))
  = journal (server w)
    ++ [(SelectShareLink token, Accept);
        (SelectDemo (ShareLink.demo_id linkData), Accept);
        (SelectSteps (ShareLink.demo_id linkData), outcome_at 2 (server w))].
Proof.
  unfold before_tracking, served. cbn [server journal].
  rewrite <- !app_assoc. reflexivity.
Qed.

(** X3.  A link that is found and usable is granted: the viewer keeps it
    and goes on to fetch its demo, whatever becomes of the later requests.
    In particular a link is still granted at the very instant of its
    expiry, and a [max_views] of 0 limits nothing. *)
Theorem X3_usable_link_is_granted :
  forall token render linkData w,
    outcome_at 0 (server w) = Accept ->
    active_links token (store_of w) = [linkData] ->
    usable linkData (clock (client w)) ->
    let w' := after (SharedDemoViewer.validateAndFetchDemo token render) w in
    UI.shareLink (ui (client w')) = Some linkData
    /\ nth_error (journal_since w w') 1
       = Some (SelectDemo (ShareLink.demo_id linkData),
               outcome_at 1 (server w)).
Proof.
  intros token render linkData w H0 Hl Hu.
  destruct (proj1 (usable_checks _ _) Hu) as [He Hm].
  destruct (outcome_at 1 (server w)) eqn:E1.
  - destruct (demos_of_id (ShareLink.demo_id linkData) (store_of w))
      as [|d [|d' ds]] eqn:Ed.
    + stop_early Hl He Hm. rewrite Ed. exec. split; [reflexivity|].
      erewrite journal_since_app; [|unfold served; cbn [server journal];
        rewrite <- !app_assoc; reflexivity]. reflexivity.
    + destruct (outcome_at 2 (server w)) eqn:E2.
      1,2: assert (Ho : opens token linkData w)
        by (constructor; try assumption;
            [exists d; exact Ed | intros e; rewrite E2; discriminate]).
      1,2: cbv zeta; unfold after;
        rewrite (open_flow_run token render linkData d w Ho Ed);
        cbv zeta; cbn [snd client server ui with_ui UI.shareLink
                       UI.setLoading].
      1,2: destruct (shared_trackView_rest render linkData
                       (before_tracking token linkData d w))
        as (_ & _ & _ & _ & Hs & _); cbv zeta in Hs; rewrite Hs.
      1,2: split;
        [unfold before_tracking; rewrite E2; reflexivity|].
      1,2: erewrite journal_since_app;
        [|cbn [server];
          pose proof (shared_trackView_journal render linkData
                        (before_tracking token linkData d w)) as J;
          rewrite J, journal_before_tracking,
            <- app_assoc; reflexivity]; reflexivity.
      stop_early Hl He Hm. rewrite Ed. exec. split; [reflexivity|].
      erewrite journal_since_app; [|unfold served; cbn [server journal];
        rewrite <- !app_assoc; reflexivity]. reflexivity.
    + stop_early Hl He Hm. rewrite Ed. exec. split; [reflexivity|].
      erewrite journal_since_app; [|unfold served; cbn [server journal];
        rewrite <- !app_assoc; reflexivity]. reflexivity.
  - stop_early Hl He Hm. split; [reflexivity|].
    erewrite journal_since_app; [|unfold served; cbn [server journal];
      rewrite <- !app_assoc; reflexivity]. reflexivity.
  - stop_early Hl He Hm. split; [reflexivity|].
    erewrite journal_since_app; [|unfold served; cbn [server journal];
      rewrite <- !app_assoc; reflexivity]. reflexivity.
Qed.

Lemma X3_witness :
  let edge := ShareLink.mk "L1" "D1" "tok" (Some (Sample.day 100 + 5000))
                           true (Sample.day 90) 50 (Some 0) in
  let w := mkWorld Sample.tab
             (mkServer (mkStore [edge] [Sample.demo] [] []) [] Sample.uuids 0
                       []) in
  outcome_at 0 (server w) = Accept
  /\ active_links "tok" (store_of w) = [edge]
  /\ ShareLink.expires_at edge = Some (getTime (clock (client w)))
  /\ UI.shareLink
       (ui (client
              (after (SharedDemoViewer.validateAndFetchDemo "tok" UI.initial)
                     w)))
     = Some edge.
Proof.
  cbv zeta.
  split; [reflexivity|]. split; [reflexivity|]. split; [reflexivity|].
  apply (X3_usable_link_is_granted "tok" UI.initial
           (ShareLink.mk "L1" "D1" "tok" (Some (Sample.day 100 + 5000))
                         true (Sample.day 90) 50 (Some 0))).
  - reflexivity.
  - reflexivity.
  - split.
    + intros e H. injection H as <-. cbn. lia.
    + intros m H. injection H as <-. left. reflexivity.
Defined.

(** X4.  A granted link whose demo cannot be loaded is not counted.  When
    the demo request resolves with an error or does not find exactly one
    demo, the viewer shows "Demo not found"; when the demo or the steps
    request rejects, or the lookup itself, it shows "Failed to load demo"
    and writes the error to the console.  In each case [loading] goes off,
    no view is recorded and the [view_count] stays as it was. *)
Theorem X4_unloadable_demo_is_not_counted :
  (forall token render linkData w,
      outcome_at 0 (server w) = Accept ->
      active_links token (store_of w) = [linkData] ->
      usable linkData (clock (client w)) ->
      (exists e, outcome_at 1 (server w) = Refuse e)
      \/ (outcome_at 1 (server w) = Accept
          /\ forall d, demos_of_id (ShareLink.demo_id linkData) (store_of w)
                       <> [d]) ->
      let w' := after (SharedDemoViewer.validateAndFetchDemo token render) w in
      UI.error (ui (client w')) = Some "Demo not found"
      /\ UI.loading (ui (client w')) = false
      /\ store_of w' = store_of w)
  /\ (forall token render w e,
         outcome_at 0 (server w) = Reject e
         \/ (exists linkData,
               outcome_at 0 (server w) = Accept
               /\ active_links token (store_of w) = [linkData]
               /\ usable linkData (clock (client w))
               /\ (outcome_at 1 (server w) = Reject e
                   \/ (outcome_at 1 (server w) = Accept
                       /\ (exists d,
                             demos_of_id (ShareLink.demo_id linkData)
                                         (store_of w) = [d])
                       /\ outcome_at 2 (server w) = Reject e))) ->
         let w' :=
           after (SharedDemoViewer.validateAndFetchDemo token render) w in
         UI.error (ui (client w')) = Some "Failed to load demo"
         /\ UI.loading (ui (client w')) = false
         /\ console (client w')
            = console (client w) ++ [("Demo loading error:", e)]
         /\ store_of w' = store_of w).
Proof.
  split.
  - intros token render linkData w H0 Hl Hu H.
    destruct (proj1 (usable_checks _ _) Hu) as [He Hm].
    destruct H as [[e E1] | [E1 Hd]].
    + stop_early Hl He Hm. repeat split.
    + destruct (demos_of_id (ShareLink.demo_id linkData) (store_of w))
        as [|d [|d' ds]] eqn:Ed.
      * stop_early Hl He Hm. rewrite Ed. exec. repeat split.
      * exfalso. apply (Hd d). reflexivity.
      * stop_early Hl He Hm. rewrite Ed. exec. repeat split.
  - intros token render w e H.
    destruct H as [E0 | (linkData & H0 & Hl & Hu & H)].
    + stop_early E0 E0 E0. repeat split.
    + destruct (proj1 (usable_checks _ _) Hu) as [He Hm].
      destruct H as [E1 | (E1 & [d Ed] & E2)].
      * stop_early Hl He Hm. repeat split.
      * stop_early Hl He Hm. rewrite Ed. exec. repeat split.
Qed.

Lemma X4_witness :
  let w := Sample.world [Accept; Accept; Reject "offline"] in
  outcome_at 2 (server w) = Reject "offline"
  /\ UI.error
       (ui (client
              (after (SharedDemoViewer.validateAndFetchDemo "tok" UI.initial)
                     w)))
     = Some "Failed to load demo"
  /\ store_of
       (after (SharedDemoViewer.validateAndFetchDemo "tok" UI.initial) w)
     = store_of w.
Proof.
  cbv zeta. split; [reflexivity|].
  destruct (proj2 X4_unloadable_demo_is_not_counted
              "tok" UI.initial
              (Sample.world [Accept; Accept; Reject "offline"]) "offline")
    as (He & _ & _ & Hs).
  - right. exists Sample.link.
    split; [reflexivity|]. split; [reflexivity|]. split.
    + split.
      * intros e H. discriminate H.
      * intros m H. injection H as <-. right. cbn. lia.
    + right. split; [reflexivity|]. split; [|reflexivity].
      exists Sample.demo. reflexivity.
  - split; [exact He | exact Hs].
Defined.

Ltac read_only :=
  left; split;
  [reflexivity
  |erewrite journal_since_app;
   [|unfold served; cbn [server journal]; rewrite <- ?app_assoc; reflexivity];
   reflexivity].

(** X5.  The open flow is a pure read unless it grants the link and loads
    its demo: either it leaves the store as it was and sends no write at
    all, or the token has exactly one active link, usable now, and the flow
    sets no error and ends with [loading] off. *)
Theorem X5_open_flow_writes_only_for_a_usable_link :
  forall token render w,
    let w' := after (SharedDemoViewer.validateAndFetchDemo token render) w in
    (store_of w' = store_of w
     /\ filter is_write (journal_since w w') = [])
    \/ (exists linkData,
          active_links token (store_of w) = [linkData]
          /\ usable linkData (clock (client w))
          /\ UI.error (ui (client w')) = UI.error (ui (client w))
          /\ UI.loading (ui (client w')) = false).
Proof.
  intros token render w.
  destruct (outcome_at 0 (server w)) eqn:E0.
  2,3: stop_early E0 E0 E0; read_only.
  destruct (active_links token (store_of w)) as [|linkData [|l2 ls]] eqn:Hl.
  1,3: stop_early Hl Hl Hl; read_only.
  destruct (SharedDemoViewer.has_expired linkData (clock (client w))) eqn:He.
  1: stop_early Hl He He; read_only.
  destruct (SharedDemoViewer.limit_reached linkData) eqn:Hm.
  1: stop_early Hl He Hm; read_only.
  destruct (outcome_at 1 (server w)) eqn:E1.
  2,3: stop_early Hl He Hm; read_only.
  destruct (demos_of_id (ShareLink.demo_id linkData) (store_of w))
    as [|d [|d' ds]] eqn:Ed.
  1,3: stop_early Hl He Hm; rewrite Ed; exec; read_only.
  destruct (outcome_at 2 (server w)) eqn:E2.
  3: stop_early Hl He Hm; rewrite Ed; exec; read_only.
  1,2: assert (Ho : opens token linkData w)
    by (constructor; try assumption;
        [exists d; exact Ed | intros e; rewrite E2; discriminate]).
  1,2: right; exists linkData; split; [reflexivity|];
    split; [apply usable_checks; split; assumption|].
  1,2: cbv zeta; unfold after;
    rewrite (open_flow_run token render linkData d w Ho Ed);
    cbv zeta; cbn [snd client server ui with_ui UI.error UI.loading
                   UI.setLoading].
  1,2: destruct (shared_trackView_ui render linkData
                   (before_tracking token linkData d w)) as (Hu & _);
    rewrite Hu; unfold before_tracking; rewrite E2; split; reflexivity.
Qed.

(** ** The view limit, visit after visit *)

Lemma with_view_count_same l :
  ShareLink.with_view_count (ShareLink.view_count l) l = l.
Proof. destruct l; reflexivity. Qed.

Lemma healthy_served r o s' sv : healthy sv -> healthy (served r o s' sv).
Proof. intros H n. rewrite outcome_at_served. apply H. Qed.

(** One visit to a healthy store whose link is usable. *)
Lemma visit_counts token now sv linkData demoData :
  healthy sv ->
  active_links token (db sv) = [linkData] ->
  usable linkData now ->
  demos_of_id (ShareLink.demo_id linkData) (db sv) = [demoData] ->
  let sv' := server (visit token now sv) in
  healthy sv'
  /\ active_links token (db sv')
     = [ShareLink.with_view_count (ShareLink.view_count linkData + 1)
                                  linkData]
  /\ demos (db sv') = demos (db sv)
  /\ List.length (demo_views (db sv')) = S (List.length (demo_views (db sv)))
  /\ UI.error (ui (client (visit token now sv))) = None.
Proof.
  intros Hh Hl Hu Hd.
  set (w := mkWorld (new_tab now) sv).
  assert (Ho : opens token linkData w).
  { destruct (proj1 (usable_checks _ _) Hu) as [He Hm].
    constructor; try assumption; try apply Hh.
    - exists demoData. exact Hd.
    - intros e. unfold w. cbn [server]. rewrite (Hh 2%nat). discriminate. }
  cbv zeta. unfold visit, SharedDemoViewer.mount, after. fold w.
  rewrite (open_flow_run token UI.initial linkData demoData w Ho Hd).
  cbv zeta. cbn [snd server client].
  set (wm := before_tracking token linkData demoData w).
  assert (Hwm : healthy (server wm)).
  { unfold wm, before_tracking. cbn [server]. repeat apply healthy_served.
    exact Hh. }
  assert (Hdb : db (server wm) = db sv) by reflexivity.
  pose proof (shared_trackView_share_links UI.initial linkData wm) as S1.
  pose proof (shared_trackView_demo_views UI.initial linkData wm) as S2.
  destruct (shared_trackView_rest UI.initial linkData wm)
    as (S3 & _).
  destruct (shared_trackView_ui UI.initial linkData wm) as (S4 & _).
  unfold store_of in *. rewrite (Hwm 0%nat) in S1.
  rewrite (Hwm 0%nat), (Hwm 1%nat) in S2. rewrite Hdb in *.
  split; [|split; [|split; [|split]]].
  - intros n. rewrite shared_trackView_oracle, (Hwm 0%nat). apply Hwm.
  - rewrite (active_links_set_view_count token _ _ (db sv) _ S1), Hl.
    cbn [map]. unfold set_view_count. rewrite String.eqb_refl. reflexivity.
  - exact S3.
  - rewrite S2, length_app. cbn [List.length]. lia.
  - cbn [ui with_ui UI.error UI.setLoading]. rewrite S4.
    unfold wm, before_tracking, w. cbn [server]. rewrite (Hh 2%nat).
    reflexivity.
Qed.

Lemma visits_count token now link demoData m k :
  forall sv c,
    healthy sv ->
    active_links token (db sv) = [ShareLink.with_view_count c link] ->
    (forall e, ShareLink.expires_at link = Some e -> getTime now <= e) ->
    ShareLink.max_views link = Some m ->
    demos_of_id (ShareLink.demo_id link) (db sv) = [demoData] ->
    c + Z.of_nat k <= m ->
    let sv' := visits token now k sv in
    healthy sv'
    /\ active_links token (db sv')
       = [ShareLink.with_view_count (c + Z.of_nat k) link]
    /\ demos (db sv') = demos (db sv)
    /\ List.length (demo_views (db sv'))
       = (List.length (demo_views (db sv)) + k)%nat.
Proof.
  induction k as [|k IH]; intros sv c Hh Hl He Hm Hd Hle; cbv zeta.
  - cbn [visits]. rewrite Z.add_0_r, Nat.add_0_r. repeat split; assumption.
  - cbn [visits].
    assert (Hu : usable (ShareLink.with_view_count c link) now).
    { split; [exact He|]. intros m' E. cbn in E. rewrite Hm in E.
      injection E as <-. right. cbn. lia. }
    destruct (visit_counts token now sv (ShareLink.with_view_count c link)
                demoData Hh Hl Hu Hd) as (Hh' & Hl' & Hd' & Hn & _).
    cbn [ShareLink.with_view_count ShareLink.view_count] in Hl'.
    specialize (IH (server (visit token now sv)) (c + 1) Hh').
    cbv zeta in IH.
    destruct IH as (I1 & I2 & I3 & I4).
    + exact Hl'.
    + exact He.
    + exact Hm.
    + unfold demos_of_id in *. rewrite Hd'. exact Hd.
    + lia.
    + split; [exact I1|]. split.
      * rewrite I2. f_equal. f_equal. lia.
      * split; [congruence|]. rewrite I4, Hn. lia.
Qed.

(** X6.  The view limit is enforced visit after visit.  On a store that
    accepts every request, a link with [max_views = m], not 0, and not
    expired admits exactly [m - view_count] more visitors coming one after
    the other: each of them is let in without an error, counted and
    recorded, which brings the count to [m], and the next one is answered
    with [LinkExhausted] and changes nothing. *)
Theorem X6_view_limit_is_enforced :
  forall token now sv link demoData m k,
    healthy sv ->
    active_links token (db sv) = [link] ->
    (forall e, ShareLink.expires_at link = Some e -> getTime now <= e) ->
    ShareLink.max_views link = Some m ->
    m <> 0 ->
    demos_of_id (ShareLink.demo_id link) (db sv) = [demoData] ->
    ShareLink.view_count link + Z.of_nat k = m ->
    let sv' := visits token now k sv in
    (forall j, (j < k)%nat ->
               UI.error (ui (client (visit token now (visits token now j sv))))
               = None)
    /\ active_links token (db sv') = [ShareLink.with_view_count m link]
    /\ List.length (demo_views (db sv'))
       = (List.length (demo_views (db sv)) + k)%nat
    /\ UI.error (ui (client (visit token now sv')))
       = Some SharedDemoViewer.LinkExhausted
    /\ db (server (visit token now sv')) = db sv'.
Proof.
  intros token now sv link demoData m k Hh Hl He Hm Hm0 Hd Hk.
  rewrite <- (with_view_count_same link) in Hl.
  cbv zeta. split.
  - intros j Hj.
    destruct (visits_count token now link demoData m j sv
                (ShareLink.view_count link) Hh Hl He Hm Hd ltac:(lia))
      as (Jh & Jl & Jd & _).
    eapply visit_counts; [exact Jh | exact Jl | | ].
    + split; [exact He|]. intros m' E. cbn in E. rewrite Hm in E.
      injection E as <-. right. cbn. lia.
    + unfold demos_of_id in *. rewrite Jd. exact Hd.
  - destruct (visits_count token now link demoData m k sv
                (ShareLink.view_count link) Hh Hl He Hm Hd ltac:(lia))
      as (Kh & Kl & _ & Kn).
    rewrite Hk in Kl. split; [exact Kl|]. split; [exact Kn|].
    set (sv' := visits token now k sv) in *.
    set (full := ShareLink.with_view_count m link) in *.
    assert (Hx : SharedDemoViewer.has_expired full now = false).
    { unfold SharedDemoViewer.has_expired. cbn.
      destruct (ShareLink.expires_at link) as [e|]; [|reflexivity].
      apply Z.ltb_ge. apply He. reflexivity. }
    assert (Hy : SharedDemoViewer.limit_reached full = true).
    { unfold SharedDemoViewer.limit_reached. cbn. rewrite Hm.
      apply andb_true_iff. split.
      - apply negb_true_iff. apply Z.eqb_neq. exact Hm0.
      - apply Z.leb_le. lia. }
    pose proof (Kh 0%nat) as K0.
    unfold visit, SharedDemoViewer.mount.
    set (w := mkWorld (new_tab now) sv').
    change (outcome_at 0 (server w) = Accept) in K0.
    change (active_links token (store_of w) = [full]) in Kl.
    change (SharedDemoViewer.has_expired full (clock (client w)) = false)
      in Hx.
    stop_early Kl Hx Hy. split; reflexivity.
Qed.

Lemma X6_witness :
  let sv := mkServer (mkStore [ShareLink.with_view_count 8 Sample.link]
                              [Sample.demo] [] [])
                     [] Sample.uuids 0 [] in
  let now := mkDate (Sample.day 100) (fixed 0) in
  healthy sv
  /\ active_links "tok" (db (visits "tok" now 2 sv))
     = [ShareLink.with_view_count 10 Sample.link]
  /\ UI.error (ui (client (visit "tok" now (visits "tok" now 2 sv))))
     = Some SharedDemoViewer.LinkExhausted.
Proof.
  cbv zeta.
  assert (Hh : healthy (mkServer (mkStore [ShareLink.with_view_count 8 Sample.link]
                              [Sample.demo] [] [])
                     [] Sample.uuids 0 [])).
  { intros n. unfold outcome_at. cbn [oracle]. destruct n; reflexivity. }
  split; [exact Hh|].
  destruct (X6_view_limit_is_enforced "tok" (mkDate (Sample.day 100) (fixed 0)) _
              (ShareLink.with_view_count 8 Sample.link) Sample.demo 10 2 Hh)
    as (_ & Hl & _ & Hx & _).
  - reflexivity.
  - intros e H. discriminate H.
  - reflexivity.
  - discriminate.
  - reflexivity.
  - reflexivity.
  - split; [exact Hl | exact Hx].
Defined.

(** ** Progress updates on the table *)

Lemma set_progress_fixed viewId t c v :
  fixed_part (set_progress viewId t c v) = fixed_part v.
Proof.
  unfold set_progress. destruct (String.eqb (DemoView.id v) viewId);
    reflexivity.
Qed.

Lemma set_progress_unused viewId t c l :
  (forall v, In v l -> DemoView.id v <> viewId) ->
  map (set_progress viewId t c) l = l.
Proof.
  intros H. induction l as [|v l IH]; [reflexivity|]. cbn [map].
  rewrite IH by (intros v' Hin; apply H; right; exact Hin).
  unfold set_progress.
  destruct (String.eqb_spec (DemoView.id v) viewId) as [E|E];
    [|reflexivity].
  exfalso. exact (H v (or_introl eq_refl) E).
Qed.

Lemma set_progress_id viewId t c v :
  DemoView.id (set_progress viewId t c v) = DemoView.id v.
Proof.
  unfold set_progress. destruct (String.eqb (DemoView.id v) viewId);
    reflexivity.
Qed.

Lemma set_progress_other viewId t c v :
  String.eqb (DemoView.id v) viewId = false -> set_progress viewId t c v = v.
Proof. intros E. unfold set_progress. rewrite E. reflexivity. Qed.

(** X7.  Whatever the store answers, a progress update changes nothing but
    [time_spent] and [completed_steps] of the rows of its id: every row
    keeps its id, demo, share link, viewer, [viewed_at] and [total_steps],
    in place; the rows of other ids and the other tables are untouched. *)
Theorem X7_progress_update_keeps_the_fixed_fields :
  forall viewId timeSpent completedSteps w,
    let w' := after (AnalyticsService.updateViewProgress
                       viewId timeSpent completedSteps) w in
    map fixed_part (demo_views (store_of w'))
    = map fixed_part (demo_views (store_of w))
    /\ filter (fun v => negb (String.eqb (DemoView.id v) viewId))
              (demo_views (store_of w'))
       = filter (fun v => negb (String.eqb (DemoView.id v) viewId))
                (demo_views (store_of w))
    /\ share_links (store_of w') = share_links (store_of w)
    /\ demos (store_of w') = demos (store_of w)
    /\ demo_steps (store_of w') = demo_steps (store_of w).
Proof.
  intros viewId t c w. cbv zeta. unfold after, store_of.
  rewrite updateViewProgress_after. cbv zeta.
  destruct (next_outcome (server w)); cbn [snd server served db demo_views
    share_links demos demo_steps]; repeat split.
  - rewrite map_map. apply map_ext. intros v. apply set_progress_fixed.
  - induction (demo_views (db (server w))) as [|v l IH]; [reflexivity|].
    cbn [map filter]. rewrite set_progress_id.
    destruct (String.eqb (DemoView.id v) viewId) eqn:E; cbn [negb].
    + exact IH.
    + rewrite IH, (set_progress_other _ _ _ _ E). reflexivity.
Qed.

(** X8.  A progress update for an id that no stored record carries is
    taken silently: when the store accepts it, no table changes, nothing is
    written to the console, and the caller gets no error. *)
Theorem X8_progress_update_of_unknown_id_is_silent :
  forall viewId timeSpent completedSteps w,
    unused_id viewId (store_of w) ->
    next_outcome (server w) = Accept ->
    let w' := after (AnalyticsService.updateViewProgress
                       viewId timeSpent completedSteps) w in
    result (AnalyticsService.updateViewProgress
              viewId timeSpent completedSteps) w = Ok tt
    /\ store_of w' = store_of w
    /\ console (client w') = console (client w).
Proof.
  intros viewId t c w Hu H0. cbv zeta. unfold result, after, store_of in *.
  rewrite updateViewProgress_after. cbv zeta. rewrite H0.
  cbn [fst snd server served db client].
  split; [reflexivity|]. split; [|reflexivity].
  rewrite (set_progress_unused viewId t c _ Hu).
  destruct (db (server w)); reflexivity.
Qed.

Lemma X8_witness :
  unused_id "gone" (store_of (Sample.world []))
  /\ next_outcome (server (Sample.world [])) = Accept
  /\ store_of (after (AnalyticsService.updateViewProgress "gone" 42 3)
                     (Sample.world []))
     = store_of (Sample.world []).
Proof.
  assert (Hu : unused_id "gone" (store_of (Sample.world []))).
  { intros v [<- | []]. discriminate. }
  split; [exact Hu|]. split; [reflexivity|].
  apply (X8_progress_update_of_unknown_id_is_silent
           "gone" 42 3 (Sample.world []) Hu eq_refl).
Defined.

(** ** From the open to the heartbeat *)

Lemma viewer_updateViewProgress_run render viewId w :
  UI.viewId render = Some viewId ->
  run (SharedDemoViewer.updateViewProgress render) w
  = (Ok tt,
     let w1 := after (AnalyticsService.updateViewProgress
                        viewId (seconds_spent (client w))
                        (UI.currentStep render + 1)) w in
     mkWorld (with_lastUpdate (getTime (clock (client w1))) (client w1))
             (server w1)).
Proof.
  intros Hv. unfold SharedDemoViewer.updateViewProgress. rewrite Hv.
  rewrite run_bind, run_new_Date, run_bind, run_GetStartTime, run_bind.
  unfold after, seconds_spent.
  pose proof (updateViewProgress_after viewId
                ((getTime (clock (client w)) - startTimeRef (client w)) / 1000)
                (UI.currentStep render + 1) w) as R.
  cbv zeta in R.
  destruct (run (AnalyticsService.updateViewProgress _ _ _) w) as [r w1].
  injection R as -> _.
  rewrite run_bind, run_new_Date, run_SetLastUpdate. reflexivity.
Qed.

(** The tab and the store after a granted open. *)
Lemma open_flow_tab token render linkData demoData w :
  opens token linkData w ->
  demos_of_id (ShareLink.demo_id linkData) (store_of w) = [demoData] ->
  let w' := after (SharedDemoViewer.validateAndFetchDemo token render) w in
  let wm := before_tracking token linkData demoData w in
  let o3 := outcome_at 3 (server w) in
  let o4 := outcome_at 4 (server w) in
  clock (client w') = clock (client w)
  /\ startTimeRef (client w') = startTimeRef (client w)
  /\ UI.currentStep (ui (client w')) = UI.currentStep (ui (client w))
  /\ UI.viewId (ui (client w'))
     = match o3, o4 with
       | Reject _, _ => UI.viewId (ui (client w))
       | _, Accept => Some (uuid (server w) (issued (server w)))
       | _, _ => UI.viewId (ui (client w))
       end
  /\ demo_views (store_of w')
     = match o3, o4 with
       | Reject _, _ => demo_views (store_of w)
       | _, Accept =>
           demo_views (store_of w)
           ++ [DemoView.of_record
                 (uuid (server w) (issued (server w)))
                 (view_record_of render linkData (clock (client w)))]
       | _, _ => demo_views (store_of w)
       end
  /\ (forall n,
        outcome_at n (server w')
        = outcome_at (match o3 with
                      | Reject _ => 4 + n
                      | _ => 5 + n
                      end) (server w)).
Proof.
  intros Ho Hd. cbv zeta. unfold after.
  rewrite (open_flow_run token render linkData demoData w Ho Hd).
  cbv zeta. cbn [snd client server].
  set (wm := before_tracking token linkData demoData w).
  destruct (shared_trackView_rest render linkData wm)
    as (_ & _ & R1 & R2 & _ & R3 & _).
  pose proof (shared_trackView_viewId render linkData wm) as R4.
  pose proof (shared_trackView_demo_views render linkData wm) as R5.
  assert (O : forall n, outcome_at n (server wm)
                        = outcome_at (3 + n) (server w)).
  { intros n. unfold wm, before_tracking. cbn [server].
    rewrite !outcome_at_served. reflexivity. }
  assert (Hc : client wm
               = match outcome_at 2 (server w) with
                 | Accept =>
                     with_ui (UI.setSteps
                                (fetched_steps (ShareLink.demo_id linkData)
                                               (db (server w))))
                       (with_ui (UI.setDemo demoData)
                          (with_ui (UI.setShareLink linkData) (client w)))
                 | _ => with_ui (UI.setDemo demoData)
                          (with_ui (UI.setShareLink linkData) (client w))
                 end) by reflexivity.
  unfold store_of in *.
  cbn [with_ui clock startTimeRef ui UI.currentStep UI.viewId UI.setLoading
       server client].
  assert (Last : forall n,
             outcome_at n (server (after (SharedDemoViewer.trackView
                                            render linkData) wm))
             = outcome_at (match outcome_at 3 (server w) with
                           | Reject _ => 4 + n
                           | _ => 5 + n
                           end) (server w)).
  { intros n. rewrite shared_trackView_oracle, !O. cbn [Nat.add].
    destruct (outcome_at 3 (server w)); reflexivity. }
  rewrite R1, R2, R3, R4, R5, !O. cbn [Nat.add].
  rewrite Hc.
  destruct (outcome_at 2 (server w)); repeat split; try reflexivity;
    exact Last.
Qed.

(** X9.  The heartbeat that follows a recorded open reaches the record of
    that session and no other.  When the open inserts its record under an
    id no stored record carries, the next render holds that id, and its
    [updateViewProgress], once accepted, leaves the table as it was before
    the open plus the session's record, now with the seconds since the tab
    was loaded and the current step plus one. *)
Theorem X9_heartbeat_updates_the_session_record :
  forall token render linkData w,
    opens token linkData w ->
    (forall e, outcome_at 3 (server w) <> Reject e) ->
    outcome_at 4 (server w) = Accept ->
    outcome_at 5 (server w) = Accept ->
    unused_id (uuid (server w) (issued (server w))) (store_of w) ->
    let w1 := after (SharedDemoViewer.validateAndFetchDemo token render) w in
    let render1 := ui (client w1) in
    let w2 := after (SharedDemoViewer.updateViewProgress render1) w1 in
    let row := DemoView.of_record
                 (uuid (server w) (issued (server w)))
                 (view_record_of render linkData (clock (client w))) in
    UI.viewId render1 = Some (DemoView.id row)
    /\ demo_views (store_of w2)
       = demo_views (store_of w)
         ++ [DemoView.with_progress (seconds_spent (client w))
                                    (UI.currentStep (ui (client w)) + 1)
                                    row].
Proof.
  intros token render linkData w Ho H3 H4 H5 Hu.
  destruct (opens_demo Ho) as [demoData Hd].
  destruct (open_flow_tab token render linkData demoData w Ho Hd)
    as (T1 & T2 & T3 & T4 & T5 & T6).
  cbv zeta in *. rewrite H4 in T4, T5.
  set (w1 := after (SharedDemoViewer.validateAndFetchDemo token render) w)
    in *.
  set (newid := uuid (server w) (issued (server w))) in *.
  assert (Hv : UI.viewId (ui (client w1)) = Some newid).
  { rewrite T4. destruct (outcome_at 3 (server w)) eqn:E3; try reflexivity.
    exfalso. eapply H3. reflexivity. }
  assert (Hrows : demo_views (store_of w1)
                  = demo_views (store_of w)
                    ++ [DemoView.of_record newid
                          (view_record_of render linkData (clock (client w)))]).
  { rewrite T5. destruct (outcome_at 3 (server w)) eqn:E3; try reflexivity.
    exfalso. eapply H3. reflexivity. }
  assert (Hnext : next_outcome (server w1) = Accept).
  { rewrite next_outcome_at, T6.
    destruct (outcome_at 3 (server w)) eqn:E3; try exact H5.
    exfalso. eapply H3. reflexivity. }
  split; [exact Hv|].
  unfold after at 1. rewrite (viewer_updateViewProgress_run _ newid w1 Hv).
  cbv zeta. cbn [snd]. unfold store_of at 1. cbn [server].
  unfold after. rewrite updateViewProgress_after. cbv zeta. rewrite Hnext.
  cbn [snd server served db demo_views].
  fold (store_of w1). rewrite Hrows, map_app.
  rewrite (set_progress_unused newid _ _ _ Hu). cbn [map].
  unfold set_progress. cbn [DemoView.of_record DemoView.id].
  rewrite String.eqb_refl. unfold seconds_spent. rewrite T1, T2, T3.
  reflexivity.
Qed.

Lemma X9_witness :
  let w := Sample.world [] in
  opens "tok" Sample.link w
  /\ unused_id (uuid (server w) (issued (server w))) (store_of w)
  /\ demo_views
       (store_of
          (after (SharedDemoViewer.updateViewProgress
                    (ui (client (after (SharedDemoViewer.validateAndFetchDemo
                                          "tok" UI.initial) w))))
                 (after (SharedDemoViewer.validateAndFetchDemo
                           "tok" UI.initial) w)))
     = [Sample.view;
        DemoView.mk "v1" "D1" (Some "L1") "unknown" None
                    (Sample.day 100 + 5000) 5 1 0].
Proof.
  cbv zeta.
  assert (Hu : unused_id (uuid (server (Sample.world []))
                               (issued (server (Sample.world []))))
                         (store_of (Sample.world []))).
  { intros v [<- | []]. discriminate. }
  split; [exact Sample_opens|]. split; [exact Hu|].
  apply (X9_heartbeat_updates_the_session_record
           "tok" UI.initial Sample.link (Sample.world []) Sample_opens).
  - intros e. discriminate.
  - reflexivity.
  - reflexivity.
  - exact Hu.
Defined.

(** X10.  A session whose record could not be inserted stays untracked.
    When the open of a fresh tab ends without a record (the increment
    rejected, or the insert failed), the next render holds no view id, and
    its [updateViewProgress], [trackCompletion] and closing update send
    nothing and change nothing. *)
Theorem X10_session_without_record_sends_no_progress :
  forall token render linkData w e,
    opens token linkData w ->
    UI.viewId (ui (client w)) = None ->
    outcome_at 3 (server w) = Reject e
    \/ failed e (outcome_at 4 (server w)) ->
    let w1 := after (SharedDemoViewer.validateAndFetchDemo token render) w in
    let render1 := ui (client w1) in
    demo_views (store_of w1) = demo_views (store_of w)
    /\ run (SharedDemoViewer.updateViewProgress render1) w1 = (Ok tt, w1)
    /\ run (SharedDemoViewer.trackCompletion render1) w1 = (Ok tt, w1)
    /\ run (SharedDemoViewer.unmount render1) w1 = (Ok tt, w1).
Proof.
  intros token render linkData w e Ho Hn Hf.
  destruct (opens_demo Ho) as [demoData Hd].
  destruct (open_flow_tab token render linkData demoData w Ho Hd)
    as (_ & _ & _ & T4 & T5 & _).
  cbv zeta in *.
  set (w1 := after (SharedDemoViewer.validateAndFetchDemo token render) w)
    in *.
  assert (Hv : UI.viewId (ui (client w1)) = None).
  { rewrite T4, Hn. destruct Hf as [-> | [-> | ->]]; try reflexivity;
      destruct (outcome_at 3 (server w)); reflexivity. }
  split.
  - rewrite T5. destruct Hf as [-> | [-> | ->]]; try reflexivity;
      destruct (outcome_at 3 (server w)); reflexivity.
  - unfold SharedDemoViewer.updateViewProgress,
      SharedDemoViewer.trackCompletion, SharedDemoViewer.unmount.
    rewrite Hv. repeat split.
Qed.

Lemma X10_witness :
  let w := Sample.world [Accept; Accept; Accept; Accept; Refuse "denied"] in
  opens "tok" Sample.link w
  /\ failed "denied" (outcome_at 4 (server w))
  /\ run (SharedDemoViewer.updateViewProgress
            (ui (client (after (SharedDemoViewer.validateAndFetchDemo
                                  "tok" UI.initial) w))))
         (after (SharedDemoViewer.validateAndFetchDemo "tok" UI.initial) w)
     = (Ok tt,
        after (SharedDemoViewer.validateAndFetchDemo "tok" UI.initial) w).
Proof.
  cbv zeta.
  assert (Ho : opens "tok" Sample.link
                 (Sample.world
                    [Accept; Accept; Accept; Accept; Refuse "denied"])).
  { constructor; try reflexivity.
    - exists Sample.demo. reflexivity.
    - intros e. discriminate. }
  assert (Hf : failed "denied"
                 (outcome_at 4 (server (Sample.world
                    [Accept; Accept; Accept; Accept; Refuse "denied"]))))
    by (left; reflexivity).
  split; [exact Ho|]. split; [exact Hf|].
  apply (X10_session_without_record_sends_no_progress
           "tok" UI.initial Sample.link _ "denied" Ho eq_refl
           (or_intror Hf)).
Defined.

(** ** The steps the viewer plays *)

(** X11.  After a granted open whose steps request is accepted, the viewer
    holds exactly the stored steps of the link's demo, each once, by
    ascending [order_index].  When the steps request resolves with an error
    the viewer keeps the steps it had, and the open goes on all the same. *)
Theorem X11_viewer_gets_the_steps_in_order :
  forall token render linkData w,
    opens token linkData w ->
    let w' := after (SharedDemoViewer.validateAndFetchDemo token render) w in
    let stored :=
      filter (fun st => String.eqb (DemoStep.demo_id st)
                                   (ShareLink.demo_id linkData))
             (demo_steps (store_of w)) in
    (outcome_at 2 (server w) = Accept ->
     Permutation (UI.steps (ui (client w'))) stored
     /\ StronglySorted
          (fun a b => DemoStep.order_index a <= DemoStep.order_index b)
          (UI.steps (ui (client w'))))
    /\ ((exists e, outcome_at 2 (server w) = Refuse e) ->
        UI.steps (ui (client w')) = UI.steps (ui (client w))).
Proof.
  intros token render linkData w Ho.
  destruct (opens_demo Ho) as [demoData Hd].
  cbv zeta. unfold after.
  rewrite (open_flow_run token render linkData demoData w Ho Hd).
  cbv zeta. cbn [snd client ui with_ui UI.steps UI.setLoading].
  destruct (shared_trackView_ui render linkData
              (before_tracking token linkData demoData w))
    as (_ & _ & _ & Hs).
  rewrite Hs. unfold before_tracking. split.
  - intros E2. rewrite E2. cbn [client ui with_ui UI.steps UI.setSteps].
    unfold fetched_steps, store_of. split; [apply sort_perm|].
    eapply StronglySorted_weaken; [|apply sort_sorted].
    + intros a b H. cbv beta in H. lia.
    + intros a b. cbv beta. lia.
    + intros a b c. cbv beta. lia.
  - intros [e E2]. rewrite E2. reflexivity.
Qed.

Lemma X11_witness :
  opens "tok" Sample.link (Sample.world [])
  /\ outcome_at 2 (server (Sample.world [])) = Accept
  /\ StronglySorted
       (fun a b => DemoStep.order_index a <= DemoStep.order_index b)
       (UI.steps
          (ui (client
                 (after (SharedDemoViewer.validateAndFetchDemo
                           "tok" UI.initial) (Sample.world []))))).
Proof.
  split; [exact Sample_opens|]. split; [reflexivity|].
  apply (proj1 (X11_viewer_gets_the_steps_in_order
                  "tok" UI.initial Sample.link (Sample.world [])
                  Sample_opens) eq_refl).
Defined.

(** ** The figures of a summary *)

(** Where the offset is the same, [setDate] goes back whole days. *)
Lemma getTime_setDate_back d n :
  same_offset d n ->
  getTime (setDate_back d n) = getTime d - n * msPerDay.
Proof.
  unfold same_offset, setDate_back, UTC, LocalTime; cbn [getTime].
  pose proof msPerDay_pos as P.
  pose proof (Z.div_mod (getTime d + offset_at (zone d) (getTime d))
                        msPerDay ltac:(lia)) as E.
  set (local := getTime d + offset_at (zone d) (getTime d)) in *.
  replace ((local / msPerDay - n) * msPerDay + local mod msPerDay)
    with (local - n * msPerDay) by lia.
  intros ->. lia.
Qed.

Lemma same_offset_fixed o t n : same_offset (mkDate t (fixed o)) n.
Proof. reflexivity. Qed.

Lemma len_nonneg {A} (l : list A) : 0 <= len l.
Proof. unfold len. lia. Qed.

Lemma len_filter_le {A} (p : A -> bool) (l : list A) :
  len (filter p l) <= len l.
Proof.
  unfold len. pose proof (filter_length_le p l). lia.
Qed.

Lemma nodup_length_le (l : list string) :
  (List.length (nodup string_dec l) <= List.length l)%nat.
Proof.
  induction l as [|x l IH]; [apply Nat.le_refl|]. cbn [nodup].
  destruct (in_dec string_dec x l); cbn [List.length]; lia.
Qed.

Lemma nodup_nonempty (l : list string) :
  l <> [] -> nodup string_dec l <> [].
Proof.
  destruct l as [|x l]; [congruence|]. intros _ E.
  assert (H : In x (nodup string_dec (x :: l)))
    by (apply nodup_In; left; reflexivity).
  rewrite E in H. exact H.
Qed.

(** X12.  The window of a summary.  When both fetches succeed,
    [totalViews] of a user summary is the number of stored records of the
    user's demos whose [viewed_at] is not earlier than the start date: the
    instant at which the local clock showed, [days] calendar days ago, the
    time of day it shows now ([setDate]); the bound is included and later
    records, even future ones, count too.  A demo summary counts the
    records of that demo in the same way and lists the demo in [topDemos]
    with that very count.  The start date is now minus [days] times 24
    hours when the zone's offset was then what it is now; across a
    daylight-saving change it is not: in New York on the evening of
    2024-03-10 the window of "7d" starts 7 days less one hour back. *)
Theorem X12_totalViews_counts_the_window :
  (forall userId timeRange w,
      let owned := owned_demos userId (store_of w) in
      outcome_at 0 (server w) = Accept ->
      owned <> [] ->
      outcome_at 1 (server w) = Accept ->
      exists s,
        result (AnalyticsService.getUserAnalytics userId timeRange) w = Ok s
        /\ totalViews s
           = len (filter (in_window (map Demo.id owned)
                                    (window_start w timeRange))
                         (demo_views (store_of w))))
  /\ (forall demoId timeRange w d,
         outcome_at 0 (server w) = Accept ->
         outcome_at 1 (server w) = Accept ->
         demos_of_id demoId (store_of w) = [d] ->
         exists s,
           result (AnalyticsService.getDemoAnalytics demoId timeRange) w = Ok s
           /\ totalViews s
              = len (filter (in_window [demoId] (window_start w timeRange))
                            (demo_views (store_of w)))
           /\ topDemos s = [TopDemo.mk (Demo.title d) (totalViews s) demoId])
  /\ (forall timeRange w,
         same_offset (clock (client w)) (AnalyticsService.days_of timeRange) ->
         window_start w timeRange
         = getTime (clock (client w))
           - AnalyticsService.days_of timeRange * msPerDay)
  /\ window_start NewYork.world "7d"
     = getTime (clock (client NewYork.world)) - 7 * msPerDay + NewYork.hour.
Proof.
  split; [|split; [|split]].
  - intros userId timeRange w owned H0 Ho H1.
    rewrite getUserAnalytics_result. cbv zeta. fold owned. rewrite H0, H1.
    destruct owned as [|d ds] eqn:E; [congruence|].
    eexists. split; [reflexivity|].
    unfold summary_of; cbn [totalViews AnalyticsService.totalViews_of].
    rewrite or_zero_id. reflexivity.
  - intros demoId timeRange w d H0 H1 Hd.
    rewrite getDemoAnalytics_result. cbv zeta. rewrite H0, H1.
    unfold demos_of_id in Hd. rewrite Hd.
    eexists. split; [reflexivity|].
    unfold summary_of; cbn [totalViews topDemos
                            AnalyticsService.totalViews_of].
    rewrite or_zero_id. split; reflexivity.
  - intros timeRange w Hs. unfold window_start.
    apply getTime_setDate_back. exact Hs.
  - vm_compute. reflexivity.
Qed.

Lemma X12_witness :
  outcome_at 0 (server (Sample.world [])) = Accept
  /\ owned_demos "U1" (store_of (Sample.world [])) <> []
  /\ outcome_at 1 (server (Sample.world [])) = Accept
  /\ same_offset (clock (client (Sample.world [])))
                 (AnalyticsService.days_of "7d")
  /\ window_start (Sample.world []) "7d" = Sample.day 93 + 5000
  /\ exists s,
       result (AnalyticsService.getUserAnalytics "U1" "7d") (Sample.world [])
       = Ok s
       /\ totalViews s = 1.
Proof.
  assert (Ho : owned_demos "U1" (store_of (Sample.world [])) <> [])
    by (vm_compute; discriminate).
  assert (Hs : same_offset (clock (client (Sample.world [])))
                           (AnalyticsService.days_of "7d"))
    by reflexivity.
  split; [reflexivity|]. split; [exact Ho|]. split; [reflexivity|].
  split; [exact Hs|]. split.
  - rewrite (proj1 (proj2 (proj2 X12_totalViews_counts_the_window))
               "7d" (Sample.world []) Hs).
    reflexivity.
  - destruct (proj1 X12_totalViews_counts_the_window
                "U1" "7d" (Sample.world []) eq_refl Ho eq_refl)
      as (s & Hr & Ht).
    exists s. split; [exact Hr|]. rewrite Ht. reflexivity.
Defined.

Lemma fold_left_sum {A} (f : A -> Z) (l : list A) (a : Z) :
  fold_left (fun acc v => acc + f v) l a = a + total (map f l).
Proof.
  revert a; induction l as [|x l IH]; intros a; cbn [fold_left map total fold_right].
  - lia.
  - rewrite IH. unfold total. lia.
Qed.

Lemma percentage_bounds c t :
  0 <= c <= t -> 0 < t ->
  (0 <= Qmult (Qdiv (inject_Z c) (inject_Z t)) (inject_Z 100))%Q
  /\ (Qmult (Qdiv (inject_Z c) (inject_Z t)) (inject_Z 100) <= 100)%Q.
Proof.
  intros Hc Ht. destruct t as [|p|p]; try lia.
  unfold Qle, Qdiv, Qinv, inject_Z; cbn [Qnum Qden Qmult].
  rewrite ?Pos.mul_1_r, ?Pos.mul_1_l, ?Z.mul_1_r, ?Z.mul_1_l.
  split; nia.
Qed.

(** A quotient of integers lies between integer bounds of the dividend's
    parts; rounding it to a double keeps it there. *)
Lemma quotient_bounds sum t lo hi :
  0 < t -> t * lo <= sum <= t * hi ->
  (inject_Z lo <= Qdiv (inject_Z sum) (inject_Z t))%Q
  /\ (Qdiv (inject_Z sum) (inject_Z t) <= inject_Z hi)%Q.
Proof.
  intros Ht Hs. destruct t as [|p|p]; try lia.
  unfold Qle, Qdiv, Qinv, inject_Z; cbn [Qnum Qden Qmult].
  rewrite ?Pos.mul_1_r, ?Pos.mul_1_l, ?Z.mul_1_r, ?Z.mul_1_l.
  split; nia.
Qed.

Lemma total_between {A} (f : A -> Z) (l : list A) lo hi :
  (forall v, In v l -> lo <= f v <= hi) ->
  len l * lo <= total (map f l) <= len l * hi.
Proof.
  unfold len, total. induction l as [|x l IH]; intros H.
  - cbn. lia.
  - cbn [List.length map fold_right]. rewrite Nat2Z.inj_succ.
    pose proof (H x (or_introl eq_refl)).
    assert (Z.of_nat (List.length l) * lo
            <= fold_right Z.add 0 (map f l)
            <= Z.of_nat (List.length l) * hi)
      by (apply IH; intros v Hv; apply H; right; exact Hv).
    lia.
Qed.

Lemma len_pos {A} (l : list A) : l <> [] -> 0 < len l.
Proof. destruct l; [congruence|]. unfold len; cbn [List.length]. lia. Qed.

Lemma summary_of_figures today days views top :
  figures_of views (summary_of today days (Some views) top).
Proof.
  unfold figures_of, summary_of;
    cbn [totalViews uniqueViewers avgTimeSpent completionRate
         AnalyticsService.totalViews_of AnalyticsService.uniqueViewers_of
         AnalyticsService.avgTimeSpent_of AnalyticsService.completedViews_of].
  rewrite !or_zero_id.
  pose proof (len_nonneg views) as Hn.
  split; [reflexivity|]. split; [|split; [|split]].
  - split; [apply len_nonneg|].
    unfold len. pose proof (nodup_length_le (map DemoView.viewer_ip views)) as L.
    rewrite length_map in L. lia.
  - intros Hv.
    assert (P : 0 < len (nodup string_dec (map DemoView.viewer_ip views))).
    { apply len_pos. apply nodup_nonempty.
      destruct views; [congruence|discriminate]. }
    lia.
  - unfold AnalyticsService.completionRate_of.
    destruct (Z.ltb_spec 0 (len views)) as [Hp|Hz].
    + eexists. split; [reflexivity|].
      apply percentage_bounds; [|exact Hp].
      split; [apply len_nonneg|apply len_filter_le].
    + exists 0%Q. split; [reflexivity|]. split; unfold Qle; cbn; lia.
  - eexists. split; [reflexivity|].
    intros lo hi Hv Hb.
    rewrite fold_left_sum, Z.add_0_l.
    replace (map (fun v => or_zero (DemoView.time_spent v)) views)
      with (map DemoView.time_spent views)
      by (apply map_ext; intros v; symmetry; apply or_zero_id).
    pose proof (len_pos views Hv) as Hp.
    destruct (Z.eqb_spec (len views) 0) as [Hz|_]; [lia|].
    apply quotient_bounds; [exact Hp|].
    apply total_between. exact Hb.
Qed.

Lemma empty_figures : figures_of [] AnalyticsService.getEmptyAnalytics.
Proof.
  unfold figures_of, AnalyticsService.getEmptyAnalytics;
    cbn [totalViews uniqueViewers avgTimeSpent completionRate].
  split; [reflexivity|]. split; [lia|]. split; [congruence|].
  split; exists 0%Q; split; try reflexivity.
  - split; unfold Qle; cbn; lia.
  - intros lo hi Hv. congruence.
Qed.

Lemma in_window_nil since l : filter (in_window [] since) l = [].
Proof. induction l as [|v l IH]; [reflexivity|]. cbn. exact IH. Qed.

(** X13.  The headline figures agree with the records.  When both fetches
    succeed, a summary's [uniqueViewers] lies between 0 and [totalViews] and
    is at least 1 as soon as a record is in the window, [completionRate] is
    a number between 0 and 100, and [avgTimeSpent] is a number that lies
    between the least and the greatest [time_spent] of the window's
    records. *)
Theorem X13_figures_agree :
  (forall userId timeRange w,
      outcome_at 0 (server w) = Accept ->
      outcome_at 1 (server w) = Accept ->
      exists s,
        result (AnalyticsService.getUserAnalytics userId timeRange) w = Ok s
        /\ figures_of
             (filter (in_window (map Demo.id (owned_demos userId (store_of w)))
                                (window_start w timeRange))
                     (demo_views (store_of w))) s)
  /\ (forall demoId timeRange w,
         outcome_at 0 (server w) = Accept ->
         outcome_at 1 (server w) = Accept ->
         exists s,
           result (AnalyticsService.getDemoAnalytics demoId timeRange) w = Ok s
           /\ figures_of (filter (in_window [demoId]
                                            (window_start w timeRange))
                                 (demo_views (store_of w))) s).
Proof.
  split.
  - intros userId timeRange w H0 H1.
    rewrite getUserAnalytics_result. cbv zeta. rewrite H0, H1.
    destruct (owned_demos userId (store_of w)) as [|d ds] eqn:E.
    + eexists. split; [reflexivity|]. cbn [map].
      rewrite in_window_nil. apply empty_figures.
    + eexists. split; [reflexivity|].
      apply (summary_of_figures _ _
               (matching_views (map Demo.id (d :: ds))
                               (window_start w timeRange) (store_of w))).
  - intros demoId timeRange w H0 H1.
    rewrite getDemoAnalytics_result. cbv zeta. rewrite H0, H1.
    eexists. split; [reflexivity|].
    apply (summary_of_figures _ _
             (matching_views [demoId] (window_start w timeRange)
                             (store_of w))).
Qed.

Lemma X13_witness :
  outcome_at 0 (server (Sample.world [])) = Accept
  /\ outcome_at 1 (server (Sample.world [])) = Accept
  /\ exists s,
       result (AnalyticsService.getUserAnalytics "U1" "7d") (Sample.world [])
       = Ok s
       /\ 0 <= uniqueViewers s <= totalViews s
       /\ avgTimeSpent s = Num (7 # 1).
Proof.
  split; [reflexivity|]. split; [reflexivity|].
  destruct (proj1 X13_figures_agree "U1" "7d" (Sample.world [])
              eq_refl eq_refl) as (s & Hr & Hf).
  exists s. split; [exact Hr|]. split; [exact (proj1 (proj2 Hf))|].
  unfold result in Hr. vm_compute in Hr. injection Hr as <-. reflexivity.
Defined.

(** ** The day series and the ranking add up *)

Lemma len_filter_split {A} (p q : A -> bool) (l : list A) :
  (forall x, p x = true -> q x = false) ->
  len (filter p l) + len (filter q l)
  = len (filter (fun x => p x || q x) l).
Proof.
  intros D. unfold len. induction l as [|x l IH]; [reflexivity|].
  cbn [filter]. specialize (D x).
  destruct (p x), (q x); cbn [orb List.length];
    try (specialize (D eq_refl); discriminate); lia.
Qed.

(** When no two bars count the same UTC date, the bars add up to the
    records of the charted dates. *)
Lemma days_back_total today views k :
  NoDup (bar_dates today k) ->
  total (map DayViews.views (days_back today views k))
  = len (filter (charted today k) views).
Proof.
  induction k as [|i IH]; intros N.
  - cbn [days_back map total fold_right]. unfold charted.
    cbn [bar_dates existsb].
    replace (filter (fun _ => false) views) with (@nil DemoView.t);
      [reflexivity|].
    induction views; [reflexivity|assumption].
  - cbn [bar_dates] in N. inversion N as [|d ds Hd Hds]; subst.
    cbn [days_back map DayViews.views].
    change (total (?x :: ?l)) with (x + total l).
    rewrite (IH Hds). unfold utc_day_count.
    rewrite len_filter_split.
    + reflexivity.
    + intros v E. apply Z.eqb_eq in E. unfold charted.
      destruct (existsb (Z.eqb (isoDate (DemoView.viewed_at v)))
                        (bar_dates today i)) eqn:X; [|reflexivity].
      exfalso. apply Hd. apply existsb_exists in X.
      destruct X as (x & Hx & Ex). apply Z.eqb_eq in Ex.
      rewrite <- E, Ex. exact Hx.
Qed.

Lemma days_back_total_le today views k :
  NoDup (bar_dates today k) ->
  total (map DayViews.views (days_back today views k)) <= len views.
Proof.
  intros N. rewrite (days_back_total _ _ _ N). apply len_filter_le.
Qed.

Lemma days_back_no_views_total today k :
  total (map DayViews.views (days_back today [] k)) = 0.
Proof.
  induction k as [|i IH]; [reflexivity|].
  cbn [days_back map DayViews.views].
  change (total (?x :: ?l)) with (x + total l). rewrite IH. reflexivity.
Qed.

Lemma summary_of_series_le today days views top :
  NoDup (bar_dates today (Z.to_nat days)) ->
  total (map DayViews.views (viewsByDay (summary_of today days views top)))
  <= totalViews (summary_of today days views top).
Proof.
  intros N. unfold summary_of; cbn [viewsByDay totalViews].
  destruct views as [vs|];
    cbn [AnalyticsService.or_empty AnalyticsService.totalViews_of].
  - rewrite or_zero_id. apply days_back_total_le. exact N.
  - rewrite days_back_no_views_total. lia.
Qed.

(** Where the offset does not change over the window, the bars count the
    [k] UTC dates that end today, each once. *)
Lemma bar_dates_steady today k :
  (forall i, (i < k)%nat -> same_offset today (Z.of_nat i)) ->
  forall d, In d (bar_dates today k) ->
            toISODate today - Z.of_nat k < d <= toISODate today.
Proof.
  induction k as [|i IH]; intros Hs d Hd; [destruct Hd|].
  cbn [bar_dates] in Hd. destruct Hd as [<- | Hd].
  - unfold bar_date, toISODate, isoDate.
    rewrite getTime_setDate_back by (apply Hs; lia).
    pose proof msPerDay_pos as P.
    replace (getTime today - Z.of_nat i * msPerDay)
      with (getTime today + (- Z.of_nat i) * msPerDay) by ring.
    rewrite Z.div_add by lia. lia.
  - assert (toISODate today - Z.of_nat i < d <= toISODate today)
      by (apply IH; [intros j Hj; apply Hs; lia|exact Hd]).
    lia.
Qed.

Lemma bar_dates_distinct today k :
  (forall i, (i < k)%nat -> same_offset today (Z.of_nat i)) ->
  NoDup (bar_dates today k).
Proof.
  induction k as [|i IH]; intros Hs; [constructor|].
  cbn [bar_dates]. constructor.
  - intros Hin.
    apply (bar_dates_steady today i) in Hin;
      [|intros j Hj; apply Hs; lia].
    unfold bar_date, toISODate, isoDate in Hin.
    rewrite getTime_setDate_back in Hin by (apply Hs; lia).
    pose proof msPerDay_pos as P.
    replace (getTime today - Z.of_nat i * msPerDay)
      with (getTime today + (- Z.of_nat i) * msPerDay) in Hin by ring.
    rewrite Z.div_add in Hin by lia. lia.
  - apply IH. intros j Hj. apply Hs. lia.
Qed.

(** X14.  When no two bars of the day series count the same UTC date, the
    bars add up to the number of records whose [viewed_at] falls on one of
    the dates charted, and in a summary they do not exceed [totalViews],
    whatever the store answers.  That is so wherever the zone's offset does
    not change over the window.  Across a daylight-saving change two bars
    can count the same UTC date: in New York on the evening of 2024-03-10
    the one view of the window is counted under two bars, and the bars add
    up to 2 beside a [totalViews] of 1. *)
Theorem X14_day_series_adds_up :
  (forall views days w,
      let today := clock (client w) in
      NoDup (bar_dates today (Z.to_nat days)) ->
      exists series,
        result (AnalyticsService.getViewsByDay views days) w = Ok series
        /\ total (map DayViews.views series)
           = len (filter (charted today (Z.to_nat days)) views)
        /\ total (map DayViews.views series) <= len views)
  /\ (forall userId timeRange w,
         NoDup (bar_dates (clock (client w))
                          (Z.to_nat (AnalyticsService.days_of timeRange))) ->
         exists s,
           result (AnalyticsService.getUserAnalytics userId timeRange) w = Ok s
           /\ total (map DayViews.views (viewsByDay s)) <= totalViews s)
  /\ (forall demoId timeRange w,
         NoDup (bar_dates (clock (client w))
                          (Z.to_nat (AnalyticsService.days_of timeRange))) ->
         exists s,
           result (AnalyticsService.getDemoAnalytics demoId timeRange) w = Ok s
           /\ total (map DayViews.views (viewsByDay s)) <= totalViews s)
  /\ (forall today k,
         (forall i, (i < k)%nat -> same_offset today (Z.of_nat i)) ->
         NoDup (bar_dates today k))
  /\ (exists s,
         result (AnalyticsService.getDemoAnalytics "D1" "7d") NewYork.world
         = Ok s
         /\ totalViews s = 1
         /\ total (map DayViews.views (viewsByDay s)) = 2).
Proof.
  split; [|split; [|split; [|split]]].
  - intros views days w today N. eexists. split; [|split].
    + unfold result, AnalyticsService.getViewsByDay.
      rewrite run_getViewsByDay_from. reflexivity.
    + apply days_back_total. exact N.
    + apply days_back_total_le. exact N.
  - intros userId timeRange w N.
    rewrite getUserAnalytics_result. cbv zeta.
    eexists. split; [reflexivity|].
    destruct (outcome_at 0 (server w));
      [destruct (owned_demos userId (store_of w));
       [|destruct (outcome_at 1 (server w))]| |];
      try (apply summary_of_series_le; exact N); cbn; lia.
  - intros demoId timeRange w N.
    rewrite getDemoAnalytics_result. cbv zeta.
    eexists. split; [reflexivity|].
    destruct (outcome_at 0 (server w)), (outcome_at 1 (server w));
      try (apply summary_of_series_le; exact N); cbn; lia.
  - exact bar_dates_distinct.
  - eexists. split; [vm_compute; reflexivity|]. split; reflexivity.
Qed.

Lemma X14_witness :
  NoDup (bar_dates (clock (client (Sample.world []))) (Z.to_nat 7))
  /\ exists series,
       result (AnalyticsService.getViewsByDay [Sample.view] 7)
              (Sample.world [])
       = Ok series
       /\ total (map DayViews.views series) = 1.
Proof.
  assert (N : NoDup (bar_dates (clock (client (Sample.world [])))
                               (Z.to_nat 7))).
  { apply bar_dates_distinct. intros i _. reflexivity. }
  split; [exact N|].
  destruct (proj1 X14_day_series_adds_up [Sample.view] 7 (Sample.world []) N)
    as (series & Hr & Ht & _).
  exists series. split; [exact Hr|]. rewrite Ht. reflexivity.
Defined.

Lemma total_app l1 l2 : total (l1 ++ l2) = total l1 + total l2.
Proof.
  unfold total. induction l1 as [|x l1 IH]; cbn [app fold_right]; lia.
Qed.

Lemma total_perm l1 l2 : Permutation l1 l2 -> total l1 = total l2.
Proof.
  unfold total. induction 1; cbn [fold_right]; lia.
Qed.

Lemma total_nonneg l : (forall x, In x l -> 0 <= x) -> 0 <= total l.
Proof.
  unfold total. induction l as [|x l IH]; intros H; cbn [fold_right]; [lia|].
  pose proof (H x (or_introl eq_refl)).
  assert (0 <= fold_right Z.add 0 l)
    by (apply IH; intros y Hy; apply H; right; exact Hy).
  lia.
Qed.

Lemma total_firstn_le n l :
  (forall x, In x l -> 0 <= x) -> total (firstn n l) <= total l.
Proof.
  intros H. rewrite <- (firstn_skipn n l) at 2. rewrite total_app.
  assert (0 <= total (skipn n l)); [|lia].
  apply total_nonneg. intros x Hx. apply H.
  rewrite <- (firstn_skipn n l). apply in_or_app. right. exact Hx.
Qed.

(** Over demos with distinct ids, the per-demo counts add up to the number
    of records that belong to one of them. *)
Lemma demo_counts_total views demos :
  NoDup (map Demo.id demos) ->
  total (map TopDemo.views (map (demo_count views) demos))
  = len (filter (fun v => in_ids (map Demo.id demos) (DemoView.demo_id v))
                views).
Proof.
  induction demos as [|d ds IH]; intros N.
  - cbn [map total fold_right]. unfold in_ids; cbn [existsb].
    replace (filter (fun _ => false) views) with (@nil DemoView.t);
      [reflexivity|].
    induction views; [reflexivity|assumption].
  - inversion N as [|x l Hx Hl]; subst.
    cbn [map]. change (total (?x :: ?l)) with (x + total l).
    rewrite IH by exact Hl. cbn [demo_count TopDemo.views].
    rewrite len_filter_split.
    + f_equal.
    + intros v E. apply String.eqb_eq in E.
      destruct (in_ids (map Demo.id ds) (DemoView.demo_id v)) eqn:I;
        [|reflexivity].
      exfalso. apply Hx. unfold in_ids in I. apply existsb_exists in I.
      destruct I as (y & Hy & Ey). apply String.eqb_eq in Ey.
      rewrite <- E, Ey. exact Hy.
Qed.

Lemma getTopDemos_length views demos :
  List.length (AnalyticsService.getTopDemos views demos)
  = Nat.min 5 (List.length demos).
Proof.
  unfold AnalyticsService.getTopDemos.
  rewrite length_firstn. f_equal.
  erewrite Permutation_length by apply sort_perm.
  apply length_map.
Qed.

Lemma getTopDemos_total_le views demos :
  NoDup (map Demo.id demos) ->
  total (map TopDemo.views (AnalyticsService.getTopDemos views demos))
  <= len (filter (fun v => in_ids (map Demo.id demos) (DemoView.demo_id v))
                 views).
Proof.
  intros N. rewrite <- demo_counts_total by exact N.
  unfold AnalyticsService.getTopDemos.
  change (map _ demos) with (map (demo_count views) demos).
  rewrite <- firstn_map.
  etransitivity.
  - apply total_firstn_le. intros x Hx.
    apply in_map_iff in Hx. destruct Hx as (e & <- & He).
    eapply Permutation_in in He; [|apply sort_perm].
    apply in_map_iff in He. destruct He as (d & <- & _).
    apply len_nonneg.
  - apply Z.eq_le_incl. apply total_perm. apply Permutation_map.
    apply sort_perm.
Qed.

Lemma getTopDemos_total_eq views demos :
  NoDup (map Demo.id demos) ->
  (List.length demos <= 5)%nat ->
  total (map TopDemo.views (AnalyticsService.getTopDemos views demos))
  = len (filter (fun v => in_ids (map Demo.id demos) (DemoView.demo_id v))
                views).
Proof.
  intros N L. rewrite <- demo_counts_total by exact N.
  unfold AnalyticsService.getTopDemos.
  change (map _ demos) with (map (demo_count views) demos).
  rewrite firstn_all2.
  - apply total_perm. apply Permutation_map. apply sort_perm.
  - erewrite Permutation_length by apply sort_perm.
    rewrite length_map. exact L.
Qed.

Lemma filter_all {A} (p : A -> bool) (l : list A) :
  (forall x, In x l -> p x = true) -> filter p l = l.
Proof.
  induction l as [|x l IH]; intros H; [reflexivity|]. cbn [filter].
  rewrite (H x (or_introl eq_refl)). f_equal. apply IH.
  intros y Hy. apply H. right. exact Hy.
Qed.

Lemma matching_views_belong ids since s :
  filter (fun v => in_ids ids (DemoView.demo_id v))
         (matching_views ids since s)
  = matching_views ids since s.
Proof.
  apply filter_all. intros v Hv. unfold matching_views in Hv.
  apply filter_In in Hv. destruct Hv as (_ & Hv).
  apply andb_true_iff in Hv. exact (proj1 Hv).
Qed.

(** The demos of a user keep the distinct ids of the table. *)
Lemma owned_demos_distinct userId s :
  NoDup (map Demo.id (demos s)) ->
  NoDup (map Demo.id (owned_demos userId s)).
Proof.
  unfold owned_demos. induction (demos s) as [|d ds IH]; intros N.
  - constructor.
  - inversion N as [|i ids Hi Hids]; subst. cbn [filter].
    destruct (String.eqb (Demo.owner_id d) userId); [|exact (IH Hids)].
    cbn [map]. constructor; [|exact (IH Hids)].
    intros I. apply Hi. apply in_map_iff in I. destruct I as (z & E & Hz).
    apply in_map_iff. exists z. split; [exact E|].
    apply filter_In in Hz. exact (proj1 Hz).
Qed.

(** X15.  The ranking accounts for the records.  [getTopDemos] returns
    [min(5, demos.length)] entries.  When the ids of the stored demos are
    distinct and both fetches succeed, the counts listed in a user
    summary's [topDemos] add up to at most [totalViews], and to exactly
    [totalViews] when the user owns no more than five demos. *)
Theorem X15_ranking_accounts_for_the_records :
  (forall views demos,
      List.length (AnalyticsService.getTopDemos views demos)
      = Nat.min 5 (List.length demos))
  /\ (forall userId timeRange w,
         let owned := owned_demos userId (store_of w) in
         NoDup (map Demo.id (demos (store_of w))) ->
         outcome_at 0 (server w) = Accept ->
         outcome_at 1 (server w) = Accept ->
         exists s,
           result (AnalyticsService.getUserAnalytics userId timeRange) w = Ok s
           /\ total (map TopDemo.views (topDemos s)) <= totalViews s
           /\ ((List.length owned <= 5)%nat ->
               total (map TopDemo.views (topDemos s)) = totalViews s)).
Proof.
  split; [exact getTopDemos_length|].
  intros userId timeRange w owned N H0 H1.
  assert (No : NoDup (map Demo.id owned))
    by (apply owned_demos_distinct; exact N).
  rewrite getUserAnalytics_result. cbv zeta. fold owned. rewrite H0, H1.
  destruct owned as [|d ds] eqn:E.
  - eexists. split; [reflexivity|]. cbn. split; [lia|reflexivity].
  - eexists. split; [reflexivity|].
    unfold summary_of; cbn [topDemos totalViews
                            AnalyticsService.totalViews_of].
    rewrite or_zero_id.
    rewrite <- (matching_views_belong (map Demo.id (d :: ds))) at 2 4.
    split.
    + apply getTopDemos_total_le. exact No.
    + intros L. apply getTopDemos_total_eq; assumption.
Qed.

Lemma X15_witness :
  NoDup (map Demo.id (demos (store_of (Sample.world []))))
  /\ outcome_at 0 (server (Sample.world [])) = Accept
  /\ outcome_at 1 (server (Sample.world [])) = Accept
  /\ exists s,
       result (AnalyticsService.getUserAnalytics "U1" "7d") (Sample.world [])
       = Ok s
       /\ total (map TopDemo.views (topDemos s)) <= totalViews s.
Proof.
  assert (N : NoDup (map Demo.id (demos (store_of (Sample.world []))))).
  { vm_compute. repeat constructor; cbn; intuition discriminate. }
  split; [exact N|]. split; [reflexivity|]. split; [reflexivity|].
  destruct (proj2 X15_ranking_accounts_for_the_records
              "U1" "7d" (Sample.world []) N eq_refl eq_refl)
    as (s & Hr & Hle & _).
  exists s. split; [exact Hr|exact Hle].
Defined.

(** ** The player *)

(** A progress write, whatever the store answers: one journal line, the tab
    untouched but for its console. *)
Lemma progress_write viewId t c w :
  let w' := after (AnalyticsService.updateViewProgress viewId t c) w in
  ui (client w') = ui (client w)
  /\ startTimeRef (client w') = startTimeRef (client w)
  /\ clock (client w') = clock (client w)
  /\ journal (server w')
     = journal (server w)
       ++ [(UpdateProgress viewId t c, next_outcome (server w))]
  /\ (next_outcome (server w) = Accept ->
      demo_views (store_of w')
      = map (set_progress viewId t c) (demo_views (store_of w))).
Proof.
  cbv zeta. unfold after, store_of. rewrite updateViewProgress_after.
  cbv zeta. destruct (next_outcome (server w)); cbn; repeat split;
    try reflexivity; discriminate.
Qed.

Lemma viewer_updateViewProgress_tab render w :
  let w' := after (SharedDemoViewer.updateViewProgress render) w in
  ui (client w') = ui (client w)
  /\ startTimeRef (client w') = startTimeRef (client w)
  /\ clock (client w') = clock (client w).
Proof.
  cbv zeta. destruct (UI.viewId render) as [viewId|] eqn:Hv.
  - unfold after at 1 2 3.
    rewrite (viewer_updateViewProgress_run render viewId w Hv).
    cbv zeta. cbn [snd client with_lastUpdate ui startTimeRef clock].
    destruct (progress_write viewId (seconds_spent (client w))
                (UI.currentStep render + 1) w) as (P1 & P2 & P3 & _).
    repeat split; assumption.
  - unfold after, SharedDemoViewer.updateViewProgress. rewrite Hv.
    repeat split.
Qed.

Lemma trackCompletion_run render viewId w :
  UI.viewId render = Some viewId ->
  run (SharedDemoViewer.trackCompletion render) w
  = (Ok tt,
     after (AnalyticsService.updateViewProgress
              viewId (seconds_spent (client w)) (len (UI.steps render))) w).
Proof.
  intros Hv. unfold SharedDemoViewer.trackCompletion. rewrite Hv.
  rewrite run_bind, run_new_Date, run_bind, run_GetStartTime.
  unfold after, seconds_spent.
  pose proof (updateViewProgress_after viewId
                ((getTime (clock (client w)) - startTimeRef (client w)) / 1000)
                (len (UI.steps render)) w) as R.
  cbv zeta in R.
  destruct (run (AnalyticsService.updateViewProgress _ _ _) w) as [r w1].
  injection R as -> _. reflexivity.
Qed.

Lemma trackCompletion_tab render w :
  ui (client (after (SharedDemoViewer.trackCompletion render) w))
  = ui (client w).
Proof.
  destruct (UI.viewId render) as [viewId|] eqn:Hv.
  - unfold after at 1. rewrite (trackCompletion_run render viewId w Hv).
    cbn [snd]. apply progress_write.
  - unfold after, SharedDemoViewer.trackCompletion. rewrite Hv. reflexivity.
Qed.

(** The state a control hands to React. *)
Lemma press_ui c w :
  let u := ui (client w) in
  ui (client (SharedControls.press c w))
  = match c with
    | SharedControls.Next =>
        if UI.currentStep u <? len (UI.steps u) - 1
        then SharedControls.setCurrentStep (UI.currentStep u + 1) u else u
    | SharedControls.Prev =>
        if 0 <? UI.currentStep u
        then SharedControls.setCurrentStep (UI.currentStep u - 1) u else u
    | SharedControls.GoTo index => SharedControls.setCurrentStep index u
    | SharedControls.Restart =>
        if (UI.currentStep u =? 0) && negb (UI.isPlaying u)
        then u
        else SharedControls.setIsPlaying false
               (SharedControls.setCurrentStep 0 u)
    | SharedControls.Play =>
        if (len (UI.steps u) - 1 <=? UI.currentStep u)
           && negb (UI.isPlaying u)
        then u else SharedControls.setIsPlaying (negb (UI.isPlaying u)) u
    | SharedControls.Tick _ =>
        if UI.isPlaying u && (0 <? len (UI.steps u))
        then if len (UI.steps u) - 1 <=? UI.currentStep u
             then SharedControls.setIsPlaying false u
             else SharedControls.setCurrentStep (UI.currentStep u + 1) u
        else u
    end.
Proof.
  cbv zeta. destruct c as [| |index| | |t]; cbn [SharedControls.press].
  - unfold SharedControls.nextStep.
    destruct (UI.currentStep (ui (client w))
              <? len (UI.steps (ui (client w))) - 1); [|reflexivity].
    unfold after. rewrite run_bind, run_set_state.
    apply viewer_updateViewProgress_tab.
  - unfold SharedControls.prevStep.
    destruct (0 <? UI.currentStep (ui (client w))); [|reflexivity].
    unfold after. rewrite run_bind, run_set_state.
    apply viewer_updateViewProgress_tab.
  - unfold SharedControls.goToStep, after.
    rewrite run_bind, run_set_state.
    apply viewer_updateViewProgress_tab.
  - destruct ((UI.currentStep (ui (client w)) =? 0)
              && negb (UI.isPlaying (ui (client w)))); [reflexivity|].
    unfold SharedControls.restart. cbv zeta.
    change (after (set_state (SharedControls.setCurrentStep 0) ;;
                   set_state (SharedControls.setIsPlaying false)) w)
      with (mkWorld (with_ui (SharedControls.setIsPlaying false)
                       (with_ui (SharedControls.setCurrentStep 0) (client w)))
                    (server w)).
    match goal with
    | |- context [run (SharedDemoViewer.updateViewProgress ?r) ?W] =>
        destruct (viewer_updateViewProgress_tab r W) as (E & _)
    end.
    unfold after in E. rewrite E. reflexivity.
  - unfold SharedControls.togglePlay.
    destruct ((len (UI.steps (ui (client w))) - 1
               <=? UI.currentStep (ui (client w)))
              && negb (UI.isPlaying (ui (client w)))); reflexivity.
  - unfold SharedControls.autoplay.
    destruct (UI.isPlaying (ui (client w))
              && (0 <? len (UI.steps (ui (client w))))) eqn:G;
      [|reflexivity].
    apply andb_true_iff in G. destruct G as (G & _).
    cbn [SharedControls.ticking]. rewrite G.
    unfold SharedControls.tick.
    cbn [SharedControls.at_time client ui].
    destruct (len (UI.steps (ui (client w))) - 1
              <=? UI.currentStep (ui (client w))).
    + rewrite run_bind, run_set_state.
      fold (after (SharedDemoViewer.trackCompletion (ui (client w)))
             (mkWorld
                (with_ui (SharedControls.setIsPlaying false)
                   (client (SharedControls.at_time t w)))
                (server (SharedControls.at_time t w)))).
      rewrite trackCompletion_tab. reflexivity.
    + reflexivity.
Qed.

Lemma press_keeps c w :
  let u := ui (client w) in
  let u' := ui (client (SharedControls.press c w)) in
  SharedControls.on_screen u c ->
  0 <= UI.currentStep u < len (UI.steps u) ->
  UI.steps u' = UI.steps u
  /\ UI.demo u' = UI.demo u
  /\ UI.viewId u' = UI.viewId u
  /\ 0 <= UI.currentStep u' < len (UI.steps u).
Proof.
  cbv zeta. intros Hc Hb. rewrite press_ui. cbv zeta.
  destruct c as [| |index| | |t]; cbn [SharedControls.on_screen] in Hc.
  - destruct (Z.ltb_spec (UI.currentStep (ui (client w)))
                         (len (UI.steps (ui (client w))) - 1));
      cbn; repeat split; try reflexivity; lia.
  - destruct (Z.ltb_spec 0 (UI.currentStep (ui (client w))));
      cbn; repeat split; try reflexivity; lia.
  - cbn; repeat split; try reflexivity; lia.
  - destruct ((UI.currentStep (ui (client w)) =? 0)
              && negb (UI.isPlaying (ui (client w))));
      cbn; repeat split; try reflexivity; lia.
  - destruct ((len (UI.steps (ui (client w))) - 1
               <=? UI.currentStep (ui (client w)))
              && negb (UI.isPlaying (ui (client w))));
      cbn; repeat split; try reflexivity; lia.
  - destruct (UI.isPlaying (ui (client w))
              && (0 <? len (UI.steps (ui (client w)))));
      [destruct (Z.leb_spec (len (UI.steps (ui (client w))) - 1)
                            (UI.currentStep (ui (client w))))|];
      cbn; repeat split; try reflexivity; lia.
Qed.

(** X16.  The player stays on a step.  From a tab that shows one of its
    steps, whatever sequence of next, previous, step buttons, restart,
    play and pause and timer ticks follows, and whatever the store answers
    to the progress reports they send, the current step stays one of the
    loaded steps, and the steps, the demo and the view id stay as they
    were. *)
Theorem X16_player_stays_on_a_step :
  forall cs w,
    let start := ui (client w) in
    0 <= UI.currentStep start < len (UI.steps start) ->
    Forall (SharedControls.on_screen start) cs ->
    let w' := fold_left (fun w c => SharedControls.press c w) cs w in
    UI.steps (ui (client w')) = UI.steps start
    /\ UI.demo (ui (client w')) = UI.demo start
    /\ UI.viewId (ui (client w')) = UI.viewId start
    /\ 0 <= UI.currentStep (ui (client w')) < len (UI.steps start).
Proof.
  induction cs as [|c cs IH]; intros w start Hb Hcs; cbv zeta.
  - cbn [fold_left]. repeat split; try reflexivity; apply Hb.
  - inversion Hcs as [|c' cs' Hc Hrest]; subst. cbn [fold_left].
    destruct (press_keeps c w Hc Hb) as (K1 & K2 & K3 & K4).
    specialize (IH (SharedControls.press c w)). cbv zeta in IH.
    rewrite K1, K2, K3 in IH. apply IH.
    + exact K4.
    + eapply Forall_impl; [|exact Hrest].
      intros [| |index| | |t] H; cbn [SharedControls.on_screen] in *;
        try exact I. rewrite K1. exact H.
Qed.

Lemma X16_witness :
  let w := after (SharedDemoViewer.mount "tok") (Sample.world []) in
  let cs := [SharedControls.Play; SharedControls.Tick 1; SharedControls.GoTo 2;
             SharedControls.Next; SharedControls.Tick 2;
             SharedControls.Restart; SharedControls.Prev] in
  0 <= UI.currentStep (ui (client w)) < len (UI.steps (ui (client w)))
  /\ Forall (SharedControls.on_screen (ui (client w))) cs
  /\ 0 <= UI.currentStep
            (ui (client (fold_left (fun w c => SharedControls.press c w)
                                   cs w)))
     < len (UI.steps (ui (client w))).
Proof.
  cbv zeta.
  assert (Hb : 0 <= UI.currentStep
                      (ui (client (after (SharedDemoViewer.mount "tok")
                                         (Sample.world []))))
               < len (UI.steps
                        (ui (client (after (SharedDemoViewer.mount "tok")
                                           (Sample.world []))))))
    by (vm_compute; split; [discriminate|reflexivity]).
  assert (Hc : Forall
                 (SharedControls.on_screen
                    (ui (client (after (SharedDemoViewer.mount "tok")
                                       (Sample.world [])))))
                 [SharedControls.Play; SharedControls.Tick 1;
                  SharedControls.GoTo 2; SharedControls.Next;
                  SharedControls.Tick 2; SharedControls.Restart;
                  SharedControls.Prev]).
  { repeat (apply Forall_cons;
            [first [exact I
                   |vm_compute; split; [discriminate|reflexivity]]|]).
    apply Forall_nil. }
  split; [exact Hb|]. split; [exact Hc|].
  apply (X16_player_stays_on_a_step _ _ Hb Hc).
Defined.

(** ** Playing to the end *)

Lemma ticking_run render viewId :
  UI.viewId render = Some viewId ->
  forall m times w,
    UI.isPlaying (ui (client w)) = true ->
    UI.currentStep (ui (client w)) = len (UI.steps render) - 1 - Z.of_nat m ->
    (m < List.length times)%nat ->
    let w' := SharedControls.ticking render times w in
    let secs := (nth m times 0 - startTimeRef (client w)) / 1000 in
    UI.currentStep (ui (client w')) = len (UI.steps render) - 1
    /\ UI.isPlaying (ui (client w')) = false
    /\ journal (server w')
       = journal (server w)
         ++ [(UpdateProgress viewId secs (len (UI.steps render)),
              next_outcome (server w))]
    /\ (next_outcome (server w) = Accept ->
        demo_views (store_of w')
        = map (set_progress viewId secs (len (UI.steps render)))
              (demo_views (store_of w))).
Proof.
  intros Hv. induction m as [|m IH]; intros times w Hp Hc Hl;
    destruct times as [|t later]; cbn [List.length] in Hl; try lia;
    cbv zeta; cbn [SharedControls.ticking nth]; rewrite Hp;
    unfold SharedControls.tick;
    cbn [SharedControls.at_time client ui]; rewrite Hc.
  - destruct (Z.leb_spec (len (UI.steps render) - 1)
                         (len (UI.steps render) - 1 - Z.of_nat 0));
      [|lia].
    rewrite run_bind, run_set_state.
    rewrite (trackCompletion_run render viewId _ Hv). cbn [snd].
    match goal with
    | |- context [after (AnalyticsService.updateViewProgress ?i ?s ?c) ?W] =>
        destruct (progress_write i s c W) as (P1 & P2 & P3 & P4 & P5);
        set (w1 := after (AnalyticsService.updateViewProgress i s c) W) in *
    end.
    assert (Hstop : SharedControls.ticking render later w1 = w1).
    { destruct later as [|t' l']; [reflexivity|].
      cbn [SharedControls.ticking]. rewrite P1. reflexivity. }
    rewrite Hstop, P1, P4. cbn in *. rewrite Hc.
    repeat split; try reflexivity; try lia. exact P5.
  - destruct (Z.leb_spec (len (UI.steps render) - 1)
                         (len (UI.steps render) - 1 - Z.of_nat (S m)));
      [lia|].
    rewrite run_set_state. cbn [snd].
    match goal with
    | |- context [SharedControls.ticking render later ?W] =>
        specialize (IH later W)
    end.
    cbv zeta in IH. apply IH.
    + exact Hp.
    + cbn. lia.
    + lia.
Qed.

(** X17.  Playing runs to the last step, stops there and reports once.
    With a view id, a playing tab on step [c] of [n] advances one step per
    tick, and the tick that finds it on the last step stops the playback and
    sends the one progress report of the whole run: the seconds since the
    start time at that tick and [completed_steps = n].  Later ticks do
    nothing. *)
Theorem X17_playback_ends_with_one_report :
  forall w times viewId,
    let render := ui (client w) in
    let n := len (UI.steps render) in
    UI.isPlaying render = true ->
    0 <= UI.currentStep render < n ->
    UI.viewId render = Some viewId ->
    (Z.to_nat (n - UI.currentStep render) <= List.length times)%nat ->
    let w' := SharedControls.autoplay render times w in
    let t := nth (Z.to_nat (n - 1 - UI.currentStep render)) times 0 in
    let secs := (t - startTimeRef (client w)) / 1000 in
    UI.currentStep (ui (client w')) = n - 1
    /\ UI.isPlaying (ui (client w')) = false
    /\ journal (server w')
       = journal (server w)
         ++ [(UpdateProgress viewId secs n, next_outcome (server w))]
    /\ (next_outcome (server w) = Accept ->
        demo_views (store_of w')
        = map (set_progress viewId secs n) (demo_views (store_of w))).
Proof.
  intros w times viewId render n Hp Hb Hv Hl. cbv zeta.
  unfold SharedControls.autoplay. fold render. rewrite Hp.
  destruct (Z.ltb_spec 0 (len (UI.steps render))) as [_|]; [|fold n; lia].
  cbn [andb].
  apply (ticking_run render viewId Hv
           (Z.to_nat (n - 1 - UI.currentStep render)) times w Hp).
  - fold render n. lia.
  - fold n. lia.
Qed.

Lemma X17_witness :
  let w := SharedControls.press SharedControls.Play
             (after (SharedDemoViewer.mount "tok") (Sample.world [])) in
  let w' := SharedControls.autoplay (ui (client w))
              [Sample.day 100 + 8000; Sample.day 100 + 11000;
               Sample.day 100 + 14000; Sample.day 100 + 17000] w in
  UI.isPlaying (ui (client w)) = true
  /\ UI.viewId (ui (client w)) = Some "v1"
  /\ UI.currentStep (ui (client w')) = 2
  /\ journal (server w')
     = journal (server w) ++ [(UpdateProgress "v1" 14 3, Accept)].
Proof.
  cbv zeta.
  set (w := SharedControls.press SharedControls.Play
              (after (SharedDemoViewer.mount "tok") (Sample.world []))).
  assert (Hp : UI.isPlaying (ui (client w)) = true) by reflexivity.
  assert (Hv : UI.viewId (ui (client w)) = Some "v1") by reflexivity.
  assert (Hb : 0 <= UI.currentStep (ui (client w))
               < len (UI.steps (ui (client w))))
    by (vm_compute; split; [discriminate|reflexivity]).
  assert (Hl : Nat.le (Z.to_nat (len (UI.steps (ui (client w)))
                                 - UI.currentStep (ui (client w))))
                      (List.length [Sample.day 100 + 8000;
                                    Sample.day 100 + 11000;
                                    Sample.day 100 + 14000;
                                    Sample.day 100 + 17000]))
    by (vm_compute; lia).
  split; [exact Hp|]. split; [exact Hv|].
  destruct (X17_playback_ends_with_one_report w _ "v1" Hp Hb Hv Hl)
    as (R1 & _ & R3 & _).
  split; [exact R1|exact R3].
Defined.

(** ** A played session and the completed test *)

(** The steps and the playing flag after a granted open. *)
Lemma open_flow_player token render linkData w :
  opens token linkData w ->
  outcome_at 2 (server w) = Accept ->
  let w' := after (SharedDemoViewer.validateAndFetchDemo token render) w in
  UI.steps (ui (client w'))
  = fetched_steps (ShareLink.demo_id linkData) (store_of w)
  /\ UI.isPlaying (ui (client w')) = UI.isPlaying (ui (client w)).
Proof.
  intros Ho E2. destruct (opens_demo Ho) as [demoData Hd].
  cbv zeta. unfold after.
  rewrite (open_flow_run token render linkData demoData w Ho Hd).
  cbv zeta. cbn [snd client ui with_ui UI.steps UI.isPlaying UI.setLoading].
  destruct (shared_trackView_ui render linkData
              (before_tracking token linkData demoData w))
    as (_ & _ & _ & Hs).
  destruct (shared_trackView_rest render linkData
              (before_tracking token linkData demoData w))
    as (_ & _ & _ & _ & _ & _ & Hp & _).
  rewrite Hs, Hp. unfold before_tracking. rewrite E2. split; reflexivity.
Qed.

(** X18.  A session played to the end fails the completed test, the one
    just opened passes it.  A fresh tab opens a link on a demo of [n >= 2]
    steps and its record is inserted: the record holds [total_steps = 0]
    and [completed_steps = 0], which the summaries count as completed.
    The visitor presses play and the demo plays to its end: the accepted
    report leaves the record with [completed_steps = n] beside
    [total_steps = 0], which the summaries do not count. *)
Theorem X18_played_session_fails_the_completed_test :
  forall token linkData w times,
    let newid := uuid (server w) (issued (server w)) in
    let n := len (fetched_steps (ShareLink.demo_id linkData) (store_of w)) in
    opens token linkData w ->
    ui (client w) = UI.initial ->
    outcome_at 2 (server w) = Accept ->
    (forall e, outcome_at 3 (server w) <> Reject e) ->
    outcome_at 4 (server w) = Accept ->
    outcome_at 5 (server w) = Accept ->
    unused_id newid (store_of w) ->
    2 <= n ->
    (Z.to_nat n <= List.length times)%nat ->
    let w1 := after (SharedDemoViewer.mount token) w in
    let w2 := SharedControls.press SharedControls.Play w1 in
    let w3 := SharedControls.autoplay (ui (client w2)) times w2 in
    let row := DemoView.of_record newid
                 (view_record_of UI.initial linkData (clock (client w))) in
    let secs := (nth (Z.to_nat (n - 1)) times 0 - startTimeRef (client w))
                / 1000 in
    demo_views (store_of w1) = demo_views (store_of w) ++ [row]
    /\ AnalyticsService.completedViews_of (Some [row]) = 1
    /\ demo_views (store_of w3)
       = demo_views (store_of w) ++ [DemoView.with_progress secs n row]
    /\ AnalyticsService.completedViews_of
         (Some [DemoView.with_progress secs n row]) = 0.
Proof.
  intros token linkData w times newid n Ho Hi E2 H3 E4 E5 Hu Hn Hl.
  cbv zeta. unfold SharedDemoViewer.mount.
  destruct (opens_demo Ho) as [demoData Hd].
  destruct (open_flow_tab token UI.initial linkData demoData w Ho Hd)
    as (T1 & T2 & T3 & T4 & T5 & T6).
  destruct (open_flow_player token UI.initial linkData w Ho E2) as (S1 & S2).
  cbv zeta in *. rewrite E4 in T4, T5. rewrite Hi in T3, S2.
  set (w1 := after (SharedDemoViewer.validateAndFetchDemo token UI.initial) w)
    in *.
  fold newid in T4, T5.
  assert (Hv : UI.viewId (ui (client w1)) = Some newid).
  { rewrite T4. destruct (outcome_at 3 (server w)) eqn:E3; try reflexivity.
    exfalso. eapply H3. reflexivity. }
  assert (Hrows : demo_views (store_of w1)
                  = demo_views (store_of w)
                    ++ [DemoView.of_record newid
                          (view_record_of UI.initial linkData
                                          (clock (client w)))]).
  { rewrite T5. destruct (outcome_at 3 (server w)) eqn:E3; try reflexivity.
    exfalso. eapply H3. reflexivity. }
  assert (Hnext : next_outcome (server w1) = Accept).
  { rewrite next_outcome_at, T6.
    destruct (outcome_at 3 (server w)) eqn:E3; try exact E5.
    exfalso. eapply H3. reflexivity. }
  cbn [UI.currentStep UI.isPlaying UI.initial] in T3, S2.
  fold n in S1.
  (* play *)
  assert (Hplay : SharedControls.press SharedControls.Play w1
                  = mkWorld (with_ui (SharedControls.setIsPlaying true)
                                     (client w1)) (server w1)).
  { cbn [SharedControls.press]. unfold SharedControls.togglePlay.
    rewrite S1, T3, S2. fold n.
    destruct (Z.leb_spec (n - 1) 0); [lia|]. reflexivity. }
  rewrite Hplay.
  set (w2 := mkWorld (with_ui (SharedControls.setIsPlaying true) (client w1))
                     (server w1)).
  assert (Hv2 : UI.viewId (ui (client w2)) = Some newid) by exact Hv.
  assert (Hs2 : len (UI.steps (ui (client w2))) = n)
    by (unfold w2; cbn; rewrite S1; reflexivity).
  destruct (ticking_run (ui (client w2)) newid Hv2
              (Z.to_nat (n - 1)) times w2) as (_ & _ & _ & R).
  - reflexivity.
  - rewrite Hs2. unfold w2; cbn. rewrite T3. lia.
  - lia.
  - specialize (R Hnext).
    split; [exact Hrows|]. split.
    + cbn. reflexivity.
    + split.
      * unfold SharedControls.autoplay.
        replace (UI.isPlaying (ui (client w2))) with true by reflexivity.
        rewrite Hs2. destruct (Z.ltb_spec 0 n); [|lia]. cbn [andb].
        rewrite R. rewrite Hs2.
        change (store_of w2) with (store_of w1). rewrite Hrows, map_app.
        rewrite (set_progress_unused newid _ _ _ Hu). cbn [map].
        unfold set_progress. cbn [DemoView.of_record DemoView.id].
        rewrite String.eqb_refl.
        change (startTimeRef (client w2)) with (startTimeRef (client w1)).
        rewrite T2. reflexivity.
      * unfold AnalyticsService.completedViews_of.
        cbn [filter DemoView.with_progress DemoView.completed_steps
             DemoView.total_steps DemoView.of_record view_record_of
             ViewRecord.total_steps UI.initial UI.steps].
        change (len []) with 0. cbn [or_zero Z.eqb].
        destruct (Z.eqb_spec n 0); [lia|]. reflexivity.
Qed.

Lemma X18_witness :
  let w := Sample.world [] in
  let times := [Sample.day 100 + 8000; Sample.day 100 + 11000;
                Sample.day 100 + 14000] in
  opens "tok" Sample.link w
  /\ 2 <= len (fetched_steps (ShareLink.demo_id Sample.link) (store_of w))
  /\ demo_views
       (store_of
          (SharedControls.autoplay
             (ui (client (SharedControls.press SharedControls.Play
                            (after (SharedDemoViewer.mount "tok") w))))
             times
             (SharedControls.press SharedControls.Play
                (after (SharedDemoViewer.mount "tok") w))))
     = [Sample.view;
        DemoView.mk "v1" "D1" (Some "L1") "unknown" None
                    (Sample.day 100 + 5000) 14 3 0].
Proof.
  cbv zeta.
  assert (Hu : unused_id (uuid (server (Sample.world []))
                               (issued (server (Sample.world []))))
                         (store_of (Sample.world []))).
  { intros v [<- | []]. discriminate. }
  assert (Hn : 2 <= len (fetched_steps (ShareLink.demo_id Sample.link)
                                       (store_of (Sample.world []))))
    by (vm_compute; discriminate).
  split; [exact Sample_opens|]. split; [exact Hn|].
  refine (proj1 (proj2 (proj2
            (X18_played_session_fails_the_completed_test
               "tok" Sample.link (Sample.world []) _
               Sample_opens eq_refl eq_refl _ eq_refl eq_refl Hu Hn _)))).
  - intros e. discriminate.
  - vm_compute. lia.
Defined.

(** ** What the controls report *)

Lemma viewer_updateViewProgress_journal render viewId w :
  UI.viewId render = Some viewId ->
  journal (server (after (SharedDemoViewer.updateViewProgress render) w))
  = journal (server w)
    ++ [(UpdateProgress viewId (seconds_spent (client w))
                        (UI.currentStep render + 1),
         next_outcome (server w))].
Proof.
  intros Hv. unfold after at 1.
  rewrite (viewer_updateViewProgress_run render viewId w Hv).
  cbv zeta. cbn [snd server]. apply progress_write.
Qed.

(** X19.  What each control of the shared player sends.  With a view id,
    next (off the last step), previous (off the first) and every step
    button send one progress report, and it carries the step the visitor
    leaves, [currentStep + 1] of the render that drew the button, not the
    one reached; restart, when its button is enabled, does the same with
    [time_spent = 0], the start time being reset before the report is made;
    play and pause send nothing, and
    a tick only when it finds the player on the last step, with
    [completed_steps = steps.length]. *)
Theorem X19_controls_report_the_step_left :
  forall c w viewId,
    let u := ui (client w) in
    let o := next_outcome (server w) in
    let report t k := [(UpdateProgress viewId t k, o)] in
    UI.viewId u = Some viewId ->
    journal (server (SharedControls.press c w))
    = journal (server w)
      ++ match c with
         | SharedControls.Next =>
             if UI.currentStep u <? len (UI.steps u) - 1
             then report (seconds_spent (client w)) (UI.currentStep u + 1)
             else []
         | SharedControls.Prev =>
             if 0 <? UI.currentStep u
             then report (seconds_spent (client w)) (UI.currentStep u + 1)
             else []
         | SharedControls.GoTo _ =>
             report (seconds_spent (client w)) (UI.currentStep u + 1)
         | SharedControls.Restart =>
             if (UI.currentStep u =? 0) && negb (UI.isPlaying u)
             then []
             else report 0 (UI.currentStep u + 1)
         | SharedControls.Play => []
         | SharedControls.Tick t =>
             if UI.isPlaying u && (0 <? len (UI.steps u))
                && (len (UI.steps u) - 1 <=? UI.currentStep u)
             then report ((t - startTimeRef (client w)) / 1000)
                         (len (UI.steps u))
             else []
         end.
Proof.
  intros c w viewId u o report Hv. subst u o report. cbv beta.
  destruct c as [| |index| | |t]; cbn [SharedControls.press].
  - unfold SharedControls.nextStep.
    destruct (UI.currentStep (ui (client w))
              <? len (UI.steps (ui (client w))) - 1);
      [|unfold after; cbn [run snd]; rewrite app_nil_r; reflexivity].
    unfold after at 1. rewrite run_bind, run_set_state.
    fold (after (SharedDemoViewer.updateViewProgress (ui (client w)))
            (mkWorld (with_ui (SharedControls.setCurrentStep
                                 (UI.currentStep (ui (client w)) + 1))
                              (client w)) (server w))).
    rewrite (viewer_updateViewProgress_journal _ viewId _ Hv). reflexivity.
  - unfold SharedControls.prevStep.
    destruct (0 <? UI.currentStep (ui (client w)));
      [|unfold after; cbn [run snd]; rewrite app_nil_r; reflexivity].
    unfold after at 1. rewrite run_bind, run_set_state.
    fold (after (SharedDemoViewer.updateViewProgress (ui (client w)))
            (mkWorld (with_ui (SharedControls.setCurrentStep
                                 (UI.currentStep (ui (client w)) - 1))
                              (client w)) (server w))).
    rewrite (viewer_updateViewProgress_journal _ viewId _ Hv). reflexivity.
  - unfold SharedControls.goToStep.
    unfold after at 1. rewrite run_bind, run_set_state.
    fold (after (SharedDemoViewer.updateViewProgress (ui (client w)))
            (mkWorld (with_ui (SharedControls.setCurrentStep index)
                              (client w)) (server w))).
    rewrite (viewer_updateViewProgress_journal _ viewId _ Hv). reflexivity.
  - destruct ((UI.currentStep (ui (client w)) =? 0)
              && negb (UI.isPlaying (ui (client w))));
      [rewrite app_nil_r; reflexivity|].
    unfold SharedControls.restart. cbv zeta.
    change (after (set_state (SharedControls.setCurrentStep 0) ;;
                   set_state (SharedControls.setIsPlaying false)) w)
      with (mkWorld (with_ui (SharedControls.setIsPlaying false)
                       (with_ui (SharedControls.setCurrentStep 0) (client w)))
                    (server w)).
    match goal with
    | |- context [run (SharedDemoViewer.updateViewProgress ?r) ?W] =>
        pose proof (viewer_updateViewProgress_journal r viewId W Hv) as J
    end.
    unfold after in J. rewrite J.
    unfold seconds_spent.
    cbn [client server SharedControls.with_startTime with_ui clock
         startTimeRef].
    rewrite Z.sub_diag. reflexivity.
  - unfold SharedControls.togglePlay.
    destruct ((len (UI.steps (ui (client w))) - 1
               <=? UI.currentStep (ui (client w)))
              && negb (UI.isPlaying (ui (client w))));
      unfold after; cbn [run snd]; rewrite app_nil_r; reflexivity.
  - unfold SharedControls.autoplay.
    destruct (UI.isPlaying (ui (client w))
              && (0 <? len (UI.steps (ui (client w))))) eqn:G;
      cbn [andb]; [|rewrite app_nil_r; reflexivity].
    apply andb_true_iff in G. destruct G as (G & _).
    cbn [SharedControls.ticking]. rewrite G.
    unfold SharedControls.tick.
    cbn [SharedControls.at_time client ui].
    destruct (len (UI.steps (ui (client w))) - 1
              <=? UI.currentStep (ui (client w))).
    + rewrite run_bind, run_set_state.
      rewrite (trackCompletion_run (ui (client w)) viewId _ Hv). cbn [snd].
      match goal with
      | |- context [after (AnalyticsService.updateViewProgress ?i ?s ?k) ?W] =>
          destruct (progress_write i s k W) as (_ & _ & _ & P4 & _)
      end.
      rewrite P4. reflexivity.
    + rewrite run_set_state. cbn [snd server]. rewrite app_nil_r.
      reflexivity.
Qed.

Lemma X19_witness :
  let w := after (SharedDemoViewer.mount "tok") (Sample.world []) in
  UI.viewId (ui (client w)) = Some "v1"
  /\ journal (server (SharedControls.press (SharedControls.GoTo 2) w))
     = journal (server w) ++ [(UpdateProgress "v1" 5 1, Accept)].
Proof.
  cbv zeta. split; [reflexivity|].
  apply (X19_controls_report_the_step_left
           (SharedControls.GoTo 2)
           (after (SharedDemoViewer.mount "tok") (Sample.world []))
           "v1" eq_refl).
Defined.

(** ** The public viewer *)

Lemma public_press c w :
  let u := ui (client w) in
  PublicControls.press c w
  = mkWorld
      (with_ui
         (fun _ =>
            match c with
            | SharedControls.Next =>
                if UI.currentStep u <? len (UI.steps u) - 1
                then SharedControls.setCurrentStep (UI.currentStep u + 1) u
                else u
            | SharedControls.Prev =>
                if 0 <? UI.currentStep u
                then SharedControls.setCurrentStep (UI.currentStep u - 1) u
                else u
            | SharedControls.GoTo index =>
                SharedControls.setCurrentStep index u
            | SharedControls.Restart =>
                if (UI.currentStep u =? 0) && negb (UI.isPlaying u)
                then u
                else SharedControls.setIsPlaying false
                       (SharedControls.setCurrentStep 0 u)
            | SharedControls.Play =>
                if (len (UI.steps u) - 1 <=? UI.currentStep u)
                   && negb (UI.isPlaying u)
                then u
                else SharedControls.setIsPlaying (negb (UI.isPlaying u)) u
            | SharedControls.Tick _ =>
                if UI.isPlaying u && (0 <? len (UI.steps u))
                then if len (UI.steps u) - 1 <=? UI.currentStep u
                     then SharedControls.setIsPlaying false u
                     else SharedControls.setCurrentStep
                            (UI.currentStep u + 1) u
                else u
            end)
         (client w))
      (server w).
Proof.
  cbv zeta. destruct w as [[u s l k o] sv].
  destruct c as [| |index| | |t];
    cbn [PublicControls.press client ui server];
    unfold PublicControls.nextStep, PublicControls.prevStep,
      PublicControls.goToStep, PublicControls.restart,
      PublicControls.togglePlay, PublicControls.tick, after.
  - destruct (UI.currentStep u <? len (UI.steps u) - 1); reflexivity.
  - destruct (0 <? UI.currentStep u); reflexivity.
  - reflexivity.
  - destruct ((UI.currentStep u =? 0) && negb (UI.isPlaying u));
      reflexivity.
  - destruct ((len (UI.steps u) - 1 <=? UI.currentStep u)
              && negb (UI.isPlaying u)); reflexivity.
  - destruct (UI.isPlaying u && (0 <? len (UI.steps u))); [|reflexivity].
    rewrite run_set_state. unfold with_ui.
    cbn [snd client ui server startTimeRef lastUpdateRef clock console].
    destruct (len (UI.steps u) - 1 <=? UI.currentStep u); reflexivity.
Qed.

(** X20.  The public player stays on a step and sends nothing.  From a tab
    that shows one of its steps, whatever sequence of next, previous, step
    buttons, restart, play and pause and timer ticks follows, the current
    step stays one of the loaded steps, the steps stay as they were, and the
    store is sent no request: the public viewer reports no progress. *)
Theorem X20_public_player_stays_on_a_step :
  forall cs w,
    let start := ui (client w) in
    0 <= UI.currentStep start < len (UI.steps start) ->
    Forall (SharedControls.on_screen start) cs ->
    let w' := fold_left (fun w c => PublicControls.press c w) cs w in
    UI.steps (ui (client w')) = UI.steps start
    /\ 0 <= UI.currentStep (ui (client w')) < len (UI.steps start)
    /\ server w' = server w.
Proof.
  induction cs as [|c cs IH]; intros w start Hb Hcs; cbv zeta.
  - cbn [fold_left]. repeat split; try reflexivity; apply Hb.
  - inversion Hcs as [|c' cs' Hc Hrest]; subst. cbn [fold_left].
    specialize (IH (PublicControls.press c w)). cbv zeta in IH.
    rewrite public_press in *. cbv zeta in *.
    cbn [client server ui with_ui] in *.
    assert (K : UI.steps
                  match c with
                  | SharedControls.Next =>
                      if UI.currentStep (ui (client w))
                         <? len (UI.steps (ui (client w))) - 1
                      then SharedControls.setCurrentStep
                             (UI.currentStep (ui (client w)) + 1)
                             (ui (client w))
                      else ui (client w)
                  | SharedControls.Prev =>
                      if 0 <? UI.currentStep (ui (client w))
                      then SharedControls.setCurrentStep
                             (UI.currentStep (ui (client w)) - 1)
                             (ui (client w))
                      else ui (client w)
                  | SharedControls.GoTo index =>
                      SharedControls.setCurrentStep index (ui (client w))
                  | SharedControls.Restart =>
                      if (UI.currentStep (ui (client w)) =? 0)
                         && negb (UI.isPlaying (ui (client w)))
                      then ui (client w)
                      else SharedControls.setIsPlaying false
                             (SharedControls.setCurrentStep 0
                                                            (ui (client w)))
                  | SharedControls.Play =>
                      if (len (UI.steps (ui (client w))) - 1
                          <=? UI.currentStep (ui (client w)))
                         && negb (UI.isPlaying (ui (client w)))
                      then ui (client w)
                      else SharedControls.setIsPlaying
                             (negb (UI.isPlaying (ui (client w))))
                             (ui (client w))
                  | SharedControls.Tick _ =>
                      if UI.isPlaying (ui (client w))
                         && (0 <? len (UI.steps (ui (client w))))
                      then if len (UI.steps (ui (client w))) - 1
                              <=? UI.currentStep (ui (client w))
                           then SharedControls.setIsPlaying false
                                  (ui (client w))
                           else SharedControls.setCurrentStep
                                  (UI.currentStep (ui (client w)) + 1)
                                  (ui (client w))
                      else ui (client w)
                  end
                = UI.steps (ui (client w))).
    { destruct c as [| |index| | |t]; cbn;
        repeat match goal with
               | |- context [if ?b then _ else _] => destruct b
               end; reflexivity. }
    rewrite K in IH. apply IH.
    + clear IH K Hrest. fold start in Hb |- *.
      destruct c as [| |index| | |t]; cbn [SharedControls.on_screen] in Hc.
      * destruct (Z.ltb_spec (UI.currentStep start)
                             (len (UI.steps start) - 1)); cbn; lia.
      * destruct (Z.ltb_spec 0 (UI.currentStep start)); cbn; lia.
      * cbn; lia.
      * destruct ((UI.currentStep start =? 0)
                  && negb (UI.isPlaying start)); cbn; lia.
      * destruct ((len (UI.steps start) - 1 <=? UI.currentStep start)
                  && negb (UI.isPlaying start)); cbn; lia.
      * destruct (UI.isPlaying start && (0 <? len (UI.steps start)));
          [destruct (Z.leb_spec (len (UI.steps start) - 1)
                                (UI.currentStep start))|]; cbn; lia.
    + eapply Forall_impl; [|exact Hrest].
      intros [| |index| | |t] H; cbn [SharedControls.on_screen] in *;
        try exact I. rewrite K. exact H.
Qed.

Lemma X20_witness :
  let w := after (PublicControls.fetchSteps "D1") (Sample.world []) in
  let cs := [SharedControls.Play; SharedControls.Tick 1; SharedControls.GoTo 2;
             SharedControls.Tick 2; SharedControls.Tick 3;
             SharedControls.Prev] in
  0 <= UI.currentStep (ui (client w)) < len (UI.steps (ui (client w)))
  /\ Forall (SharedControls.on_screen (ui (client w))) cs
  /\ server (fold_left (fun w c => PublicControls.press c w) cs w)
     = server w.
Proof.
  cbv zeta.
  assert (Hb : 0 <= UI.currentStep
                      (ui (client (after (PublicControls.fetchSteps "D1")
                                         (Sample.world []))))
               < len (UI.steps
                        (ui (client (after (PublicControls.fetchSteps "D1")
                                           (Sample.world []))))))
    by (vm_compute; split; [discriminate|reflexivity]).
  assert (Hc : Forall
                 (SharedControls.on_screen
                    (ui (client (after (PublicControls.fetchSteps "D1")
                                       (Sample.world [])))))
                 [SharedControls.Play; SharedControls.Tick 1;
                  SharedControls.GoTo 2; SharedControls.Tick 2;
                  SharedControls.Tick 3; SharedControls.Prev]).
  { repeat (apply Forall_cons;
            [first [exact I
                   |vm_compute; split; [discriminate|reflexivity]]|]).
    apply Forall_nil. }
  split; [exact Hb|]. split; [exact Hc|].
  apply (X20_public_player_stays_on_a_step _ _ Hb Hc).
Defined.


(** ** The dashboard *)

(** X22.  The dashboard shows figures, never an error, as soon as it has an
    id.  With a non-empty [demoId] it shows the demo summary, and with none
    but a non-empty [userId] the user summary, whatever the store answers
    (a failed fetch shows the empty summary, or the one computed without
    records); [demoId] wins when both are given.  With neither it shows the
    error "Either demoId or userId must be provided", keeps the figures it
    had and logs the error.  Loading always ends. *)
Theorem X22_dashboard_shows_no_error_with_an_id :
  forall demoId userId timeRange d w,
    let d' := fst (AnalyticsDashboard.fetchAnalytics
                     demoId userId timeRange d w) in
    let w' := snd (AnalyticsDashboard.fetchAnalytics
                     demoId userId timeRange d w) in
    AnalyticsDashboard.loading d' = false
    /\ (forall id, AnalyticsDashboard.given demoId = Some id ->
          exists s,
            result (AnalyticsService.getDemoAnalytics id timeRange) w = Ok s
            /\ d' = AnalyticsDashboard.mk (Some s) false None
            /\ w' = after (AnalyticsService.getDemoAnalytics id timeRange) w)
    /\ (forall id, AnalyticsDashboard.given demoId = None ->
          AnalyticsDashboard.given userId = Some id ->
          exists s,
            result (AnalyticsService.getUserAnalytics id timeRange) w = Ok s
            /\ d' = AnalyticsDashboard.mk (Some s) false None
            /\ w' = after (AnalyticsService.getUserAnalytics id timeRange) w)
    /\ (AnalyticsDashboard.given demoId = None ->
        AnalyticsDashboard.given userId = None ->
        d' = AnalyticsDashboard.mk
               (AnalyticsDashboard.analytics d) false
               (Some "Either demoId or userId must be provided")
        /\ server w' = server w
        /\ console (client w')
           = console (client w)
             ++ [("Failed to fetch analytics:",
                  "Either demoId or userId must be provided")]).
Proof.
  intros demoId userId timeRange d w. cbv zeta.
  unfold AnalyticsDashboard.fetchAnalytics.
  destruct (AnalyticsDashboard.given demoId) as [did|] eqn:Gd;
    [|destruct (AnalyticsDashboard.given userId) as [uid|] eqn:Gu].
  - pose proof (getDemoAnalytics_result did timeRange w) as R.
    cbv zeta in R. unfold result in *. unfold after.
    destruct (run (AnalyticsService.getDemoAnalytics did timeRange) w)
      as [r w1] eqn:Run.
    cbn [fst] in R. subst r. cbn [fst snd AnalyticsDashboard.loading].
    split; [reflexivity|]. split; [|split].
    + intros id [= <-]. rewrite Run. eexists.
      split; [reflexivity|]. split; reflexivity.
    + intros id [=].
    + intros [=].
  - pose proof (getUserAnalytics_result uid timeRange w) as R.
    cbv zeta in R. unfold result in *. unfold after.
    destruct (run (AnalyticsService.getUserAnalytics uid timeRange) w)
      as [r w1] eqn:Run.
    cbn [fst] in R. subst r. cbn [fst snd AnalyticsDashboard.loading].
    split; [reflexivity|]. split; [|split].
    + intros id [=].
    + intros id _ [= <-]. rewrite Run. eexists.
      split; [reflexivity|]. split; reflexivity.
    + intros _ [=].
  - cbn [fst snd AnalyticsDashboard.loading AnalyticsDashboard.analytics].
    split; [reflexivity|]. split; [|split].
    + intros id [=].
    + intros id _ [=].
    + intros _ _. repeat split.
Qed.

Lemma X22_witness :
  AnalyticsDashboard.given (Some "D1") = Some "D1"
  /\ exists s,
       fst (AnalyticsDashboard.fetchAnalytics
              (Some "D1") (Some "U1") "7d"
              (AnalyticsDashboard.mk None true None)
              (Sample.world [Reject "offline"]))
       = AnalyticsDashboard.mk (Some s) false None.
Proof.
  split; [reflexivity|].
  destruct (proj1 (proj2 (X22_dashboard_shows_no_error_with_an_id
                            (Some "D1") (Some "U1") "7d"
                            (AnalyticsDashboard.mk None true None)
                            (Sample.world [Reject "offline"])))
              "D1" eq_refl) as (s & _ & Hd & _).
  exists s. exact Hd.
Defined.

(** ** The token of a share link *)

Lemma concat_empty_cons x xs :
  String.concat "" (x :: xs) = String.append x (String.concat "" xs).
Proof.
  destruct xs as [|y ys]; cbn [String.concat].
  - induction x as [|c x IH]; cbn [String.append]; congruence.
  - reflexivity.
Qed.

(** A byte is written as its two hexadecimal digits. *)
Lemma byte_hex b :
  0 <= b < 256 ->
  ShareLinkGenerator.padStart 2 "0" (ShareLinkGenerator.toString16 b)
  = String (ShareLinkGenerator.hexDigit (b / 16))
      (String (ShareLinkGenerator.hexDigit (b mod 16)) "").
Proof.
  intros Hb.
  assert (A : forallb
                (fun n =>
                   String.eqb
                     (ShareLinkGenerator.padStart 2 "0"
                        (ShareLinkGenerator.toString16 (Z.of_nat n)))
                     (String (ShareLinkGenerator.hexDigit (Z.of_nat n / 16))
                        (String (ShareLinkGenerator.hexDigit
                                   (Z.of_nat n mod 16)) "")))
                (seq 0 256) = true) by (vm_compute; reflexivity).
  rewrite forallb_forall in A.
  specialize (A (Z.to_nat b)). rewrite Z2Nat.id in A by lia.
  apply String.eqb_eq. apply A. apply in_seq. lia.
Qed.

Lemma hexDigit_inj a b :
  0 <= a < 16 -> 0 <= b < 16 ->
  ShareLinkGenerator.hexDigit a = ShareLinkGenerator.hexDigit b -> a = b.
Proof.
  intros Ha Hb E.
  assert (A : forallb
                (fun m =>
                   forallb
                     (fun n =>
                        negb (Ascii.eqb
                                (ShareLinkGenerator.hexDigit (Z.of_nat m))
                                (ShareLinkGenerator.hexDigit (Z.of_nat n)))
                        || Nat.eqb m n)
                     (seq 0 16))
                (seq 0 16) = true) by (vm_compute; reflexivity).
  rewrite forallb_forall in A.
  specialize (A (Z.to_nat a) ltac:(apply in_seq; lia)).
  rewrite forallb_forall in A.
  specialize (A (Z.to_nat b) ltac:(apply in_seq; lia)).
  rewrite !Z2Nat.id in A by lia. rewrite E, Ascii.eqb_refl in A.
  cbn [negb orb] in A. apply Nat.eqb_eq in A. lia.
Qed.

Lemma hexDigit_is_hex a :
  0 <= a < 16 ->
  In (ShareLinkGenerator.hexDigit a)
     (list_ascii_of_string "0123456789abcdef").
Proof.
  intros Ha.
  assert (A : forallb
                (fun n =>
                   existsb (Ascii.eqb
                              (ShareLinkGenerator.hexDigit (Z.of_nat n)))
                           (list_ascii_of_string "0123456789abcdef"))
                (seq 0 16) = true) by (vm_compute; reflexivity).
  rewrite forallb_forall in A.
  specialize (A (Z.to_nat a) ltac:(apply in_seq; lia)).
  rewrite Z2Nat.id in A by lia. apply existsb_exists in A.
  destruct A as (c & Hc & Ec). apply Ascii.eqb_eq in Ec. subst c. exact Hc.
Qed.

Lemma token_cons b bytes :
  0 <= b < 256 ->
  ShareLinkGenerator.token (b :: bytes)
  = String (ShareLinkGenerator.hexDigit (b / 16))
      (String (ShareLinkGenerator.hexDigit (b mod 16))
         (ShareLinkGenerator.token bytes)).
Proof.
  intros Hb. unfold ShareLinkGenerator.token. cbn [map].
  rewrite concat_empty_cons, (byte_hex b Hb). reflexivity.
Qed.

(** X23.  The token is the hexadecimal writing of the random bytes: two
    characters per byte, all of them among [0-9a-f], so 64 characters for
    the 32 bytes drawn, and two different byte sequences never give the
    same token. *)
Theorem X23_token_is_the_hex_of_the_bytes :
  forall bytes,
    Forall (fun b => 0 <= b < 256) bytes ->
    String.length (ShareLinkGenerator.token bytes)
    = (2 * List.length bytes)%nat
    /\ (forall c,
          In c (list_ascii_of_string (ShareLinkGenerator.token bytes)) ->
          In c (list_ascii_of_string "0123456789abcdef"))
    /\ (forall bytes',
          Forall (fun b => 0 <= b < 256) bytes' ->
          ShareLinkGenerator.token bytes' = ShareLinkGenerator.token bytes ->
          bytes' = bytes).
Proof.
  induction 1 as [|b bytes Hb Hrest IH].
  - split; [reflexivity|]. split; [intros c []|].
    intros bytes' H' E. destruct H' as [|b' bytes' Hb' _]; [reflexivity|].
    rewrite (token_cons b' bytes' Hb') in E. discriminate E.
  - destruct IH as (L & C & J). rewrite (token_cons b bytes Hb).
    split; [|split].
    + cbn [String.length List.length]. rewrite L. lia.
    + intros c. cbn [list_ascii_of_string In].
      intros [<- | [<- | Hc]].
      * apply hexDigit_is_hex.
        split; [apply Z.div_pos; lia|apply Z.div_lt_upper_bound; lia].
      * apply hexDigit_is_hex. apply Z.mod_pos_bound. lia.
      * apply C. exact Hc.
    + intros bytes' H' E. destruct H' as [|b' bytes' Hb' Hrest'].
      * discriminate E.
      * rewrite (token_cons b' bytes' Hb') in E.
        injection E as E1 E2 E3.
        apply hexDigit_inj in E1;
          [|split; [apply Z.div_pos; lia|apply Z.div_lt_upper_bound; lia]
           |split; [apply Z.div_pos; lia|apply Z.div_lt_upper_bound; lia]].
        apply hexDigit_inj in E2;
          [|apply Z.mod_pos_bound; lia|apply Z.mod_pos_bound; lia].
        f_equal.
        -- pose proof (Z.div_mod b 16 ltac:(lia)).
           pose proof (Z.div_mod b' 16 ltac:(lia)). lia.
        -- apply J; assumption.
Qed.

Lemma X23_witness :
  Forall (fun b => 0 <= b < 256) [0; 10; 255]
  /\ ShareLinkGenerator.token [0; 10; 255] = "000aff"
  /\ String.length (ShareLinkGenerator.token [0; 10; 255]) = 6%nat.
Proof.
  assert (H : Forall (fun b => 0 <= b < 256) [0; 10; 255])
    by (repeat constructor; lia).
  split; [exact H|]. split; [reflexivity|].
  exact (proj1 (X23_token_is_the_hex_of_the_bytes [0; 10; 255] H)).
Defined.
